(** * wgpu-engine: device context, presentation surface, pipeline cache,
      mip generator and texture factory

    A shallow embedding of [Gpu], [Surface], [Program], [MipGenerator] and
    [TextureLoader].  JavaScript numbers that the code only ever uses as
    integers are [Z] with the 32-bit wrap of [x | 0] written out; the sizes a
    resize observer reports are rationals; exceptions are values of an
    outcome type and never roll the mutated state back; objects that are
    shared by reference ([Program] instances) live in a heap; an [async]
    method is the function its caller sees when it awaits the call, and
    the one call that nobody awaits, [generate] from [createTexture], is
    cut at its [await]s: the part before the first runs at once, the parts
    after wait in a job queue. *)

From Stdlib Require Import ZArith QArith Qround Qminmax String List Lia.
From stdpp Require Import base gmap strings list.

Local Open Scope string_scope.
Local Open Scope list_scope.
Local Open Scope Z_scope.

(** ** JavaScript primitives *)

Module JS.

(** [ToInt32]: the wrap-around that [x | 0] applies to an integer. *)
Definition ToInt32 (z : Z) : Z := (z + 2 ^ 31) mod 2 ^ 32 - 2 ^ 31.

(** WebIDL conversion to [unsigned long] of an integer. *)
Definition ToUint32 (z : Z) : Z := z mod 2 ^ 32.

(** Integer part (rounding toward zero) of a finite number. *)
Definition trunc (q : Q) : Z :=
  if Qle_bool 0 q then Qfloor q else Qceiling q.

(** [(x / 2) | 0] for an integer [x]: the quotient is truncated toward
    zero, then wrapped to 32 bits. *)
Definition half (x : Z) : Z := ToInt32 (x ÷ 2).

(** [Math.max(...xs)]; [None] stands for [-Infinity], the value on an
    empty argument list. *)
Definition Math_max (xs : list Z) : option Z :=
  match xs with
  | [] => None
  | x :: rest => Some (fold_left Z.max rest x)
  end.

(** [Math.log2(x)] followed by truncation, for an integer [x >= 1]: the
    integer part of the binary logarithm.  The logarithm is taken exact, as
    the floating-point one is on every integer below [2 ^ 32], the range of
    a texture dimension. *)
Definition Math_log2_int (x : Z) : Z := Z.log2 x.





(** Thrown values: an error object with its [name] and [message]. *)
Record exn := { name : string; message : string }.

(** [new Error(msg)] *)
Definition Error (msg : string) : exn := {| name := "Error"; message := msg |}.

(** The [TypeError] of reading a property of [undefined]. *)
Definition TypeError (msg : string) : exn :=
  {| name := "TypeError"; message := msg |}.

(** Truthiness of a string: only the empty string is falsy. *)
Definition truthy_string (s : string) : bool :=
  match s with EmptyString => false | _ => true end.

(** Truthiness of an integer-valued number: only zero is falsy. *)
Definition truthy_int (z : Z) : bool := negb (z =? 0).

End JS.

(** How a call ends.  [OutOfFuel] is an artefact of the model of the
    [while] loop and is never a behaviour of the program. *)
Inductive outcome (A : Type) : Type :=
| Ok (a : A)
| Throw (e : JS.exn)
| OutOfFuel.
Arguments Ok {A} a.
Arguments Throw {A} e.
Arguments OutOfFuel {A}.

(** ** Platform objects

    Handles of the WebGPU implementation are opaque; a handle is identified
    by the natural number it was allocated with. *)

Definition handle := nat.
Definition GPUTextureFormat := string.

Definition GPUSampler := handle.
Definition GPUShaderModule := handle.
Definition GPURenderPipeline := handle.
Definition GPUCommandEncoder := handle.
Definition GPUCommandBuffer := handle.
Definition GPUBindGroup := handle.
Definition GPUCanvasContext := handle.
Definition ImageSource := handle.

Record GPUShaderModuleDescriptor := {
  shader_label : string;
  shader_code : string;
}.

Record GPUProgrammableStage := {
  stage_module : GPUShaderModule;
  entryPoint : string;
}.

Record GPURenderPipelineDescriptor := {
  pipeline_label : string;
  layout : string;
  vertex : GPUProgrammableStage;
  fragment : GPUProgrammableStage;
  targets : list GPUTextureFormat;
}.

(** The logical device.  Besides its identity and limits it carries the
    answers of the implementation that the code cannot influence: whether
    compiling a shader module throws, and whether building a render pipeline
    for a target format throws. *)
Record GPUDevice := {
  device_id : handle;
  maxTextureDimension2D : Z;
  createShaderModule_throws : GPUShaderModuleDescriptor -> option JS.exn;
  createRenderPipeline_throws : GPUTextureFormat -> option JS.exn;
}.

Record GPUAdapter := {
  adapter_id : handle;
  (** the answer of [adapter.requestDevice(...)]: a device or [null] *)
  requestDevice : option GPUDevice;
}.

Record NavigatorGPU := {
  (** the answer of [navigator.gpu.requestAdapter()]: an adapter or [null] *)
  requestAdapter : option GPUAdapter;
  getPreferredCanvasFormat : GPUTextureFormat;
}.

(** [navigator]; [navigator.gpu] is [None] where the browser has no WebGPU. *)
Record Navigator := { navigator_gpu : option NavigatorGPU }.

(** [GPUTextureUsage], the flag values of the WebGPU standard. *)
Module GPUTextureUsage.
Definition COPY_SRC : Z := 1.
Definition COPY_DST : Z := 2.
Definition TEXTURE_BINDING : Z := 4.
Definition STORAGE_BINDING : Z := 8.
Definition RENDER_ATTACHMENT : Z := 16.
(** [usage] permits [flag] when every bit of [flag] is set in it. *)
Definition permits (usage flag : Z) : bool := Z.land usage flag =? flag.
End GPUTextureUsage.

Record GPUTexture := {
  texture_id : handle;
  texture_label : option string;
  width : Z;
  height : Z;
  format : GPUTextureFormat;
  mipLevelCount : Z;
  usage : Z;
}.

(** [texture.createView({ baseMipLevel, mipLevelCount })] *)
Record GPUTextureView := {
  view_texture : handle;
  baseMipLevel : Z;
  view_mipLevelCount : Z;
}.

Record GPURenderPassDescriptor := {
  pass_label : string;
  view : GPUTextureView;
  clearValue : list Q;
  loadOp : string;
  storeOp : string;
}.

(** ** Device Context: class [Gpu] *)

Record Gpu := {
  label : string;
  _adapter : option GPUAdapter;
  _device : option GPUDevice;
}.

Module Gpu.

(** [new Gpu(label)]: both fields start as [null]. *)
Definition new (label : string) : Gpu :=
  {| label := label; _adapter := None; _device := None |}.

(** The constructor's default label. *)
Definition default_label : string := "untitled".

(** [get ready()]: [!!this._adapter && !!this._device] *)
Definition ready (this : Gpu) : bool :=
  bool_decide (is_Some (_adapter this)) && bool_decide (is_Some (_device this)).

(** [get adapter()] *)
Definition adapter (this : Gpu) : outcome GPUAdapter :=
  match _adapter this with
  | None => Throw (JS.Error "Rendering device is not initialized")
  | Some a => Ok a
  end.

(** [get device()] *)
Definition device (this : Gpu) : outcome GPUDevice :=
  match _device this with
  | None => Throw (JS.Error "Rendering device is not initialized")
  | Some d => Ok d
  end.

(** [(await navigator.gpu?.requestAdapter()) ?? null] *)
Definition request_adapter (navigator : Navigator) : option GPUAdapter :=
  match navigator_gpu navigator with
  | Some g => requestAdapter g
  | None => None
  end.

(** [async init()]: the adapter is stored before it is tested, and so is
    the device; a throw leaves what was stored in place. *)
Definition init (navigator : Navigator) (this : Gpu) : outcome unit * Gpu :=
  let this := {| label := label this; _adapter := request_adapter navigator;
                 _device := _device this |} in
  match _adapter this with
  | None => (Throw (JS.Error "browser does not support WebGPU"), this)
  | Some a =>
      let this := {| label := label this; _adapter := _adapter this;
                     _device := requestDevice a |} in
      match _device this with
      | None => (Throw (JS.Error "browser does not support WebGPU"), this)
      | Some _ => (Ok tt, this)
      end
  end.

End Gpu.

(** ** Presentation Surface: class [Surface] *)

Record HTMLCanvasElement := {
  canvas_width : Z;
  canvas_height : Z;
  offsetWidth : Z;
  offsetHeight : Z;
  (** the answer of [canvas.getContext('webgpu')] *)
  getContext_webgpu : option GPUCanvasContext;
}.

(** What [context.configure] was last called with. *)
Record GPUCanvasConfiguration := {
  config_device : handle;
  config_format : GPUTextureFormat;
  alphaMode : string;
}.

Record ResizeObserverSize := { inlineSize : Q; blockSize : Q }.
Record ResizeObserverEntry := { contentBoxSize : list ResizeObserverSize }.

Record Surface := {
  canvas : HTMLCanvasElement;
  (** whether a resize callback is installed *)
  onResize : bool;
  (** whether the resize observer was created and observes the canvas *)
  _resizeObserver : bool;
  _context : option GPUCanvasContext;
  _format : option GPUTextureFormat;
  (** state of the context object *)
  configuration : option GPUCanvasConfiguration;
  (** the calls of [onResize] so far, each with the canvas size it saw *)
  resize_calls : list (Z * Z);
}.

Module Surface.

(** The setters of [canvas.width] and [canvas.height] convert the number
    to an [unsigned long].  A canvas keeps a converted value up to
    [2 ^ 31 - 1] and stores its default size in place of a greater one; the
    definition leaves that replacement out and is the setter on the values
    below [2 ^ 31]. *)
Definition assign_dimension (x : Q) : Z := JS.ToUint32 (JS.trunc x).

Definition set_canvas (c : HTMLCanvasElement) (this : Surface) : Surface :=
  {| canvas := c; onResize := onResize this;
     _resizeObserver := _resizeObserver this; _context := _context this;
     _format := _format this; configuration := configuration this;
     resize_calls := resize_calls this |}.

Definition set_width (x : Q) (c : HTMLCanvasElement) : HTMLCanvasElement :=
  {| canvas_width := assign_dimension x; canvas_height := canvas_height c;
     offsetWidth := offsetWidth c; offsetHeight := offsetHeight c;
     getContext_webgpu := getContext_webgpu c |}.

Definition set_height (x : Q) (c : HTMLCanvasElement) : HTMLCanvasElement :=
  {| canvas_width := canvas_width c; canvas_height := assign_dimension x;
     offsetWidth := offsetWidth c; offsetHeight := offsetHeight c;
     getContext_webgpu := getContext_webgpu c |}.

(** [new Surface(canvas)] *)
Definition new (canvas : HTMLCanvasElement) : Surface :=
  {| canvas := canvas; onResize := false; _resizeObserver := false;
     _context := None; _format := None; configuration := None;
     resize_calls := [] |}.

Definition truthy_format (f : option GPUTextureFormat) : bool :=
  match f with Some s => JS.truthy_string s | None => false end.

(** [get ready()]: [!!this._context && !!this._format] *)
Definition ready (this : Surface) : bool :=
  bool_decide (is_Some (_context this)) && truthy_format (_format this).

(** [get context()] *)
Definition context (this : Surface) : outcome GPUCanvasContext :=
  match _context this with
  | None => Throw (JS.Error "Surface is not initialized")
  | Some c => Ok c
  end.

(** [get format()]: the test [!this._format] also rejects an empty
    string. *)
Definition format (this : Surface) : outcome GPUTextureFormat :=
  match _format this with
  | Some f => if JS.truthy_string f then Ok f
              else Throw (JS.Error "Surface is not initialized")
  | None => Throw (JS.Error "Surface is not initialized")
  end.

(** The steps of [async init(gpu)], in the order of the source: each
    assignment is in place before the next test can throw. *)
Definition init (navigator : Navigator) (gpu : Gpu) (this : Surface)
  : outcome unit * Surface :=
  let this :=
    set_canvas (set_width (inject_Z (offsetWidth (canvas this))) (canvas this))
               this in
  let this :=
    set_canvas (set_height (inject_Z (offsetHeight (canvas this))) (canvas this))
               this in
  let this :=
    {| canvas := canvas this; onResize := onResize this;
       _resizeObserver := _resizeObserver this;
       _context := getContext_webgpu (canvas this);
       _format := _format this; configuration := configuration this;
       resize_calls := resize_calls this |} in
  match _context this with
  | None => (Throw (JS.Error "canvas does not support WebGPU"), this)
  | Some _ =>
      match navigator_gpu navigator with
      | None => (Throw (JS.TypeError "navigator.gpu is undefined"), this)
      | Some g =>
          let this :=
            {| canvas := canvas this; onResize := onResize this;
               _resizeObserver := _resizeObserver this;
               _context := _context this;
               _format := Some (getPreferredCanvasFormat g);
               configuration := configuration this;
               resize_calls := resize_calls this |} in
          match Gpu.device gpu with
          | Throw e => (Throw e, this)
          | OutOfFuel => (OutOfFuel, this)
          | Ok d =>
              (Ok tt,
               {| canvas := canvas this; onResize := onResize this;
                  _resizeObserver := true;
                  _context := _context this; _format := _format this;
                  configuration :=
                    Some {| config_device := device_id d;
                            config_format := getPreferredCanvasFormat g;
                            alphaMode := "premultiplied" |};
                  resize_calls := resize_calls this |})
          end
      end
  end.

(** The body of the observer's [entries.forEach] callback for one entry.
    [gpu] is the state of the captured [Gpu] object when the observer
    fires. *)
Definition resize_entry (gpu : Gpu) (entry : ResizeObserverEntry)
           (this : Surface) : outcome unit * Surface :=
  match contentBoxSize entry with
  | [] => (Throw (JS.TypeError "contentBoxSize[0] is undefined"), this)
  | box :: _ =>
      match Gpu.device gpu with
      | Throw e => (Throw e, this)
      | OutOfFuel => (OutOfFuel, this)
      | Ok d =>
          let limit := inject_Z (maxTextureDimension2D d) in
          let width := Qmin (inlineSize box) limit in
          let height := Qmin (blockSize box) limit in
          let this := set_canvas (set_width (Qmax 1 width) (canvas this)) this in
          let this := set_canvas (set_height (Qmax 1 height) (canvas this)) this in
          if onResize this then
            (Ok tt,
             {| canvas := canvas this; onResize := onResize this;
                _resizeObserver := _resizeObserver this;
                _context := _context this; _format := _format this;
                configuration := configuration this;
                resize_calls :=
                  resize_calls this
                  ++ [(canvas_width (canvas this), canvas_height (canvas this))] |})
          else (Ok tt, this)
      end
  end.

(** The observer's callback: [entries.forEach(...)]; a throw ends the
    iteration. *)
Fixpoint resize_observer (gpu : Gpu) (entries : list ResizeObserverEntry)
         (this : Surface) : outcome unit * Surface :=
  match entries with
  | [] => (Ok tt, this)
  | entry :: rest =>
      match resize_entry gpu entry this with
      | (Ok _, this) => resize_observer gpu rest this
      | failed => failed
      end
  end.

End Surface.

(** ** Pipeline Cache entries: class [Program] *)

Record Program := {
  _shaderModule : option GPUShaderModule;
  _pipeline : option GPURenderPipeline;
}.

Record ProgramDescriptor := {
  shaderDescriptor : unit -> GPUShaderModuleDescriptor;
  pipelineDescriptor : GPUShaderModule -> GPURenderPipelineDescriptor;
}.

(** A reference to a [Program] object: its index in the heap. *)
Definition ref := nat.

Record MipGenerator := {
  _sampler : option GPUSampler;
  _programMap : gmap GPUTextureFormat ref;
}.

(** The calls made on the device, its queue and its encoders. *)
Inductive Command :=
| CreateSampler (h : GPUSampler) (minFilter : string)
| CreateShaderModule (h : GPUShaderModule) (d : GPUShaderModuleDescriptor)
| CreateRenderPipeline (h : GPURenderPipeline) (d : GPURenderPipelineDescriptor)
| CreateTexture (t : GPUTexture)
| CopyExternalImageToTexture (source : ImageSource) (flipY : bool)
                             (destination : handle) (mipLevel : Z)
                             (copy_width copy_height : Z)
| CreateBindGroup (h : GPUBindGroup) (layout_of : GPURenderPipeline)
                  (layout_index : Z) (sampler : GPUSampler) (source : GPUTextureView)
| CreateCommandEncoder (h : GPUCommandEncoder) (encoder_label : string)
| BeginRenderPass (encoder : GPUCommandEncoder) (d : GPURenderPassDescriptor)
| SetPipeline (encoder : GPUCommandEncoder) (p : GPURenderPipeline)
| SetBindGroup (encoder : GPUCommandEncoder) (index : Z) (g : GPUBindGroup)
| Draw (encoder : GPUCommandEncoder) (vertexCount : Z)
| EndPass (encoder : GPUCommandEncoder)
| Finish (encoder : GPUCommandEncoder) (buffer : GPUCommandBuffer)
| Submit (buffers : list GPUCommandBuffer).

(** What is left to run of a [generate] call that was started: an [async]
    function runs when it is called up to its first [await], and each part
    after an [await] is a job of its own that waits in a queue.

    [ResumeGetProgram]: the rest of [getProgram] after
    [await program.init(...)], for the [generate] call on [texture] that
    awaits it; [program] is the object made before the [await] and
    [initialised] is how its [init] ended.

    [ResumeGenerate]: the rest of [generate] after
    [await this.getProgram(...)]; [program] is what [getProgram] gave or
    threw. *)
Inductive Job :=
| ResumeGetProgram (gpu : Gpu) (texture : GPUTexture) (levels : option Z)
                   (program : ref) (initialised : outcome unit)
| ResumeGenerate (gpu : Gpu) (texture : GPUTexture) (levels : option Z)
                 (program : outcome ref).

(** The mutable world of a texture loader: the handle allocator and the
    command log of the implementation, the heap of [Program] objects, the
    loader's own mip generator, and the queue of the jobs that wait to be
    run, oldest first. *)
Record World := {
  next_handle : handle;
  commands : list Command;
  heap : list Program;
  mipGenerator : MipGenerator;
  pending : list Job;
}.

(** ** State and exceptions

    A method is a function of the world that returns how it ended together
    with the world it left behind; a throw keeps every mutation made before
    it. *)

Definition M (A : Type) : Type := World -> outcome A * World.

Definition ret {A} (a : A) : M A := fun w => (Ok a, w).

Definition bind {A B} (c : M A) (k : A -> M B) : M B :=
  fun w =>
    match c w with
    | (Ok a, w') => k a w'
    | (Throw e, w') => (Throw e, w')
    | (OutOfFuel, w') => (OutOfFuel, w')
    end.

Definition lift {A} (o : outcome A) : M A := fun w => (o, w).

Notation "'let!' x ':=' c 'in' k" := (bind c (fun x => k))
  (at level 10, x name, c at level 100, k at level 200).

Definition fresh : M handle :=
  fun w =>
    (Ok (next_handle w),
     {| next_handle := S (next_handle w); commands := commands w;
        heap := heap w; mipGenerator := mipGenerator w; pending := pending w |}).

Definition emit (c : Command) : M unit :=
  fun w =>
    (Ok tt,
     {| next_handle := next_handle w; commands := commands w ++ [c];
        heap := heap w; mipGenerator := mipGenerator w; pending := pending w |}).

Definition spawn (j : Job) : M unit :=
  fun w =>
    (Ok tt,
     {| next_handle := next_handle w; commands := commands w;
        heap := heap w; mipGenerator := mipGenerator w;
        pending := pending w ++ [j] |}).

(** Taking the oldest job off the queue. *)
Definition next_job : M (option Job) :=
  fun w =>
    match pending w with
    | [] => (Ok None, w)
    | j :: rest =>
        (Ok (Some j),
         {| next_handle := next_handle w; commands := commands w;
            heap := heap w; mipGenerator := mipGenerator w;
            pending := rest |})
    end.

(** How a computation ends, as a value: what a promise settles with. *)
Definition settle {A} (c : M A) : M (outcome A) :=
  fun w => let (o, w') := c w in (Ok o, w').

(** ** The calls on the WebGPU implementation *)

Module Device.

Definition createSampler (d : GPUDevice) (minFilter : string) : M GPUSampler :=
  let! h := fresh in
  let! _ := emit (CreateSampler h minFilter) in
  ret h.

Definition createShaderModule (d : GPUDevice) (desc : GPUShaderModuleDescriptor)
  : M GPUShaderModule :=
  match createShaderModule_throws d desc with
  | Some e => lift (Throw e)
  | None =>
      let! h := fresh in
      let! _ := emit (CreateShaderModule h desc) in
      ret h
  end.

(** The first target format the implementation refuses decides the throw. *)
Fixpoint refused (d : GPUDevice) (fs : list GPUTextureFormat) : option JS.exn :=
  match fs with
  | [] => None
  | f :: rest =>
      match createRenderPipeline_throws d f with
      | Some e => Some e
      | None => refused d rest
      end
  end.

Definition createRenderPipeline (d : GPUDevice) (desc : GPURenderPipelineDescriptor)
  : M GPURenderPipeline :=
  match refused d (targets desc) with
  | Some e => lift (Throw e)
  | None =>
      let! h := fresh in
      let! _ := emit (CreateRenderPipeline h desc) in
      ret h
  end.

Definition createBindGroup (d : GPUDevice) (layout_of : GPURenderPipeline)
           (layout_index : Z) (sampler : GPUSampler) (source : GPUTextureView)
  : M GPUBindGroup :=
  let! h := fresh in
  let! _ := emit (CreateBindGroup h layout_of layout_index sampler source) in
  ret h.

Definition createCommandEncoder (d : GPUDevice) (encoder_label : string)
  : M GPUCommandEncoder :=
  let! h := fresh in
  let! _ := emit (CreateCommandEncoder h encoder_label) in
  ret h.

(** The texture reports the dimensions, format, level count and usage it
    was created with. *)
Definition createTexture (d : GPUDevice) (label : option string)
           (format : GPUTextureFormat) (size : Z * Z) (mipLevelCount usage : Z)
  : M GPUTexture :=
  let! h := fresh in
  let t := {| texture_id := h; texture_label := label; width := fst size;
              height := snd size; format := format;
              mipLevelCount := mipLevelCount; usage := usage |} in
  let! _ := emit (CreateTexture t) in
  ret t.

(** The destination is given as [{ texture }] only: its [mipLevel] is the
    default of the standard, 0. *)
Definition copyExternalImageToTexture (d : GPUDevice) (source : ImageSource)
           (flipY : bool) (t : GPUTexture) (copy_width copy_height : Z) : M unit :=
  emit (CopyExternalImageToTexture source flipY (texture_id t) 0
                                   copy_width copy_height).

Definition createView (t : GPUTexture) (baseMipLevel mipLevelCount : Z)
  : GPUTextureView :=
  {| view_texture := texture_id t; baseMipLevel := baseMipLevel;
     view_mipLevelCount := mipLevelCount |}.

Definition finish (encoder : GPUCommandEncoder) : M GPUCommandBuffer :=
  let! h := fresh in
  let! _ := emit (Finish encoder h) in
  ret h.

Definition submit (d : GPUDevice) (buffers : list GPUCommandBuffer) : M unit :=
  emit (Submit buffers).

End Device.

(** ** class [Program] *)

Module Program.

(** [new Program()] (the object itself, before it is placed in the heap) *)
Definition new : Program := {| _shaderModule := None; _pipeline := None |}.

(** [get ready()] *)
Definition ready (this : Program) : bool :=
  bool_decide (is_Some (_shaderModule this))
  && bool_decide (is_Some (_pipeline this)).

(** [get shaderModule()] *)
Definition shaderModule (this : Program) : outcome GPUShaderModule :=
  match _shaderModule this with
  | None => Throw (JS.Error "Program is not initialized")
  | Some m => Ok m
  end.

(** [get pipeline()] *)
Definition pipeline (this : Program) : outcome GPURenderPipeline :=
  match _pipeline this with
  | None => Throw (JS.Error "Program is not initialized")
  | Some p => Ok p
  end.

(** Allocation of a [new Program()]: the reference is the next free index
    of the heap. *)
Definition alloc : M ref :=
  fun w =>
    (Ok (length (heap w)),
     {| next_handle := next_handle w; commands := commands w;
        heap := heap w ++ [new]; mipGenerator := mipGenerator w;
        pending := pending w |}).

(** Reading the object behind a reference.  No reference dangles: the only
    references are those [alloc] returned, and the heap never shrinks. *)
Definition read (r : ref) : M Program :=
  fun w => (Ok (default new (heap w !! r)), w).

(** In-place update of the object behind a reference. *)
Definition update (r : ref) (f : Program -> Program) : M unit :=
  fun w =>
    (Ok tt,
     {| next_handle := next_handle w; commands := commands w;
        heap := alter f r (heap w); mipGenerator := mipGenerator w;
        pending := pending w |}).

(** [async init(gpu, { shaderDescriptor, pipelineDescriptor })] on the
    object behind [this]. *)
Definition init (this : ref) (gpu : Gpu) (desc : ProgramDescriptor) : M unit :=
  let! d := lift (Gpu.device gpu) in
  let! m := Device.createShaderModule d (shaderDescriptor desc tt) in
  let! _ := update this (fun p => {| _shaderModule := Some m;
                                     _pipeline := _pipeline p |}) in
  let! d := lift (Gpu.device gpu) in
  let! p := Device.createRenderPipeline d (pipelineDescriptor desc m) in
  update this (fun q => {| _shaderModule := _shaderModule q;
                           _pipeline := Some p |}).

End Program.

(** ** Mip Generator and Pipeline Cache: class [MipGenerator] *)

Module MipGenerator.

(** Modelled from the spec: the text of the asset [./assets/mipmap.wgsl],
    which is imported raw and is not among the sources; the spec describes
    it as a full-screen vertex stage and a fragment stage that samples the
    source level.  The code only hands the text to the implementation. *)
Definition shaderCode : string := "mipmap.wgsl".

(** [new MipGenerator()] *)
Definition new : MipGenerator := {| _sampler := None; _programMap := ∅ |}.

Definition this : M MipGenerator := fun w => (Ok (mipGenerator w), w).

Definition assign (g : MipGenerator) : M unit :=
  fun w =>
    (Ok tt,
     {| next_handle := next_handle w; commands := commands w;
        heap := heap w; mipGenerator := g; pending := pending w |}).

(** [get sampler()] *)
Definition sampler (g : MipGenerator) : outcome GPUSampler :=
  match _sampler g with
  | None => Throw (JS.Error "MipGenerator is not initialized")
  | Some s => Ok s
  end.

(** [async init(gpu)] *)
Definition init (gpu : Gpu) : M unit :=
  let! d := lift (Gpu.device gpu) in
  let! s := Device.createSampler d "linear" in
  let! g := this in
  assign {| _sampler := Some s; _programMap := _programMap g |}.

(** [countMipLevels(...sizes)]: [(1 + Math.log2(maxSize)) | 0].  On an
    empty argument list, on zero and on a negative maximum the logarithm
    is [NaN] or [-Infinity], which [| 0] turns into [0]. *)
Definition countMipLevels (sizes : list Z) : Z :=
  match JS.Math_max sizes with
  | None => 0
  | Some maxSize =>
      if maxSize <=? 0 then 0
      else JS.ToInt32 (1 + JS.Math_log2_int maxSize)
  end.


(** The descriptor that [getProgram] hands to [Program.init]. *)
Definition programDescriptor (format : GPUTextureFormat) : ProgramDescriptor :=
  {| shaderDescriptor := fun _ =>
       {| shader_label := "mipmap shader"; shader_code := shaderCode |};
     pipelineDescriptor := fun module =>
       {| pipeline_label := "mipmap pipeline";
          layout := "auto";
          vertex := {| stage_module := module; entryPoint := "vs" |};
          fragment := {| stage_module := module; entryPoint := "fs" |};
          targets := [format] |} |}.

(** [async getProgram(gpu, format)] *)
Definition getProgram (gpu : Gpu) (format : GPUTextureFormat) : M ref :=
  let! g := this in
  match _programMap g !! format with
  | Some program => ret program
  | None =>
      let! program := Program.alloc in
      let! _ := Program.init program gpu (programDescriptor format) in
      let! g := this in
      let! _ := assign {| _sampler := _sampler g;
                          _programMap := <[format := program]> (_programMap g) |} in
      ret program
  end.

(** [getBindGroup({ gpu, program, texture, baseMipLevel })] *)
Definition getBindGroup (gpu : Gpu) (program : ref) (texture : GPUTexture)
           (baseMipLevel : Z) : M GPUBindGroup :=
  let! d := lift (Gpu.device gpu) in
  let! p := Program.read program in
  let! pipeline := lift (Program.pipeline p) in
  let! g := this in
  let! s := lift (sampler g) in
  Device.createBindGroup d pipeline 0 s (Device.createView texture baseMipLevel 1).

(** [getRenderPassDescriptor({ texture, baseMipLevel })] *)
Definition getRenderPassDescriptor (texture : GPUTexture) (baseMipLevel : Z)
  : GPURenderPassDescriptor :=
  {| pass_label := "mimap renderPass";
     view := Device.createView texture baseMipLevel 1;
     clearValue := [0%Q; 0%Q; 0%Q; 1%Q];
     loadOp := "clear";
     storeOp := "store" |}.

(** [renderMipmap({ encoder, program, renderPassDescriptor, bindGroup })] *)
Definition renderMipmap (encoder : GPUCommandEncoder) (program : ref)
           (renderPassDescriptor : GPURenderPassDescriptor)
           (bindGroup : GPUBindGroup) : M unit :=
  let! _ := emit (BeginRenderPass encoder renderPassDescriptor) in
  let! p := Program.read program in
  let! pipeline := lift (Program.pipeline p) in
  let! _ := emit (SetPipeline encoder pipeline) in
  let! _ := emit (SetBindGroup encoder 0 bindGroup) in
  let! _ := emit (Draw encoder 6) in
  emit (EndPass encoder).

(** The test of the [while] loop of [generate]; [&&] binds tighter than
    [||]. *)
Definition continues (mipLevelCount width height baseMipLevel : Z) : bool :=
  ((baseMipLevel <? mipLevelCount) && (1 <? width)) || (1 <? height).

(** The [while] loop of [generate], started with the given values of the
    variables [width], [height] and [baseMipLevel]; it returns their
    values when the loop is left.  [fuel] bounds the number of
    iterations. *)
Fixpoint generate_loop (fuel : nat) (gpu : Gpu) (program : ref)
         (texture : GPUTexture) (encoder : GPUCommandEncoder)
         (mipLevelCount width height baseMipLevel : Z) : M (Z * Z * Z) :=
  if continues mipLevelCount width height baseMipLevel then
    match fuel with
    | O => lift OutOfFuel
    | S fuel =>
        let width := Z.max 1 (JS.half width) in
        let height := Z.max 1 (JS.half height) in
        let! bindGroup := getBindGroup gpu program texture baseMipLevel in
        let! _ := renderMipmap encoder program
                    (getRenderPassDescriptor texture (baseMipLevel + 1))
                    bindGroup in
        generate_loop fuel gpu program texture encoder mipLevelCount
                      width height (baseMipLevel + 1)
    end
  else ret (width, height, baseMipLevel).

(** [async generate(gpu, texture, mipLevelCount?)] *)
Definition generate (fuel : nat) (gpu : Gpu) (texture : GPUTexture)
           (mipLevelCount : option Z) : M Z :=
  let! program := getProgram gpu (format texture) in
  let! d := lift (Gpu.device gpu) in
  let! encoder := Device.createCommandEncoder d "mip gen encoder" in
  let width := width texture in
  let height := height texture in
  let baseMipLevel := 0 in
  let mipLevelCount :=
    match mipLevelCount with
    | Some n => n
    | None => countMipLevels [width; height]
    end in
  let! final := generate_loop fuel gpu program texture encoder
                              mipLevelCount width height baseMipLevel in
  let! commandBuffer := Device.finish encoder in
  let! d := lift (Gpu.device gpu) in
  let! _ := Device.submit d [commandBuffer] in
  ret (snd final).

(** *** The same two methods, cut at their [await]s

    [getProgram] and [generate] above are the calls as their caller sees
    them when it awaits them and nothing else runs in between.  A call that
    is not awaited runs to its first [await] at once and the rest later;
    the parts follow. *)

(** [getProgram] from [await program.init(...)] on, when the promise of
    [init] was fulfilled. *)
Definition getProgram_resume (format : GPUTextureFormat) (program : ref) : M ref :=
  let! g := this in
  let! _ := assign {| _sampler := _sampler g;
                      _programMap := <[format := program]> (_programMap g) |} in
  ret program.

(** [generate] from [await this.getProgram(...)] on, when the promise of
    [getProgram] was fulfilled with [program]. *)
Definition generate_resume (fuel : nat) (gpu : Gpu) (texture : GPUTexture)
           (mipLevelCount : option Z) (program : ref) : M Z :=
  let! d := lift (Gpu.device gpu) in
  let! encoder := Device.createCommandEncoder d "mip gen encoder" in
  let width := width texture in
  let height := height texture in
  let baseMipLevel := 0 in
  let mipLevelCount :=
    match mipLevelCount with
    | Some n => n
    | None => countMipLevels [width; height]
    end in
  let! final := generate_loop fuel gpu program texture encoder
                              mipLevelCount width height baseMipLevel in
  let! commandBuffer := Device.finish encoder in
  let! d := lift (Gpu.device gpu) in
  let! _ := Device.submit d [commandBuffer] in
  ret (snd final).

(** What a call of [generate] does before it returns its promise: it calls
    [getProgram], which looks the format up and either returns (the
    [await] in [generate] then queues the rest of [generate]) or makes a
    [new Program()] and calls its [init], which has no [await] and so runs
    to its end at once (the [await] in [getProgram] then queues the rest of
    [getProgram]).  A throw of [init] rejects a promise; it does not reach
    the caller of [generate]. *)
Definition generate_start (gpu : Gpu) (texture : GPUTexture)
           (mipLevelCount : option Z) : M unit :=
  let! g := this in
  match _programMap g !! format texture with
  | Some program => spawn (ResumeGenerate gpu texture mipLevelCount (Ok program))
  | None =>
      let! program := Program.alloc in
      let! initialised :=
        settle (Program.init program gpu (programDescriptor (format texture))) in
      spawn (ResumeGetProgram gpu texture mipLevelCount program initialised)
  end.

(** Running one job.  The rest of [getProgram] stores the program and
    fulfils the promise [generate] awaits, which queues the rest of
    [generate]; when [init] had thrown it rejects that promise with the
    same value.  The rest of [generate] runs to the end of the call.  The
    program drops what a [generate] that nobody awaits returns or throws;
    it is returned here, when a call settles, to be observed. *)
Definition run_job (fuel : nat) (j : Job) : M (option (outcome Z)) :=
  match j with
  | ResumeGetProgram gpu texture mipLevelCount program initialised =>
      let! p :=
        match initialised with
        | Ok _ => settle (getProgram_resume (format texture) program)
        | Throw e => ret (Throw e)
        | OutOfFuel => ret OutOfFuel
        end in
      let! _ := spawn (ResumeGenerate gpu texture mipLevelCount p) in
      ret None
  | ResumeGenerate gpu texture mipLevelCount program =>
      match program with
      | Ok program =>
          let! r := settle (generate_resume fuel gpu texture mipLevelCount program) in
          ret (Some r)
      | Throw e => ret (Some (Throw e))
      | OutOfFuel => ret (Some OutOfFuel)
      end
  end.

(** One turn of the job queue: the oldest job is taken off and run. *)
Definition tick (fuel : nat) : M (option (outcome Z)) :=
  let! j := next_job in
  match j with
  | None => ret None
  | Some j => run_job fuel j
  end.

(** [n] turns of the job queue. *)
Fixpoint ticks (n : nat) (fuel : nat) : M unit :=
  match n with
  | O => ret tt
  | S n => let! _ := tick fuel in ticks n fuel
  end.

(** At most [n] turns of the job queue, up to the first turn in which a
    [generate] call settles. *)
Fixpoint ticks_until_settled (n : nat) (fuel : nat) : M (option (outcome Z)) :=
  match n with
  | O => ret None
  | S n =>
      let! r := tick fuel in
      match r with
      | Some o => ret (Some o)
      | None => ticks_until_settled n fuel
      end
  end.

(** A fuel that never runs out: whatever values the loop starts with, the
    first iteration leaves both dimensions below [2 ^ 31], and each further
    one halves them. *)
Definition enough_fuel : nat := 33.

(** An [await] of a promise that is settled already: the code after it is
    queued behind the jobs that wait at that moment, so exactly those run
    before it goes on. *)
Definition await_settled (fuel : nat) : M unit :=
  fun w => ticks (length (pending w)) fuel w.

End MipGenerator.

(** ** Texture Factory: class [TextureLoader]

    The loader's only field, [_mipGenerator], is the [mipGenerator] of the
    world. *)

Record CreateTextureOptions := {
  options_gpu : Gpu;
  source : ImageSource;
  options_label : option string;
  size : Z * Z;
  options_format : GPUTextureFormat;
}.

(** [ImageBitmap]: a decoded image with its dimensions. *)
Record ImageBitmap := {
  bitmap : ImageSource;
  bitmap_width : Z;
  bitmap_height : Z;
}.

(** The global functions [loadImageBitmap] calls, with the answers of the
    platform: [fetch(url)] gives a response or rejects, [res.blob()] gives a
    blob or rejects, [createImageBitmap(blob, { colorSpaceConversion })]
    gives a bitmap or rejects. *)
Record Globals := {
  fetch : string -> outcome handle;
  response_blob : handle -> outcome handle;
  createImageBitmap : handle -> string -> outcome ImageBitmap;
}.

Module TextureLoader.

(** [async init(gpu)] *)
Definition init (gpu : Gpu) : M unit := MipGenerator.init gpu.

(** The usage flags of [createTexture]; [|] wraps its result to 32 bits. *)
Definition usage_flags : Z :=
  JS.ToInt32
    (Z.lor (JS.ToInt32 (Z.lor GPUTextureUsage.TEXTURE_BINDING
                              GPUTextureUsage.COPY_DST))
           GPUTextureUsage.RENDER_ATTACHMENT).

(** [async createTexture({ gpu, source, label, size, format })].  The call
    of [generate] is not awaited: it runs to its first [await] before
    [createTexture] returns, the rest of it is left in the job queue, and
    neither its result nor its failure reaches the caller. *)
Definition createTexture (options : CreateTextureOptions) : M GPUTexture :=
  let gpu := options_gpu options in
  let size := size options in
  let! d := lift (Gpu.device gpu) in
  let! texture :=
    Device.createTexture d (options_label options) (options_format options) size
      (MipGenerator.countMipLevels [fst size; snd size])
      usage_flags in
  let! d := lift (Gpu.device gpu) in
  let! _ := Device.copyExternalImageToTexture d (source options) true texture
              (fst size) (snd size) in
  let! _ := (if JS.truthy_int (mipLevelCount texture)
             then MipGenerator.generate_start gpu texture None
             else ret tt) in
  ret texture.

(** Letting the job queue run, oldest job first, until a [generate] call
    that was started settles; what it returns or throws is the result.  Of
    [j] jobs that wait, each queues at most one more, so [2 * j] turns
    reach the first call to settle.  [None]: no call is left running. *)
Definition run_pending (fuel : nat) : M (option (outcome Z)) :=
  fun w => MipGenerator.ticks_until_settled (2 * length (pending w))%nat fuel w.

(** [async loadImageBitmap(url)]; the URL is identified with its text. *)
Definition loadImageBitmap (globals : Globals) (url : string) : M ImageBitmap :=
  let! res := lift (fetch globals url) in
  let! blob := lift (response_blob globals res) in
  lift (createImageBitmap globals blob "none").

(** [async loadTexture(gpu, url)].  [createTexture] has no [await] of its
    own, so the promise it returns is settled when [loadTexture] awaits it:
    the jobs that wait at that moment, the rest of the [generate] call that
    [createTexture] started among them, run before [loadTexture] goes on
    and returns. *)
Definition loadTexture (globals : Globals) (gpu : Gpu) (url : string)
  : M GPUTexture :=
  let! source := loadImageBitmap globals url in
  let! texture :=
    createTexture {| options_gpu := gpu;
                     source := bitmap source;
                     options_label := Some url;
                     options_format := "rgba8unorm";
                     size := (bitmap_width source, bitmap_height source) |} in
  let! _ := MipGenerator.await_settled MipGenerator.enough_fuel in
  ret texture.

End TextureLoader.

(** ** Observations on a command log *)

(** The mip levels that render passes were begun on, in order. *)
Fixpoint rendered_levels (cs : list Command) : list Z :=
  match cs with
  | [] => []
  | BeginRenderPass _ d :: rest => baseMipLevel (view d) :: rendered_levels rest
  | _ :: rest => rendered_levels rest
  end.

(** The mip levels that bind groups were created to sample, in order. *)
Fixpoint sampled_levels (cs : list Command) : list Z :=
  match cs with
  | [] => []
  | CreateBindGroup _ _ _ _ v :: rest => baseMipLevel v :: sampled_levels rest
  | _ :: rest => sampled_levels rest
  end.

(** The number of submissions to the queue. *)
Fixpoint submissions (cs : list Command) : nat :=
  match cs with
  | [] => O
  | Submit _ :: rest => S (submissions rest)
  | _ :: rest => submissions rest
  end.

(** The number of shader modules and pipelines that were compiled. *)
Fixpoint compilations (cs : list Command) : nat :=
  match cs with
  | [] => O
  | CreateShaderModule _ _ :: rest => S (compilations rest)
  | CreateRenderPipeline _ _ :: rest => S (compilations rest)
  | _ :: rest => compilations rest
  end.

(** ** The loop of [generate] as a function of its three variables

    The same loop with the calls on the device left out: the values of
    [width], [height] and [baseMipLevel] after each iteration. *)

Definition mip_step (s : Z * Z * Z) : Z * Z * Z :=
  let '(width, height, baseMipLevel) := s in
  (Z.max 1 (JS.half width), Z.max 1 (JS.half height), baseMipLevel + 1).

Fixpoint mip_trace (fuel : nat) (mipLevelCount width height baseMipLevel : Z)
  : option (list (Z * Z * Z)) :=
  if MipGenerator.continues mipLevelCount width height baseMipLevel then
    match fuel with
    | O => None
    | S fuel =>
        let '(w, h, l) := mip_step (width, height, baseMipLevel) in
        option_map (cons (w, h, l)) (mip_trace fuel mipLevelCount w h l)
    end
  else Some [].

(** The number of iterations the loop makes from given values of its
    variables, in closed form: the level bound only limits the halvings of
    [width], and only once [height] has reached 1. *)
Definition pass_count (mipLevelCount width height baseMipLevel : Z) : Z :=
  Z.max (Z.log2 height) (Z.min (Z.log2 width) (mipLevelCount - baseMipLevel)).

(** The values of the variables after [k] iterations, in closed form. *)
Definition after_passes (width height baseMipLevel : Z) (k : nat) : Z * Z * Z :=
  (Z.max 1 (width / 2 ^ Z.of_nat k), Z.max 1 (height / 2 ^ Z.of_nat k),
   baseMipLevel + Z.of_nat k).

Definition closed_trace (width height baseMipLevel : Z) (n : nat)
  : list (Z * Z * Z) :=
  map (after_passes width height baseMipLevel) (seq 1 n).

(** ** Conditions on a world *)

(** What an iteration of the loop reads: the device, the pipeline of the
    program and the sampler are in place. *)
Definition loop_ready (gpu : Gpu) (program : ref) (w : World) : Prop :=
  is_Some (_device gpu)
  /\ (exists p, heap w !! program = Some p /\ is_Some (_pipeline p))
  /\ is_Some (_sampler (mipGenerator w)).

(** Every cached reference points to a program whose module and pipeline are
    set, and no two formats share a program. *)
Definition cache_wf (w : World) : Prop :=
  (forall f r, _programMap (mipGenerator w) !! f = Some r ->
               exists p, heap w !! r = Some p
                         /\ is_Some (_shaderModule p) /\ is_Some (_pipeline p))
  /\ (forall f f' r, _programMap (mipGenerator w) !! f = Some r ->
                     _programMap (mipGenerator w) !! f' = Some r -> f = f').

(** Both stored dimensions of the canvas are between 1 and a limit. *)
Definition canvas_clamped (limit : Z) (s : Surface) : Prop :=
  (1 <= canvas_width (canvas s) <= limit)
  /\ (1 <= canvas_height (canvas s) <= limit).

(** The implementation builds the mip program of a format without a
    throw. *)
Definition buildable (d : GPUDevice) (f : GPUTextureFormat) : Prop :=
  createShaderModule_throws
    d (shaderDescriptor (MipGenerator.programDescriptor f) tt) = None
  /\ createRenderPipeline_throws d f = None.

(** The implementation throws [e] while building the mip program of a
    format: from the shader module, or from the pipeline for that target. *)
Definition build_throws (d : GPUDevice) (f : GPUTextureFormat) (e : JS.exn)
  : Prop :=
  createShaderModule_throws
    d (shaderDescriptor (MipGenerator.programDescriptor f) tt) = Some e
  \/ (createShaderModule_throws
        d (shaderDescriptor (MipGenerator.programDescriptor f) tt) = None
      /\ createRenderPipeline_throws d f = Some e).

(** The level count [generate] works with: the one it was given, or by
    default the count of the texture's dimensions. *)
Definition requested_levels (texture : GPUTexture) (mipLevelCount : option Z) : Z :=
  match mipLevelCount with
  | Some n => n
  | None => MipGenerator.countMipLevels [width texture; height texture]
  end.

(** The commands of one iteration of the loop. *)
Definition pass_commands (texture : GPUTexture) (encoder : GPUCommandEncoder)
           (pipeline : GPURenderPipeline) (sampler : GPUSampler)
           (bindGroup : GPUBindGroup) (baseMipLevel : Z) : list Command :=
  [CreateBindGroup bindGroup pipeline 0 sampler
                   (Device.createView texture baseMipLevel 1);
   BeginRenderPass encoder
                   (MipGenerator.getRenderPassDescriptor texture (baseMipLevel + 1));
   SetPipeline encoder pipeline;
   SetBindGroup encoder 0 bindGroup;
   Draw encoder 6;
   EndPass encoder].

(** ** Sequences of calls

    The calls that reach the world of a loader, and the world they leave:
    [init], [getProgram] and [generate] awaited by their caller while no
    job waits, [createTexture] up to its return, and a turn of the job
    queue. *)
Inductive Call :=
| CallInit (gpu : Gpu)
| CallGetProgram (gpu : Gpu) (f : GPUTextureFormat)
| CallGenerate (fuel : nat) (gpu : Gpu) (texture : GPUTexture) (levels : option Z)
| CallCreateTexture (options : CreateTextureOptions)
| CallTick (fuel : nat).

(** The calls whose promise the caller awaits before it makes the next
    call. *)
Definition awaited (c : Call) : Prop :=
  match c with
  | CallInit _ | CallGetProgram _ _ | CallGenerate _ _ _ _ => True
  | CallCreateTexture _ | CallTick _ => False
  end.

Definition perform (c : Call) (w : World) : World :=
  match c with
  | CallInit gpu => snd (TextureLoader.init gpu w)
  | CallGetProgram gpu f => snd (MipGenerator.getProgram gpu f w)
  | CallGenerate fuel gpu texture levels =>
      snd (MipGenerator.generate fuel gpu texture levels w)
  | CallCreateTexture options => snd (TextureLoader.createTexture options w)
  | CallTick fuel => snd (MipGenerator.tick fuel w)
  end.

Definition perform_all (cs : list Call) (w : World) : World :=
  fold_left (fun w c => perform c w) cs w.

(** A computation keeps the cache entry of a format. *)
Definition keeps_entry (f : GPUTextureFormat) (r : ref) {A} (c : M A) : Prop :=
  forall w, _programMap (mipGenerator w) !! f = Some r ->
            _programMap (mipGenerator (snd (c w))) !! f = Some r.

(** A computation leaves the mip generator object and the heap of programs
    as they are. *)
Definition mip_frame {A} (c : M A) : Prop :=
  forall w, mipGenerator (snd (c w)) = mipGenerator w
            /\ heap (snd (c w)) = heap w.

(** The texture [createTexture] makes of its options in a world. *)
Definition created_texture (options : CreateTextureOptions) (w : World) : GPUTexture :=
  {| texture_id := next_handle w;
     texture_label := options_label options;
     width := fst (size options);
     height := snd (size options);
     format := options_format options;
     mipLevelCount :=
       MipGenerator.countMipLevels [fst (size options); snd (size options)];
     usage := TextureLoader.usage_flags |}.

(** The world in which [createTexture] has created its texture and copied
    the source into it, and has not yet turned to the mip levels. *)
Definition after_copy (options : CreateTextureOptions) (w : World) : World :=
  {| next_handle := S (next_handle w);
     commands :=
       commands w
       ++ [CreateTexture (created_texture options w);
           CopyExternalImageToTexture (source options) true (next_handle w) 0
                                      (fst (size options)) (snd (size options))];
     heap := heap w; mipGenerator := mipGenerator w; pending := pending w |}.

(** ** Worlds to run the code in *)

(** The world of a newly constructed loader. *)
Definition initial_world : World :=
  {| next_handle := O; commands := []; heap := [];
     mipGenerator := MipGenerator.new; pending := [] |}.

(** A device that refuses nothing. *)
Definition plain_device (id : handle) (limit : Z) : GPUDevice :=
  {| device_id := id; maxTextureDimension2D := limit;
     createShaderModule_throws := fun _ => None;
     createRenderPipeline_throws := fun _ => None |}.

(** A device that refuses to build a pipeline for one format. *)
Definition picky_device (id : handle) (limit : Z) (bad : GPUTextureFormat)
           (e : JS.exn) : GPUDevice :=
  {| device_id := id; maxTextureDimension2D := limit;
     createShaderModule_throws := fun _ => None;
     createRenderPipeline_throws :=
       fun f => if String.eqb f bad then Some e else None |}.

Definition browser (d : option GPUDevice) : Navigator :=
  {| navigator_gpu :=
       Some {| requestAdapter := Some {| adapter_id := 1%nat; requestDevice := d |};
               getPreferredCanvasFormat := "bgra8unorm" |} |}.

Definition ready_gpu (d : GPUDevice) : Gpu :=
  snd (Gpu.init (browser (Some d)) (Gpu.new Gpu.default_label)).

Definition texture_of (id : handle) (w h : Z) (f : GPUTextureFormat) : GPUTexture :=
  {| texture_id := id; texture_label := None; width := w; height := h;
     format := f; mipLevelCount := MipGenerator.countMipLevels [w; h];
     usage := TextureLoader.usage_flags |}.

(** A device context that is ready, and the world of a loader initialised
    with it. *)
Definition sample_gpu : Gpu := ready_gpu (plain_device 7%nat 8192).

Definition ready_world : World := snd (TextureLoader.init sample_gpu initial_world).

(** A browser without an adapter, and a canvas with a WebGPU context. *)
Definition browser_without_adapter : Navigator :=
  {| navigator_gpu :=
       Some {| requestAdapter := None;
               getPreferredCanvasFormat := "bgra8unorm" |} |}.

Definition sample_canvas : HTMLCanvasElement :=
  {| canvas_width := 300; canvas_height := 150;
     offsetWidth := 640; offsetHeight := 480;
     getContext_webgpu := Some 3%nat |}.

(** The error both failures of [Gpu.init] throw. *)
Definition no_webgpu : JS.exn := JS.Error "browser does not support WebGPU".

(** An error of the implementation, and options for textures. *)
Definition refusal : JS.exn :=
  {| JS.name := "OperationError"; JS.message := "no render target for the format" |}.

Definition picky_gpu : Gpu := ready_gpu (picky_device 7%nat 8192 "r32float" refusal).

Definition sample_options (gpu : Gpu) (w h : Z) (f : GPUTextureFormat)
  : CreateTextureOptions :=
  {| options_gpu := gpu; source := 50%nat; options_label := Some "image";
     size := (w, h); options_format := f |}.

(** ** class [Engine] *)

Record Engine := {
  engine_gpu : Gpu;
  texLoader : World;
  surfaces : gmap string Surface;
}.

Module Engine.

(** The text a template literal makes of an optional label. *)
Definition template (label : option string) : string :=
  match label with
  | Some l => l
  | None => "undefined"
  end.

(** [new Engine({ label })] *)
Definition new (label : option string) : Engine :=
  {| engine_gpu := Gpu.new (String.append (template label) "/gpu");
     texLoader := initial_world;
     surfaces := ∅ |}.

(** [async init()]: [await this.gpu.init()], then
    [await this.texLoader.init(this.gpu)]. *)
Definition init (navigator : Navigator) (this : Engine) : outcome unit * Engine :=
  match Gpu.init navigator (engine_gpu this) with
  | (Ok _, g) =>
      let this := {| engine_gpu := g; texLoader := texLoader this;
                     surfaces := surfaces this |} in
      match TextureLoader.init (engine_gpu this) (texLoader this) with
      | (Ok _, w) =>
          (Ok tt, {| engine_gpu := engine_gpu this; texLoader := w;
                     surfaces := surfaces this |})
      | (Throw e, w) =>
          (Throw e, {| engine_gpu := engine_gpu this; texLoader := w;
                       surfaces := surfaces this |})
      | (OutOfFuel, w) =>
          (OutOfFuel, {| engine_gpu := engine_gpu this; texLoader := w;
                         surfaces := surfaces this |})
      end
  | (Throw e, g) =>
      (Throw e, {| engine_gpu := g; texLoader := texLoader this;
                   surfaces := surfaces this |})
  | (OutOfFuel, g) =>
      (OutOfFuel, {| engine_gpu := g; texLoader := texLoader this;
                     surfaces := surfaces this |})
  end.

(** [async addCanvas(id, canvas)]: the body is empty. *)
Definition addCanvas (id : string) (canvas : HTMLCanvasElement) (this : Engine)
  : outcome unit * Engine := (Ok tt, this).

End Engine.

(** ** Closed forms used to state what the code does *)

(** The commands of [n] consecutive iterations of the loop of [generate],
    the first of which samples [baseMipLevel] and creates the bind group
    [bindGroup]. *)
Fixpoint loop_commands (texture : GPUTexture) (encoder : GPUCommandEncoder)
         (pipeline : GPURenderPipeline) (sampler : GPUSampler)
         (bindGroup : GPUBindGroup) (baseMipLevel : Z) (n : nat) : list Command :=
  match n with
  | O => []
  | S n =>
      pass_commands texture encoder pipeline sampler bindGroup baseMipLevel
      ++ loop_commands texture encoder pipeline sampler (S bindGroup)
                       (baseMipLevel + 1) n
  end.

(** The commands of a [generate] call after its program is there: the
    encoder, [n] iterations of the loop, the finish of the encoder and the
    submission of its one command buffer. *)
Definition generate_commands (texture : GPUTexture) (encoder : GPUCommandEncoder)
           (pipeline : GPURenderPipeline) (sampler : GPUSampler) (n : nat)
  : list Command :=
  [CreateCommandEncoder encoder "mip gen encoder"]
  ++ loop_commands texture encoder pipeline sampler (S encoder) 0 n
  ++ [Finish encoder (S (encoder + n)); Submit [S (encoder + n)]].

(** The world those commands leave. *)
Definition after_generate (texture : GPUTexture) (pipeline : GPURenderPipeline)
           (sampler : GPUSampler) (n : nat) (w : World) : World :=
  {| next_handle := S (S (next_handle w + n));
     commands := commands w
                 ++ generate_commands texture (next_handle w) pipeline sampler n;
     heap := heap w; mipGenerator := mipGenerator w; pending := pending w |}.

(** The commands that build the mip program of a format, with the handles
    the implementation gives from [h] on, and the program they make. *)
Definition build_commands (f : GPUTextureFormat) (h : handle) : list Command :=
  [CreateShaderModule h (shaderDescriptor (MipGenerator.programDescriptor f) tt);
   CreateRenderPipeline (S h)
                        (pipelineDescriptor (MipGenerator.programDescriptor f) h)].

Definition built_program (h : handle) : Program :=
  {| _shaderModule := Some h; _pipeline := Some (S h) |}.

(** Nothing that was there is lost between two worlds: every program
    object is as it was, and every format that was cached is cached. *)
Definition grows (w w' : World) : Prop :=
  (forall r p, heap w !! r = Some p -> heap w' !! r = Some p)
  /\ (forall f, is_Some (_programMap (mipGenerator w) !! f) ->
                is_Some (_programMap (mipGenerator w') !! f)).

Definition growing {A} (c : M A) : Prop := forall w, grows w (snd (c w)).

(** A computation leaves the sampler of the mip generator as it is. *)
Definition keeps_sampler {A} (c : M A) : Prop :=
  forall w, _sampler (mipGenerator (snd (c w))) = _sampler (mipGenerator w).

(** The surface after the resize observer fired for each of the events, an
    event being the state of the captured [Gpu] at that moment and the
    entries reported. *)
Definition resize_events (events : list (Gpu * list ResizeObserverEntry))
           (s : Surface) : Surface :=
  fold_left (fun s ev => snd (Surface.resize_observer (fst ev) (snd ev) s))
            events s.

(** A computation leaves the job queue as it is. *)
Definition quiet {A} (c : M A) : Prop :=
  forall w, pending (snd (c w)) = pending w.

(** The programs that the jobs of a queue are going to store in the
    cache: those of the requests whose [init] ended well. *)
Fixpoint programs_to_store (q : list Job) : list ref :=
  match q with
  | [] => []
  | ResumeGetProgram _ _ _ program (Ok _) :: rest =>
      program :: programs_to_store rest
  | _ :: rest => programs_to_store rest
  end.

(** A job that is going to store a program holds one whose module and
    pipeline are set and that the cache does not hold. *)
Definition job_wf (w : World) (j : Job) : Prop :=
  match j with
  | ResumeGetProgram _ _ _ program (Ok _) =>
      (exists p, heap w !! program = Some p
                 /\ is_Some (_shaderModule p) /\ is_Some (_pipeline p))
      /\ forall f, _programMap (mipGenerator w) !! f <> Some program
  | _ => True
  end.

(** The cache is well formed, and so is what the job queue is going to do
    to it: the jobs store programs that are built, not cached, and all
    different. *)
Definition world_wf (w : World) : Prop :=
  cache_wf w
  /\ Forall (job_wf w) (pending w)
  /\ NoDup (programs_to_store (pending w)).

(** What a call that is not a turn of the job queue does to a world: the
    program objects stay, every new cache entry is an object made by the
    call, a well-formed cache stays so, and the jobs it leaves come behind
    those that wait, are well formed and store objects made by the call. *)
Definition call_shape (w w' : World) : Prop :=
  grows w w'
  /\ (forall f r, _programMap (mipGenerator w') !! f = Some r ->
                  _programMap (mipGenerator w) !! f = Some r
                  \/ (length (heap w) <= r)%nat)
  /\ (cache_wf w -> cache_wf w')
  /\ exists extra,
      pending w' = pending w ++ extra
      /\ (cache_wf w -> Forall (job_wf w') extra)
      /\ NoDup (programs_to_store extra)
      /\ Forall (fun r => (length (heap w) <= r)%nat) (programs_to_store extra).

(** A world with another job queue. *)
Definition with_pending (q : list Job) (w : World) : World :=
  {| next_handle := next_handle w; commands := commands w; heap := heap w;
     mipGenerator := mipGenerator w; pending := q |}.

(** The size the resize observer stores for an entry, on a device with the
    given limit. *)
Definition stored_size (limit : Z) (entry : ResizeObserverEntry) : Z * Z :=
  match contentBoxSize entry with
  | [] => (0, 0)
  | box :: _ =>
      (Surface.assign_dimension (Qmax 1 (Qmin (inlineSize box) (inject_Z limit))),
       Surface.assign_dimension (Qmax 1 (Qmin (blockSize box) (inject_Z limit))))
  end.

(** A platform whose image loading always answers with one bitmap. *)
Definition sample_globals (w h : Z) : Globals :=
  {| fetch := fun _ => Ok 60%nat;
     response_blob := fun _ => Ok 61%nat;
     createImageBitmap := fun _ _ =>
       Ok {| bitmap := 62%nat; bitmap_width := w; bitmap_height := h |} |}.

(** A platform whose [fetch] rejects. *)
Definition offline_globals (e : JS.exn) : Globals :=
  {| fetch := fun _ => Throw e;
     response_blob := fun _ => Ok 61%nat;
     createImageBitmap := fun _ _ =>
       Ok {| bitmap := 62%nat; bitmap_width := 1; bitmap_height := 1 |} |}.

(** A computation compiles no shader module and no pipeline. *)
Definition compiles_nothing {A} (c : M A) : Prop :=
  forall w, compilations (commands (snd (c w))) = compilations (commands w).

(** * Theorems *)

(** ** Arithmetic of the JavaScript primitives *)

Section Arithmetic.

Lemma ToInt32_small (z : Z) : - 2 ^ 31 <= z < 2 ^ 31 -> JS.ToInt32 z = z.
Proof.
  intros Hz. unfold JS.ToInt32.
  rewrite Z.mod_small; lia.
Qed.

Lemma ToInt32_le (z : Z) : 0 <= z -> JS.ToInt32 z <= z.
Proof.
  intros Hz. unfold JS.ToInt32.
  assert (H := Z.mod_le (z + 2 ^ 31) (2 ^ 32)).
  lia.
Qed.

Lemma half_small (x : Z) : 0 <= x < 2 ^ 32 -> JS.half x = x / 2.
Proof.
  intros Hx. unfold JS.half.
  rewrite Z.quot_div_nonneg by lia.
  apply ToInt32_small.
  assert (x / 2 < 2 ^ 31) by (apply Z.div_lt_upper_bound; lia).
  assert (0 <= x / 2) by (apply Z.div_pos; lia).
  lia.
Qed.

(** One halving of a dimension: at least 1, and smaller than before unless
    the dimension is 1 already. *)
Lemma halved_ge_1 (x : Z) : 1 <= Z.max 1 (JS.half x).
Proof. lia. Qed.

Lemma halved_lt (x : Z) : 1 < x -> Z.max 1 (JS.half x) < x.
Proof.
  intros Hx. unfold JS.half.
  assert (H1 : x ÷ 2 < x) by (rewrite Z.quot_div_nonneg by lia;
                             apply Z.div_lt; lia).
  assert (H2 : 0 <= x ÷ 2) by (apply Z.quot_pos; lia).
  assert (H3 := ToInt32_le (x ÷ 2) H2).
  lia.
Qed.

Lemma halved_1 (x : Z) : 0 <= x <= 1 -> Z.max 1 (JS.half x) = 1.
Proof.
  intros Hx.
  assert (Hc : x = 0 \/ x = 1) by lia.
  destruct Hc as [-> | ->]; reflexivity.
Qed.

(** In the range of a texture dimension the halving is the floor of the
    division by two, and never below 1. *)
Lemma halved_div (x : Z) :
  1 <= x < 2 ^ 32 -> Z.max 1 (JS.half x) = Z.max 1 (x / 2).
Proof. intros Hx. rewrite half_small by lia. reflexivity. Qed.

Lemma halved_range (x : Z) :
  1 <= x < 2 ^ 32 -> 1 <= Z.max 1 (JS.half x) < 2 ^ 32.
Proof.
  intros Hx. rewrite halved_div by lia.
  assert (x / 2 <= x) by (apply Z.div_le_upper_bound; lia).
  lia.
Qed.

Lemma log2_halved (x : Z) :
  1 <= x -> Z.log2 (Z.max 1 (x / 2)) = Z.max 0 (Z.log2 x - 1).
Proof.
  intros Hx.
  destruct (Z.eq_dec x 1) as [-> | Hne]; [reflexivity |].
  assert (H2 : 1 <= x / 2) by (apply Z.div_le_lower_bound; lia).
  rewrite Z.max_r by lia.
  assert (Hl : 0 < Z.log2 x) by (apply Z.log2_pos; lia).
  rewrite Z.max_r by lia.
  apply Z.log2_unique; [lia |].
  destruct (Z.log2_spec x) as [Hlo Hhi]; [lia |].
  replace (Z.succ (Z.log2 x - 1)) with (Z.log2 x) by lia.
  replace (Z.log2 x) with (Z.succ (Z.log2 x - 1)) in Hlo at 1 by lia.
  rewrite Z.pow_succ_r in Hlo, Hhi by lia.
  split.
  - apply Z.div_le_lower_bound; lia.
  - apply Z.div_lt_upper_bound; lia.
Qed.

Lemma log2_pos_iff (x : Z) : 1 <= x -> (1 <? x) = (0 <? Z.log2 x).
Proof.
  intros Hx.
  destruct (Z.eq_dec x 1) as [-> | Hne]; [reflexivity |].
  assert (0 < Z.log2 x) by (apply Z.log2_pos; lia).
  destruct (Z.ltb_spec 1 x), (Z.ltb_spec 0 (Z.log2 x)); lia || reflexivity.
Qed.

Lemma halved_pow (x k : Z) :
  1 <= x -> 0 <= k ->
  Z.max 1 (Z.max 1 (x / 2) / 2 ^ k) = Z.max 1 (x / 2 ^ (k + 1)).
Proof.
  intros Hx Hk.
  assert (Hp : 0 < 2 ^ k) by (apply Z.pow_pos_nonneg; lia).
  replace (2 ^ (k + 1)) with (2 * 2 ^ k) by (rewrite Z.pow_add_r by lia; lia).
  rewrite <- Z.div_div by lia.
  destruct (Z.le_gt_cases 1 (x / 2)) as [Hge | Hlt].
  - rewrite (Z.max_r 1 (x / 2)) by lia. reflexivity.
  - assert (H0 : 0 <= x / 2) by (apply Z.div_pos; lia).
    assert (Hz : x / 2 = 0) by lia.
    rewrite Hz, Z.div_0_l by lia.
    rewrite (Z.max_l 1 0) by lia.
    assert (1 / 2 ^ k <= 1) by (apply Z.div_le_upper_bound; lia).
    lia.
Qed.

End Arithmetic.

(** ** Level count: [countMipLevels] *)

Section LevelCount.

Lemma Math_max_pair (a b : Z) : JS.Math_max [a; b] = Some (Z.max a b).
Proof. reflexivity. Qed.

Lemma fold_max_spec (xs : list Z) :
  forall x, (x <= fold_left Z.max xs x)
            /\ Forall (fun y => y <= fold_left Z.max xs x) xs
            /\ (fold_left Z.max xs x = x \/ In (fold_left Z.max xs x) xs).
Proof.
  induction xs as [| y ys IH]; intros x; cbn [fold_left].
  - split; [lia |]. split; [constructor | left; reflexivity].
  - destruct (IH (Z.max x y)) as (Hle & Hall & Hin).
    split; [lia |]. split.
    + constructor; [lia | exact Hall].
    + destruct Hin as [Heq | Hin].
      * rewrite Heq. destruct (Z.max_spec x y) as [[_ ->] | [_ ->]].
        -- right. left. reflexivity.
        -- left. reflexivity.
      * right. right. exact Hin.
Qed.

(** [Math.max] of a non-empty list is its greatest element. *)
Lemma Math_max_spec (xs : list Z) (m : Z) :
  JS.Math_max xs = Some m <-> In m xs /\ Forall (fun y => y <= m) xs.
Proof.
  destruct xs as [| x rest]; cbn [JS.Math_max].
  - split; [discriminate | intros [[] _]].
  - destruct (fold_max_spec rest x) as (Hle & Hall & Hin).
    split.
    + intros [= <-]. split.
      * destruct Hin as [-> | Hin]; [left; reflexivity | right; exact Hin].
      * constructor; assumption.
    + intros [Hm Hub]. f_equal.
      assert (Hm' : fold_left Z.max rest x <= m).
      { destruct Hin as [-> | Hin].
        - apply Forall_inv in Hub. exact Hub.
        - rewrite List.Forall_forall in Hub. apply Hub. right. exact Hin. }
      assert (Hm'' : m <= fold_left Z.max rest x).
      { destruct Hm as [<- | Hm]; [exact Hle |].
        rewrite List.Forall_forall in Hall. apply Hall. exact Hm. }
      lia.
Qed.

(** On a maximum in the range of a texture dimension the count is one
    more than the binary logarithm. *)
Lemma countMipLevels_log2 (sizes : list Z) (m : Z) :
  JS.Math_max sizes = Some m -> 0 < m < 2 ^ 32 ->
  MipGenerator.countMipLevels sizes = 1 + Z.log2 m.
Proof.
  intros Hmax Hm. unfold MipGenerator.countMipLevels. rewrite Hmax.
  destruct (Z.leb_spec m 0) as [Hle | _]; [lia |].
  unfold JS.Math_log2_int.
  apply ToInt32_small.
  assert (Z.log2 m < 32) by (apply Z.log2_lt_pow2; lia).
  assert (0 <= Z.log2 m) by apply Z.log2_nonneg.
  lia.
Qed.







End LevelCount.

(** ** The loop of [generate] *)

Section Loop.

Lemma continues_pass_count (count w h l : Z) :
  1 <= w -> 1 <= h ->
  MipGenerator.continues count w h l = (0 <? pass_count count w h l).
Proof.
  intros Hw Hh. unfold MipGenerator.continues, pass_count.
  rewrite (log2_pos_iff w Hw), (log2_pos_iff h Hh).
  assert (0 <= Z.log2 w) by apply Z.log2_nonneg.
  assert (0 <= Z.log2 h) by apply Z.log2_nonneg.
  destruct (Z.ltb_spec l count), (Z.ltb_spec 0 (Z.log2 w)),
    (Z.ltb_spec 0 (Z.log2 h)),
    (Z.ltb_spec 0 (Z.max (Z.log2 h) (Z.min (Z.log2 w) (count - l))));
    simpl; lia || reflexivity.
Qed.

Lemma pass_count_step (count w h l : Z) :
  1 <= w < 2 ^ 32 -> 1 <= h < 2 ^ 32 -> 0 < pass_count count w h l ->
  pass_count count (Z.max 1 (JS.half w)) (Z.max 1 (JS.half h)) (l + 1)
  = pass_count count w h l - 1.
Proof.
  intros Hw Hh. unfold pass_count.
  rewrite !halved_div by lia.
  rewrite !log2_halved by lia.
  assert (0 <= Z.log2 w) by apply Z.log2_nonneg.
  assert (0 <= Z.log2 h) by apply Z.log2_nonneg.
  lia.
Qed.

Lemma closed_trace_step (w h l : Z) (n : nat) :
  1 <= w < 2 ^ 32 -> 1 <= h < 2 ^ 32 ->
  closed_trace w h l (S n)
  = (Z.max 1 (JS.half w), Z.max 1 (JS.half h), l + 1)
      :: closed_trace (Z.max 1 (JS.half w)) (Z.max 1 (JS.half h)) (l + 1) n.
Proof.
  intros Hw Hh. unfold closed_trace.
  rewrite !halved_div by lia.
  cbn [seq map]. f_equal.
  rewrite <- seq_shift, map_map.
  apply map_ext. intros k. unfold after_passes.
  rewrite Nat2Z.inj_succ.
  replace (Z.succ (Z.of_nat k)) with (Z.of_nat k + 1) by lia.
  rewrite !halved_pow by lia.
  f_equal. lia.
Qed.

(** The loop in closed form: from dimensions in the range of a texture
    dimension it makes [pass_count] iterations, the [k]-th of which leaves
    each dimension divided by [2^k] and not below 1. *)
Lemma mip_trace_closed (fuel : nat) :
  forall count w h l,
    1 <= w < 2 ^ 32 -> 1 <= h < 2 ^ 32 ->
    (Z.to_nat (pass_count count w h l) <= fuel)%nat ->
    mip_trace fuel count w h l
    = Some (closed_trace w h l (Z.to_nat (pass_count count w h l))).
Proof.
  induction fuel as [| fuel IH]; intros count w h l Hw Hh Hfuel.
  - cbn [mip_trace]. rewrite continues_pass_count by lia.
    destruct (Z.ltb_spec 0 (pass_count count w h l)) as [Hpos | Hz]; [lia |].
    replace (Z.to_nat (pass_count count w h l)) with O by lia.
    reflexivity.
  - cbn [mip_trace mip_step]. rewrite continues_pass_count by lia.
    destruct (Z.ltb_spec 0 (pass_count count w h l)) as [Hpos | Hz].
    + assert (Hstep := pass_count_step count w h l Hw Hh Hpos).
      rewrite IH; try (apply halved_range; lia); [| lia].
      rewrite Hstep.
      replace (Z.to_nat (pass_count count w h l))
        with (S (Z.to_nat (pass_count count w h l - 1))) by lia.
      rewrite closed_trace_step by lia.
      reflexivity.
    + replace (Z.to_nat (pass_count count w h l)) with O by lia.
      reflexivity.
Qed.

Lemma last_closed_trace (w h l : Z) (n : nat) :
  1 <= w -> 1 <= h ->
  List.last (closed_trace w h l n) (w, h, l) = after_passes w h l n.
Proof.
  intros Hw Hh. unfold closed_trace. destruct n as [| k].
  - unfold after_passes. cbn.
    rewrite !Z.div_1_r, !Z.max_r, Z.add_0_r by lia. reflexivity.
  - rewrite seq_S, map_app. cbn [map]. rewrite last_last. reflexivity.
Qed.


(** The loop always ends: whatever the values it starts from, some number
    of iterations suffices. *)
Lemma mip_trace_measure (n : nat) :
  forall count w h l,
    1 <= w -> 1 <= h -> (Z.to_nat (w + h) <= n)%nat ->
    forall fuel, (n <= fuel)%nat -> is_Some (mip_trace fuel count w h l).
Proof.
  induction n as [| n IH]; intros count w h l Hw Hh Hn fuel Hfuel; [lia |].
  destruct fuel as [| fuel]; [lia |].
  cbn [mip_trace mip_step].
  destruct (MipGenerator.continues count w h l) eqn:Hc; [| eexists; reflexivity].
  assert (Hdec : Z.max 1 (JS.half w) + Z.max 1 (JS.half h) < w + h).
  { unfold MipGenerator.continues in Hc.
    destruct (Z.ltb_spec 1 w) as [Hw1 | Hw1], (Z.ltb_spec 1 h) as [Hh1 | Hh1];
      try (assert (Z.max 1 (JS.half w) < w) by (apply halved_lt; lia));
      try (assert (Z.max 1 (JS.half h) < h) by (apply halved_lt; lia));
      try (assert (Z.max 1 (JS.half w) = 1) by (apply halved_1; lia));
      try (assert (Z.max 1 (JS.half h) = 1) by (apply halved_1; lia));
      lia. }
  destruct (IH count (Z.max 1 (JS.half w)) (Z.max 1 (JS.half h)) (l + 1))
    with (fuel := fuel) as [tr Htr]; try lia.
  rewrite Htr. eexists; reflexivity.
Qed.

Lemma mip_trace_terminates (count w h l : Z) :
  exists n, forall fuel, (n <= fuel)%nat -> is_Some (mip_trace fuel count w h l).
Proof.
  exists (S (Z.to_nat (Z.max 1 (JS.half w) + Z.max 1 (JS.half h)))).
  intros fuel Hfuel.
  destruct fuel as [| fuel]; [lia |].
  cbn [mip_trace mip_step].
  destruct (MipGenerator.continues count w h l); [| eexists; reflexivity].
  destruct (mip_trace_measure
              (Z.to_nat (Z.max 1 (JS.half w) + Z.max 1 (JS.half h)))
              count (Z.max 1 (JS.half w)) (Z.max 1 (JS.half h)) (l + 1))
    with (fuel := fuel) as [tr Htr]; try lia.
  rewrite Htr. eexists; reflexivity.
Qed.

End Loop.

(** ** Running the loop in a world *)

Section LoopInWorld.

Lemma rendered_levels_app (a b : list Command) :
  rendered_levels (a ++ b) = rendered_levels a ++ rendered_levels b.
Proof.
  induction a as [| c a IH]; [reflexivity |].
  destruct c; cbn [app rendered_levels]; rewrite IH; reflexivity.
Qed.

Lemma sampled_levels_app (a b : list Command) :
  sampled_levels (a ++ b) = sampled_levels a ++ sampled_levels b.
Proof.
  induction a as [| c a IH]; [reflexivity |].
  destruct c; cbn [app sampled_levels]; rewrite IH; reflexivity.
Qed.

Lemma submissions_app (a b : list Command) :
  submissions (a ++ b) = (submissions a + submissions b)%nat.
Proof.
  induction a as [| c a IH]; [reflexivity |].
  destruct c; cbn [app submissions]; rewrite IH; reflexivity.
Qed.

Lemma compilations_app (a b : list Command) :
  compilations (a ++ b) = (compilations a + compilations b)%nat.
Proof.
  induction a as [| c a IH]; [reflexivity |].
  destruct c; cbn [app compilations]; rewrite IH; reflexivity.
Qed.

Lemma last_cons_default {A} (x d : A) (l : list A) :
  List.last (x :: l) d = List.last l x.
Proof.
  revert x d. induction l as [| y l IH]; intros x d; [reflexivity |].
  change (List.last (x :: y :: l) d) with (List.last (y :: l) d).
  rewrite !IH. reflexivity.
Qed.

(** One iteration in a world that is ready for it: a bind group on the
    level, a pass on the next level, nothing else touched. *)
Lemma loop_body_run (gpu : Gpu) (program : ref) (texture : GPUTexture)
      (encoder : GPUCommandEncoder) (l : Z) (w : World) :
  loop_ready gpu program w ->
  exists pipeline sampler,
    bind (MipGenerator.getBindGroup gpu program texture l)
         (fun bindGroup =>
            MipGenerator.renderMipmap
              encoder program
              (MipGenerator.getRenderPassDescriptor texture (l + 1)) bindGroup) w
    = (Ok tt,
       {| next_handle := S (next_handle w);
          commands := commands w
                      ++ pass_commands texture encoder pipeline sampler
                                       (next_handle w) l;
          heap := heap w; mipGenerator := mipGenerator w;
          pending := pending w |}).
Proof.
  intros ([d Hd] & (p & Hp & [pl Hpl]) & [s Hs]).
  exists pl, s.
  unfold bind, MipGenerator.getBindGroup, MipGenerator.renderMipmap,
    Device.createBindGroup, Program.read, MipGenerator.this, Gpu.device,
    Program.pipeline, MipGenerator.sampler, lift, fresh, emit, ret, bind.
  cbn. rewrite Hd. cbn. rewrite Hp. cbn. rewrite Hpl, Hs. cbn.
  rewrite Hp. cbn. rewrite Hpl. cbn.
  unfold pass_commands. rewrite <- !app_assoc. reflexivity.
Qed.

(** The loop in a world: it ends as the loop on the three variables does,
    and issues one pass per iteration. *)
Lemma generate_loop_run (fuel : nat) (gpu : Gpu) (program : ref)
      (texture : GPUTexture) (encoder : GPUCommandEncoder) (count : Z) :
  forall width height l tr w,
    loop_ready gpu program w ->
    mip_trace fuel count width height l = Some tr ->
    exists cs n,
      MipGenerator.generate_loop fuel gpu program texture encoder count
                                 width height l w
      = (Ok (List.last tr (width, height, l)),
         {| next_handle := n; commands := commands w ++ cs;
            heap := heap w; mipGenerator := mipGenerator w;
            pending := pending w |})
      /\ rendered_levels cs = map snd tr
      /\ sampled_levels cs = map (fun s => snd s - 1) tr
      /\ submissions cs = O /\ compilations cs = O.
Proof.
  induction fuel as [| fuel IH]; intros width height l tr w Hready Htr.
  - cbn [mip_trace] in Htr. cbn [MipGenerator.generate_loop].
    destruct (MipGenerator.continues count width height l); [discriminate |].
    injection Htr as <-.
    exists [], (next_handle w). rewrite app_nil_r.
    destruct w; repeat split.
  - cbn [mip_trace mip_step] in Htr. cbn [MipGenerator.generate_loop].
    destruct (MipGenerator.continues count width height l).
    + destruct (mip_trace fuel count (Z.max 1 (JS.half width))
                          (Z.max 1 (JS.half height)) (l + 1))
        as [tr' |] eqn:Htr'; [| discriminate].
      injection Htr as <-.
      destruct (loop_body_run gpu program texture encoder l w Hready)
        as (pl & s & Hbody).
      set (w1 := {| next_handle := S (next_handle w);
                    commands := commands w
                                ++ pass_commands texture encoder pl s
                                                 (next_handle w) l;
                    heap := heap w; mipGenerator := mipGenerator w;
                    pending := pending w |}) in *.
      assert (Hready1 : loop_ready gpu program w1) by exact Hready.
      destruct (IH _ _ _ _ w1 Hready1 Htr')
        as (cs & n & Hrun & Hr & Hs & Hsub & Hcomp).
      exists (pass_commands texture encoder pl s (next_handle w) l ++ cs), n.
      split; [| repeat split].
      * unfold bind in Hbody |- *.
        destruct (MipGenerator.getBindGroup gpu program texture l w)
          as [[bg | e |] wb]; try discriminate.
        rewrite Hbody, Hrun. rewrite last_cons_default.
        subst w1. cbn. rewrite <- app_assoc. reflexivity.
      * rewrite rendered_levels_app, Hr. reflexivity.
      * rewrite sampled_levels_app, Hs. cbn. f_equal. f_equal. lia.
      * rewrite submissions_app, Hsub. reflexivity.
      * rewrite compilations_app, Hcomp. reflexivity.
    + injection Htr as <-.
      exists [], (next_handle w). rewrite app_nil_r.
      destruct w; repeat split.
Qed.

(** One iteration in a world where the device, the pipeline and the sampler
    are the given ones. *)
Lemma loop_body_exact (gpu : Gpu) (d : GPUDevice) (program : ref) (p : Program)
      (pl : GPURenderPipeline) (s : GPUSampler) (texture : GPUTexture)
      (encoder : GPUCommandEncoder) (l : Z) (w : World) :
  _device gpu = Some d -> heap w !! program = Some p -> _pipeline p = Some pl ->
  _sampler (mipGenerator w) = Some s ->
  bind (MipGenerator.getBindGroup gpu program texture l)
       (fun bindGroup =>
          MipGenerator.renderMipmap
            encoder program
            (MipGenerator.getRenderPassDescriptor texture (l + 1)) bindGroup) w
  = (Ok tt,
     {| next_handle := S (next_handle w);
        commands := commands w
                    ++ pass_commands texture encoder pl s (next_handle w) l;
        heap := heap w; mipGenerator := mipGenerator w;
        pending := pending w |}).
Proof.
  intros Hd Hp Hpl Hs.
  unfold bind, MipGenerator.getBindGroup, MipGenerator.renderMipmap,
    Device.createBindGroup, Program.read, MipGenerator.this, Gpu.device,
    Program.pipeline, MipGenerator.sampler, lift, fresh, emit, ret, bind.
  cbn. rewrite Hd. cbn. rewrite Hp. cbn. rewrite Hpl, Hs. cbn.
  rewrite Hp. cbn. rewrite Hpl. cbn.
  unfold pass_commands. rewrite <- !app_assoc. reflexivity.
Qed.

Lemma generate_loop_exact (fuel : nat) (gpu : Gpu) (d : GPUDevice) (program : ref)
      (p : Program) (pl : GPURenderPipeline) (s : GPUSampler)
      (texture : GPUTexture) (encoder : GPUCommandEncoder) (count : Z) :
  _device gpu = Some d -> _pipeline p = Some pl ->
  forall width height l tr w,
    heap w !! program = Some p ->
    _sampler (mipGenerator w) = Some s ->
    mip_trace fuel count width height l = Some tr ->
    MipGenerator.generate_loop fuel gpu program texture encoder count
                               width height l w
    = (Ok (List.last tr (width, height, l)),
       {| next_handle := (next_handle w + length tr)%nat;
          commands := commands w
                      ++ loop_commands texture encoder pl s (next_handle w) l
                                       (length tr);
          heap := heap w; mipGenerator := mipGenerator w;
          pending := pending w |}).
Proof.
  intros Hd Hpl.
  induction fuel as [| fuel IH]; intros width height l tr w Hp Hs Htr.
  - cbn [mip_trace] in Htr. cbn [MipGenerator.generate_loop].
    destruct (MipGenerator.continues count width height l); [discriminate |].
    injection Htr as <-. cbn. rewrite app_nil_r, Nat.add_0_r.
    destruct w; reflexivity.
  - cbn [mip_trace mip_step] in Htr. cbn [MipGenerator.generate_loop].
    destruct (MipGenerator.continues count width height l).
    + destruct (mip_trace fuel count (Z.max 1 (JS.half width))
                          (Z.max 1 (JS.half height)) (l + 1))
        as [tr' |] eqn:Htr'; [| discriminate].
      injection Htr as <-.
      assert (Hbody := loop_body_exact gpu d program p pl s texture encoder l w
                                       Hd Hp Hpl Hs).
      unfold bind in Hbody |- *.
      destruct (MipGenerator.getBindGroup gpu program texture l w)
        as [[bg | e |] wb]; try discriminate.
      rewrite Hbody.
      match goal with
      | |- context [MipGenerator.generate_loop _ _ _ _ _ _ _ _ _ ?w1] =>
          rewrite (IH _ _ _ tr' w1 Hp Hs Htr')
      end.
      rewrite last_cons_default. cbn [length loop_commands next_handle commands
                                       heap mipGenerator pending].
      rewrite <- app_assoc.
      replace (next_handle w + S (length tr'))%nat
        with (S (next_handle w) + length tr')%nat by lia.
      reflexivity.
    + injection Htr as <-. cbn. rewrite app_nil_r, Nat.add_0_r.
      destruct w; reflexivity.
Qed.

Lemma closed_trace_length w h l n : length (closed_trace w h l n) = n.
Proof. unfold closed_trace. rewrite length_map, length_seq. reflexivity. Qed.

End LoopInWorld.

(** ** The pipeline cache: [getProgram] *)

Section PipelineCache.

Lemma alter_snoc {A} (f : A -> A) (l : list A) (x : A) :
  alter f (length l) (l ++ [x]) = l ++ [f x].
Proof.
  rewrite alter_app_r_alt by lia.
  rewrite Nat.sub_diag. reflexivity.
Qed.

Ltac run_getProgram :=
  unfold MipGenerator.getProgram, Program.init, Program.alloc,
    Program.update, Device.createShaderModule, Device.createRenderPipeline,
    MipGenerator.this, MipGenerator.assign, Gpu.device,
    bind, lift, fresh, emit, ret;
  cbn.

(** A hit returns the cached reference and leaves the world as it is. *)
Lemma getProgram_cached (gpu : Gpu) (f : GPUTextureFormat) (r : ref) (w : World) :
  _programMap (mipGenerator w) !! f = Some r ->
  MipGenerator.getProgram gpu f w = (Ok r, w).
Proof. intros Hhit. run_getProgram. rewrite Hhit. reflexivity. Qed.

(** A miss on a device that builds the program: a new object, two
    compilations, and the new entry. *)
Lemma getProgram_built (gpu : Gpu) (d : GPUDevice) (f : GPUTextureFormat)
      (w : World) :
  _programMap (mipGenerator w) !! f = None ->
  _device gpu = Some d -> buildable d f ->
  MipGenerator.getProgram gpu f w
  = (Ok (length (heap w)),
     {| next_handle := S (S (next_handle w));
        commands :=
          commands w
          ++ [CreateShaderModule
                (next_handle w)
                (shaderDescriptor (MipGenerator.programDescriptor f) tt);
              CreateRenderPipeline
                (S (next_handle w))
                (pipelineDescriptor (MipGenerator.programDescriptor f)
                                    (next_handle w))];
        heap := heap w ++ [{| _shaderModule := Some (next_handle w);
                              _pipeline := Some (S (next_handle w)) |}];
        mipGenerator :=
          {| _sampler := _sampler (mipGenerator w);
             _programMap := <[f := length (heap w)]>
                              (_programMap (mipGenerator w)) |};
        pending := pending w |}).
Proof.
  intros Hmiss Hd [Hs Hp]. run_getProgram. cbn in Hs.
  rewrite Hmiss. cbn. rewrite Hd. cbn. rewrite Hs. cbn.
  rewrite Hp. cbn.
  rewrite alter_snoc. cbn. rewrite alter_snoc. cbn.
  rewrite <- app_assoc. reflexivity.
Qed.

(** A miss on a device that throws while building: the throw is passed
    on, nothing is stored in the cache, no pass is begun and nothing is
    submitted. *)
Lemma getProgram_throws (gpu : Gpu) (d : GPUDevice) (f : GPUTextureFormat)
      (e : JS.exn) (w : World) :
  _programMap (mipGenerator w) !! f = None ->
  _device gpu = Some d -> build_throws d f e ->
  exists w',
    MipGenerator.getProgram gpu f w = (Throw e, w')
    /\ mipGenerator w' = mipGenerator w
    /\ pending w' = pending w
    /\ exists cs, commands w' = commands w ++ cs
                  /\ rendered_levels cs = [] /\ sampled_levels cs = []
                  /\ submissions cs = O.
Proof.
  intros Hmiss Hd [Hs | [Hs Hp]]; cbn in Hs.
  - eexists. split.
    + run_getProgram. rewrite Hmiss. cbn. rewrite Hd. cbn. rewrite Hs. cbn.
      reflexivity.
    + cbn. repeat split. exists []. rewrite app_nil_r. repeat split.
  - eexists. split.
    + run_getProgram. rewrite Hmiss. cbn. rewrite Hd. cbn. rewrite Hs. cbn.
      rewrite Hp. cbn. reflexivity.
    + cbn. repeat split. eexists. repeat split.
Qed.

(** Whatever [getProgram] does, it removes no entry and changes none. *)
Lemma getProgram_keeps (gpu : Gpu) (f f0 : GPUTextureFormat) (r : ref)
      (w : World) :
  _programMap (mipGenerator w) !! f0 = Some r ->
  _programMap (mipGenerator (snd (MipGenerator.getProgram gpu f w))) !! f0
  = Some r.
Proof.
  intros Hin. run_getProgram.
  destruct (_programMap (mipGenerator w) !! f) as [r' |] eqn:Hf; [exact Hin |].
  cbn. destruct (_device gpu) as [d |]; cbn; [| exact Hin].
  destruct (createShaderModule_throws d _); cbn; [exact Hin |].
  destruct (createRenderPipeline_throws d f); cbn; [exact Hin |].
  rewrite lookup_insert_ne; [exact Hin |].
  intros ->. congruence.
Qed.

(** When [getProgram] returns a program, that program is the entry of the
    format afterwards. *)
Lemma getProgram_ok_entry (gpu : Gpu) (f : GPUTextureFormat) (r : ref)
      (w w' : World) :
  MipGenerator.getProgram gpu f w = (Ok r, w') ->
  _programMap (mipGenerator w') !! f = Some r.
Proof.
  run_getProgram.
  destruct (_programMap (mipGenerator w) !! f) as [r' |] eqn:Hf.
  - intros [= <- <-]. exact Hf.
  - cbn. destruct (_device gpu) as [d |]; cbn; [| discriminate].
    destruct (createShaderModule_throws d _); cbn; [discriminate |].
    destruct (createRenderPipeline_throws d f); cbn; [discriminate |].
    intros [= <- <-]. cbn. apply lookup_insert_eq.
Qed.

(** A miss that ends well returned the next free reference. *)
Lemma getProgram_ok_miss (gpu : Gpu) (f : GPUTextureFormat) (r : ref)
      (w w' : World) :
  _programMap (mipGenerator w) !! f = None ->
  MipGenerator.getProgram gpu f w = (Ok r, w') ->
  r = length (heap w)
  /\ exists d, _device gpu = Some d /\ buildable d f.
Proof.
  intros Hf. run_getProgram. rewrite Hf. cbn.
  destruct (_device gpu) as [d |] eqn:Hd; cbn; [| discriminate].
  destruct (createShaderModule_throws d _) eqn:Hs; cbn; [discriminate |].
  destruct (createRenderPipeline_throws d f) eqn:Hp; cbn; [discriminate |].
  intros [= <- <-]. split; [reflexivity |].
  exists d. repeat split; assumption.
Qed.

(** The cache stays well formed. *)
Lemma getProgram_wf (gpu : Gpu) (f : GPUTextureFormat) (w : World) :
  cache_wf w -> cache_wf (snd (MipGenerator.getProgram gpu f w)).
Proof.
  intros [Hready Hinj].
  assert (Hgrow : forall extra f0 r0,
             _programMap (mipGenerator w) !! f0 = Some r0 ->
             exists p, (heap w ++ extra) !! r0 = Some p
                       /\ is_Some (_shaderModule p) /\ is_Some (_pipeline p)).
  { intros extra f0 r0 H0. destruct (Hready f0 r0 H0) as (p & Hp & Hsm & Hpl).
    exists p. split; [apply lookup_app_l_Some; exact Hp | split; assumption]. }
  run_getProgram.
  destruct (_programMap (mipGenerator w) !! f) as [r' |] eqn:Hf;
    [split; assumption |].
  cbn. destruct (_device gpu) as [d |]; cbn;
    [| split; [apply Hgrow | exact Hinj]].
  destruct (createShaderModule_throws d _); cbn;
    [split; [apply Hgrow | exact Hinj] |].
  rewrite alter_snoc.
  destruct (createRenderPipeline_throws d f); cbn;
    [split; [apply Hgrow | exact Hinj] |].
  rewrite alter_snoc. cbn. split.
  - intros f0 r0 H0. cbn in H0.
    apply lookup_insert_Some in H0 as [[<- <-] | [Hne H0]].
    + eexists. split; [apply list_lookup_middle; reflexivity |].
      cbn. split; eexists; reflexivity.
    + apply (Hgrow _ f0 r0 H0).
  - assert (Hfresh : forall f0, _programMap (mipGenerator w) !! f0
                                <> Some (length (heap w))).
    { intros f0 H0. destruct (Hready f0 _ H0) as (p & Hp & _).
      apply lookup_lt_Some in Hp. lia. }
    intros f1 f2 r0 H1 H2. cbn in H1, H2.
    apply lookup_insert_Some in H1 as [[<- <-] | [Hne1 H1]];
      apply lookup_insert_Some in H2 as [[<- E2] | [Hne2 H2]];
      try reflexivity.
    * exfalso. exact (Hfresh _ H2).
    * exfalso. subst r0. exact (Hfresh _ H1).
    * exact (Hinj _ _ _ H1 H2).
Qed.

End PipelineCache.

(** ** Running [generate] in a world *)

Section Generate.

(** On a device that builds the program, [getProgram] returns a program
    whose pipeline is set, having begun no pass. *)
Lemma getProgram_run (gpu : Gpu) (d : GPUDevice) (f : GPUTextureFormat)
      (w : World) :
  cache_wf w -> _device gpu = Some d -> buildable d f ->
  exists r w' cs,
    MipGenerator.getProgram gpu f w = (Ok r, w')
    /\ commands w' = commands w ++ cs
    /\ rendered_levels cs = [] /\ sampled_levels cs = []
    /\ submissions cs = O
    /\ pending w' = pending w
    /\ _sampler (mipGenerator w') = _sampler (mipGenerator w)
    /\ exists p, heap w' !! r = Some p /\ is_Some (_pipeline p).
Proof.
  intros [Hready _] Hd Hb.
  destruct (_programMap (mipGenerator w) !! f) as [r |] eqn:Hf.
  - exists r, w, []. rewrite (getProgram_cached gpu f r w Hf), app_nil_r.
    repeat split.
    destruct (Hready f r Hf) as (p & Hp & _ & Hpl). exists p. split; assumption.
  - rewrite (getProgram_built gpu d f w Hf Hd Hb).
    do 3 eexists. split; [reflexivity |]. cbn. repeat split.
    eexists. split; [apply list_lookup_middle; reflexivity |].
    cbn. eexists. reflexivity.
Qed.

(** [generate] on a device that is in place and builds the program, with a
    sampler in place, in a world whose cache is well formed: it returns the
    level the loop ends on, begins one pass per iteration, each sampling
    the level below, and submits once. *)
Lemma generate_run (fuel : nat) (gpu : Gpu) (d : GPUDevice)
      (texture : GPUTexture) (count : option Z) (w : World)
      (tr : list (Z * Z * Z)) :
  cache_wf w -> _device gpu = Some d ->
  is_Some (_sampler (mipGenerator w)) ->
  buildable d (format texture) ->
  mip_trace fuel (requested_levels texture count)
            (width texture) (height texture) 0 = Some tr ->
  exists w' cs,
    MipGenerator.generate fuel gpu texture count w
    = (Ok (snd (List.last tr (width texture, height texture, 0))), w')
    /\ commands w' = commands w ++ cs
    /\ rendered_levels cs = map snd tr
    /\ sampled_levels cs = map (fun s => snd s - 1) tr
    /\ submissions cs = 1%nat.
Proof.
  intros Hwf Hd Hs Hb Htr.
  destruct (getProgram_run gpu d (format texture) w Hwf Hd Hb)
    as (r & w1 & cs1 & Hget & Hcs1 & Hr1 & Hs1 & Hsub1 & _ & Hsam & Hprog).
  unfold MipGenerator.generate. unfold bind at 1. rewrite Hget.
  unfold bind, lift, Gpu.device, Device.createCommandEncoder, Device.finish,
    Device.submit, fresh, emit, ret.
  cbn. rewrite Hd. cbn.
  fold (requested_levels texture count).
  match goal with
  | |- context [MipGenerator.generate_loop ?f ?g ?p ?t ?e ?c ?wd ?ht ?l ?w0] =>
      destruct (generate_loop_run f g p t e c wd ht l tr w0)
        as (cs2 & n & Hrun & Hr2 & Hs2 & Hsub2 & _)
  end.
  { split; [eexists; exact Hd |]. split; [exact Hprog |].
    cbn. rewrite Hsam. exact Hs. }
  { exact Htr. }
  rewrite Hrun. cbn.
  do 2 eexists. split; [reflexivity |]. cbn.
  rewrite Hcs1. rewrite <- !app_assoc.
  split; [reflexivity |].
  rewrite !rendered_levels_app, !sampled_levels_app, !submissions_app.
  rewrite Hr1, Hr2, Hs1, Hs2, Hsub1, Hsub2. cbn.
  rewrite !app_nil_r. repeat split.
Qed.

(** With fuel for 32 iterations [generate] never runs out: a dimension
    below [2^32] is 1 after at most 31 halvings. *)
Lemma pass_count_bound (count w h : Z) :
  1 <= w < 2 ^ 32 -> 1 <= h < 2 ^ 32 ->
  (Z.to_nat (pass_count count w h 0) <= 32)%nat.
Proof.
  intros Hw Hh. unfold pass_count.
  assert (Z.log2 w < 32) by (apply Z.log2_lt_pow2; lia).
  assert (Z.log2 h < 32) by (apply Z.log2_lt_pow2; lia).
  lia.
Qed.

(** [generate] in closed form: on a texture with dimensions in range it
    makes [pass_count] passes, on the levels 1, 2, ... in order, and
    returns their number. *)
Lemma generate_closed (fuel : nat) (gpu : Gpu) (d : GPUDevice)
      (texture : GPUTexture) (count : option Z) (w : World) :
  cache_wf w -> _device gpu = Some d ->
  is_Some (_sampler (mipGenerator w)) ->
  buildable d (format texture) ->
  1 <= width texture < 2 ^ 32 -> 1 <= height texture < 2 ^ 32 ->
  (32 <= fuel)%nat ->
  let n := pass_count (requested_levels texture count)
                      (width texture) (height texture) 0 in
  exists w' cs,
    MipGenerator.generate fuel gpu texture count w = (Ok n, w')
    /\ commands w' = commands w ++ cs
    /\ rendered_levels cs = map (fun k => Z.of_nat k) (seq 1 (Z.to_nat n))
    /\ sampled_levels cs = map (fun k => Z.of_nat k - 1) (seq 1 (Z.to_nat n))
    /\ submissions cs = 1%nat.
Proof.
  intros Hwf Hd Hs Hb Hw Hh Hfuel n.
  assert (Hn : (Z.to_nat n <= fuel)%nat).
  { assert (Hle := pass_count_bound (requested_levels texture count) _ _ Hw Hh).
    subst n. lia. }
  assert (Htr := mip_trace_closed fuel (requested_levels texture count)
                                  _ _ 0 Hw Hh Hn).
  destruct (generate_run fuel gpu d texture count w _ Hwf Hd Hs Hb Htr)
    as (w' & cs & Hrun & Hcs & Hr & Hsm & Hsub).
  exists w', cs. fold n in Hrun, Hr, Hsm.
  assert (Hlast : snd (List.last (closed_trace (width texture) (height texture)
                                               0 (Z.to_nat n))
                                 (width texture, height texture, 0)) = n).
  { assert (0 <= n).
    { subst n. unfold pass_count.
      assert (0 <= Z.log2 (height texture)) by apply Z.log2_nonneg. lia. }
    rewrite last_closed_trace by lia. cbn. lia. }
  rewrite Hlast in Hrun.
  split; [exact Hrun |]. split; [exact Hcs |].
  unfold closed_trace in Hr, Hsm. rewrite map_map in Hr, Hsm.
  repeat split; assumption.
Qed.

End Generate.

(** ** The level bound and the collapse of the dimensions *)

Section Levels.




(** [generate] returns: whatever the dimensions and the level count, with
    enough fuel the loop is left and the call ends normally. *)
Lemma generate_terminates (gpu : Gpu) (d : GPUDevice) (texture : GPUTexture)
      (count : option Z) (w : World) :
  cache_wf w -> _device gpu = Some d ->
  is_Some (_sampler (mipGenerator w)) ->
  buildable d (format texture) ->
  exists n, forall fuel, (n <= fuel)%nat ->
    exists v w', MipGenerator.generate fuel gpu texture count w = (Ok v, w').
Proof.
  intros Hwf Hd Hs Hb.
  destruct (mip_trace_terminates (requested_levels texture count)
                                 (width texture) (height texture) 0)
    as [n Hn].
  exists n. intros fuel Hfuel.
  destruct (Hn fuel Hfuel) as [tr Htr].
  destruct (generate_run fuel gpu d texture count w tr Hwf Hd Hs Hb Htr)
    as (w' & cs & Hrun & _).
  eexists. exists w'. exact Hrun.
Qed.

(** With the default level count the loop makes one pass per level above
    the base: the two slips of its test do not show. *)
Lemma pass_count_default (w h : Z) :
  1 <= w -> 1 <= h ->
  pass_count (1 + Z.log2 (Z.max w h)) w h 0 = Z.log2 (Z.max w h).
Proof.
  intros Hw Hh. unfold pass_count.
  assert (Z.log2 w <= Z.log2 (Z.max w h)) by (apply Z.log2_le_mono; lia).
  assert (Z.log2 h <= Z.log2 (Z.max w h)) by (apply Z.log2_le_mono; lia).
  destruct (Z.max_spec w h) as [[_ Heq] | [_ Heq]]; rewrite Heq in *; lia.
Qed.

Lemma generate_default_passes (fuel : nat) (gpu : Gpu) (d : GPUDevice)
      (texture : GPUTexture) (w : World) :
  cache_wf w -> _device gpu = Some d ->
  is_Some (_sampler (mipGenerator w)) ->
  buildable d (format texture) ->
  1 <= width texture < 2 ^ 32 -> 1 <= height texture < 2 ^ 32 ->
  (32 <= fuel)%nat ->
  exists w',
    MipGenerator.generate fuel gpu texture None w
    = (Ok (MipGenerator.countMipLevels [width texture; height texture] - 1), w').
Proof.
  intros Hwf Hd Hs Hb Hw Hh Hfuel.
  destruct (generate_closed fuel gpu d texture None w Hwf Hd Hs Hb Hw Hh Hfuel)
    as (w' & cs & Hrun & _).
  exists w'. rewrite Hrun. cbn [requested_levels].
  rewrite (countMipLevels_log2 _ (Z.max (width texture) (height texture)));
    [| reflexivity | lia].
  rewrite pass_count_default by lia.
  do 2 f_equal. lia.
Qed.

(** [getProgram] and [generate] are their parts run one after the other. *)
Lemma getProgram_parts (gpu : Gpu) (f : GPUTextureFormat) :
  MipGenerator.getProgram gpu f
  = (let! g := MipGenerator.this in
     match _programMap g !! f with
     | Some program => ret program
     | None =>
         let! program := Program.alloc in
         let! _ := Program.init program gpu (MipGenerator.programDescriptor f) in
         MipGenerator.getProgram_resume f program
     end).
Proof. reflexivity. Qed.

Lemma generate_parts (fuel : nat) (gpu : Gpu) (texture : GPUTexture)
      (levels : option Z) :
  MipGenerator.generate fuel gpu texture levels
  = (let! program := MipGenerator.getProgram gpu (format texture) in
     MipGenerator.generate_resume fuel gpu texture levels program).
Proof. reflexivity. Qed.

(** The observations on the commands of a [generate] call. *)
Lemma loop_commands_levels (texture : GPUTexture) (encoder : GPUCommandEncoder)
      (pl : GPURenderPipeline) (s : GPUSampler) (n : nat) :
  forall bg l,
    rendered_levels (loop_commands texture encoder pl s bg l n)
    = map (fun k => l + Z.of_nat k) (seq 1 n)
    /\ sampled_levels (loop_commands texture encoder pl s bg l n)
       = map (fun k => l + Z.of_nat k - 1) (seq 1 n)
    /\ submissions (loop_commands texture encoder pl s bg l n) = O
    /\ compilations (loop_commands texture encoder pl s bg l n) = O.
Proof.
  induction n as [| n IH]; intros bg l; [repeat split |].
  destruct (IH (S bg) (l + 1)) as (Hr & Hs & Hsub & Hc).
  cbn [loop_commands pass_commands app rendered_levels sampled_levels submissions
       compilations MipGenerator.getRenderPassDescriptor Device.createView view
       baseMipLevel].
  rewrite Hr, Hs, Hsub, Hc. cbn [seq map].
  rewrite <- (seq_shift n 1), !map_map.
  split; [| split; [| split; reflexivity]].
  - f_equal; try lia. apply map_ext. intros k. lia.
  - f_equal; try lia. apply map_ext. intros k. lia.
Qed.

Lemma generate_commands_levels (texture : GPUTexture) (encoder : GPUCommandEncoder)
      (pl : GPURenderPipeline) (s : GPUSampler) (n : nat) :
  rendered_levels (generate_commands texture encoder pl s n)
  = map (fun k => Z.of_nat k) (seq 1 n)
  /\ sampled_levels (generate_commands texture encoder pl s n)
     = map (fun k => Z.of_nat k - 1) (seq 1 n)
  /\ submissions (generate_commands texture encoder pl s n) = 1%nat
  /\ compilations (generate_commands texture encoder pl s n) = O.
Proof.
  unfold generate_commands.
  destruct (loop_commands_levels texture encoder pl s n (S encoder) 0)
    as (Hr & Hs & Hsub & Hc).
  rewrite !rendered_levels_app, !sampled_levels_app, !submissions_app,
    !compilations_app, Hr, Hs, Hsub, Hc.
  cbn. rewrite !app_nil_r. repeat split.
Qed.

(** [generate] from its program on, in closed form: on a texture with
    dimensions in range, the encoder, [pass_count] iterations of the loop,
    the finish and the submission. *)
Lemma generate_resume_exact (fuel : nat) (gpu : Gpu) (d : GPUDevice)
      (texture : GPUTexture) (count : option Z) (w : World) (r : ref)
      (p : Program) (pl : GPURenderPipeline) (s : GPUSampler) :
  _device gpu = Some d ->
  heap w !! r = Some p -> _pipeline p = Some pl ->
  _sampler (mipGenerator w) = Some s ->
  1 <= width texture < 2 ^ 32 -> 1 <= height texture < 2 ^ 32 ->
  (32 <= fuel)%nat ->
  let n := Z.to_nat (pass_count (requested_levels texture count)
                                (width texture) (height texture) 0) in
  MipGenerator.generate_resume fuel gpu texture count r w
  = (Ok (Z.of_nat n), after_generate texture pl s n w).
Proof.
  intros Hd Hp Hpl Hs Hw Hh Hfuel n.
  assert (Hn : (n <= fuel)%nat).
  { assert (Hle := pass_count_bound (requested_levels texture count) _ _ Hw Hh).
    subst n. lia. }
  assert (Htr := mip_trace_closed fuel (requested_levels texture count)
                                  _ _ 0 Hw Hh Hn).
  fold n in Htr.
  unfold MipGenerator.generate_resume.
  unfold bind, lift, Gpu.device, Device.createCommandEncoder, Device.finish,
    Device.submit, fresh, emit, ret.
  cbn. rewrite Hd. cbn.
  fold (requested_levels texture count).
  match goal with
  | |- context [MipGenerator.generate_loop ?f ?g ?pr ?t ?e ?c ?wd ?ht ?l ?w0] =>
      rewrite (generate_loop_exact f g d pr p pl s t e c Hd Hpl wd ht l _ w0
                                   Hp Hs Htr)
  end.
  cbn. rewrite closed_trace_length.
  rewrite (last_closed_trace _ _ 0 n) by lia. cbn.
  unfold after_generate, generate_commands. rewrite <- !app_assoc. cbn.
  rewrite Z.add_0_l. reflexivity.
Qed.


Lemma cache_wf_empty (w : World) :
  _programMap (mipGenerator w) = ∅ -> cache_wf w.
Proof.
  intros He. split.
  - intros f r H. rewrite He, lookup_empty in H. discriminate.
  - intros f f' r H. rewrite He, lookup_empty in H. discriminate.
Qed.

(** The second slip of the loop test: where the level bound does limit
    the loop it allows [mipLevelCount] passes, one more than there are
    levels above the base: on 256 by 1 with three levels, passes on the
    levels 1, 2 and 3. *)
Lemma generate_one_pass_too_many (fuel : nat) (gpu : Gpu) (d : GPUDevice)
      (texture : GPUTexture) (w : World) :
  cache_wf w -> _device gpu = Some d ->
  is_Some (_sampler (mipGenerator w)) ->
  buildable d (format texture) -> (32 <= fuel)%nat ->
  width texture = 256 -> height texture = 1 ->
  exists w' cs,
    MipGenerator.generate fuel gpu texture (Some 3) w = (Ok 3, w')
    /\ commands w' = commands w ++ cs
    /\ rendered_levels cs = [1; 2; 3].
Proof.
  intros Hwf Hd Hs Hb Hfuel Hw Hh.
  destruct (generate_closed fuel gpu d texture (Some 3) w Hwf Hd Hs Hb)
    as (w' & cs & Hrun & Hcs & Hr & _); try lia.
  rewrite Hw, Hh in Hrun, Hr. exists w', cs. repeat split; assumption.
Qed.

(** C1: evaluation at a failing input.  The test of the loop is
    [(baseMipLevel < mipLevelCount && width > 1) || height > 1]: on a
    texture of 256 by 256 with three levels requested the test still holds
    at level 2, where the test of the claim does not, and [generate] makes
    8 passes, on the levels 1 to 8, and returns 8; the claim allows
    two. *)
Theorem C1_generate_ignores_level_bound
        (fuel : nat) (gpu : Gpu) (d : GPUDevice) (texture : GPUTexture)
        (w : World) :
  cache_wf w -> _device gpu = Some d ->
  is_Some (_sampler (mipGenerator w)) ->
  buildable d (format texture) -> (32 <= fuel)%nat ->
  width texture = 256 -> height texture = 256 ->
  MipGenerator.continues 3 64 64 2 = true
  /\ ((2 <? 3 - 1) && ((1 <? 64) || (1 <? 64))) = false
  /\ exists w' cs,
      MipGenerator.generate fuel gpu texture (Some 3) w = (Ok 8, w')
      /\ commands w' = commands w ++ cs
      /\ rendered_levels cs = [1; 2; 3; 4; 5; 6; 7; 8].
Proof.
  intros Hwf Hd Hs Hb Hfuel Hw Hh.
  split; [reflexivity |]. split; [reflexivity |].
  destruct (generate_closed fuel gpu d texture (Some 3) w Hwf Hd Hs Hb)
    as (w' & cs & Hrun & Hcs & Hr & _); try lia.
  rewrite Hw, Hh in Hrun, Hr. exists w', cs. repeat split; assumption.
Qed.

Lemma C1_generate_ignores_level_bound_witness :
  exists w' cs,
    MipGenerator.generate 32 sample_gpu
                          (texture_of 100%nat 256 256 "rgba8unorm")
                          (Some 3) ready_world = (Ok 8, w')
    /\ commands w' = commands ready_world ++ cs
    /\ rendered_levels cs = [1; 2; 3; 4; 5; 6; 7; 8].
Proof.
  apply (C1_generate_ignores_level_bound
           32 sample_gpu (plain_device 7%nat 8192)
           (texture_of 100%nat 256 256 "rgba8unorm") ready_world).
  - apply cache_wf_empty. reflexivity.
  - reflexivity.
  - eexists. reflexivity.
  - split; reflexivity.
  - lia.
  - reflexivity.
  - reflexivity.
Defined.

(** [generate] in closed form, whether its program is cached or has to be
    built: the world [getProgram] leaves, then the commands of the call. *)
Lemma generate_exact (fuel : nat) (gpu : Gpu) (d : GPUDevice)
      (texture : GPUTexture) (count : option Z) (w : World) (s : GPUSampler) :
  cache_wf w -> _device gpu = Some d ->
  _sampler (mipGenerator w) = Some s ->
  buildable d (format texture) ->
  1 <= width texture < 2 ^ 32 -> 1 <= height texture < 2 ^ 32 ->
  (32 <= fuel)%nat ->
  let n := Z.to_nat (pass_count (requested_levels texture count)
                                (width texture) (height texture) 0) in
  exists r pl w1,
    MipGenerator.getProgram gpu (format texture) w = (Ok r, w1)
    /\ (exists p, heap w1 !! r = Some p /\ _pipeline p = Some pl)
    /\ (is_Some (_programMap (mipGenerator w) !! format texture) -> w1 = w)
    /\ (_programMap (mipGenerator w) !! format texture = None ->
        commands w1
        = commands w ++ build_commands (format texture) (next_handle w)
        /\ pl = S (next_handle w))
    /\ MipGenerator.generate fuel gpu texture count w
       = (Ok (Z.of_nat n), after_generate texture pl s n w1).
Proof.
  intros [Hready Hinj] Hd Hs Hb Hw Hh Hfuel n.
  rewrite generate_parts. unfold bind at 1.
  destruct (_programMap (mipGenerator w) !! format texture) as [r |] eqn:Hf.
  - destruct (Hready _ r Hf) as (p & Hp & _ & [pl Hpl]).
    exists r, pl, w.
    rewrite (getProgram_cached gpu (format texture) r w Hf).
    split; [reflexivity |]. split; [exists p; split; assumption |].
    split; [reflexivity |]. split; [discriminate |].
    apply (generate_resume_exact fuel gpu d texture count w r p pl s);
      assumption.
  - assert (Hbuilt := getProgram_built gpu d (format texture) w Hf Hd Hb).
    match type of Hbuilt with
    | _ = (Ok ?r, ?w1) => exists r, (S (next_handle w)), w1
    end.
    rewrite Hbuilt.
    split; [reflexivity |].
    split.
    { eexists. split; [apply list_lookup_middle; reflexivity | reflexivity]. }
    split; [intros [x Hx]; discriminate Hx |].
    split; [intros _; split; reflexivity |].
    apply (generate_resume_exact
             fuel gpu d texture count _ _
             {| _shaderModule := Some (next_handle w);
                _pipeline := Some (S (next_handle w)) |});
      try assumption; try reflexivity.
    apply list_lookup_middle. reflexivity.
Qed.



End Levels.

(** ** Device Context *)

Section DeviceContext.

Lemma init_outcome (navigator : Navigator) (this : Gpu) :
  Gpu.init navigator this
  = match Gpu.request_adapter navigator with
    | None => (Throw no_webgpu,
               {| label := label this; _adapter := None;
                  _device := _device this |})
    | Some a =>
        match requestDevice a with
        | None => (Throw no_webgpu,
                   {| label := label this; _adapter := Some a;
                      _device := None |})
        | Some d => (Ok tt,
                     {| label := label this; _adapter := Some a;
                        _device := Some d |})
        end
    end.
Proof.
  unfold Gpu.init. cbn.
  destruct (Gpu.request_adapter navigator) as [a |]; [| reflexivity].
  destruct (requestDevice a); reflexivity.
Qed.

Lemma ready_iff (g : Gpu) :
  Gpu.ready g = true <-> is_Some (_adapter g) /\ is_Some (_device g).
Proof.
  unfold Gpu.ready. rewrite andb_true_iff, !bool_decide_eq_true. tauto.
Qed.

(** C8, as the code has it: [init] requests an adapter and then a device
    from that adapter, and stores both.  Without an adapter it throws, and
    with an adapter whose device request fails it throws the same error,
    [Error('browser does not support WebGPU')].  It returns normally
    exactly when both acquisitions succeed, and [ready] is true after it
    exactly then; on a new [Gpu], [ready] is false. *)
Theorem C8_init_acquires_adapter_then_device
        (navigator : Navigator) (this : Gpu) :
  (forall l, Gpu.ready (Gpu.new l) = false)
  /\ _adapter (snd (Gpu.init navigator this)) = Gpu.request_adapter navigator
  /\ (forall a, Gpu.request_adapter navigator = Some a ->
                _device (snd (Gpu.init navigator this)) = requestDevice a)
  /\ (Gpu.request_adapter navigator = None ->
      fst (Gpu.init navigator this) = Throw no_webgpu)
  /\ (forall a, Gpu.request_adapter navigator = Some a ->
                requestDevice a = None ->
                fst (Gpu.init navigator this) = Throw no_webgpu)
  /\ (fst (Gpu.init navigator this) = Ok tt
      <-> exists a d, Gpu.request_adapter navigator = Some a
                      /\ requestDevice a = Some d)
  /\ (Gpu.ready (snd (Gpu.init navigator this)) = true
      <-> fst (Gpu.init navigator this) = Ok tt).
Proof.
  rewrite init_outcome.
  split; [reflexivity |].
  destruct (Gpu.request_adapter navigator) as [a |] eqn:Ha.
  - destruct (requestDevice a) as [d |] eqn:Hd; cbn.
    + split; [reflexivity |].
      split; [intros a' [= <-]; symmetry; exact Hd |].
      split; [discriminate |].
      split; [intros a' [= <-]; congruence |].
      split; [split; [intros _; exists a, d; split; [reflexivity | exact Hd]
                     | reflexivity] |].
      split; reflexivity.
    + split; [reflexivity |].
      split; [intros a' [= <-]; symmetry; exact Hd |].
      split; [discriminate |].
      split; [reflexivity |].
      split; [split; [discriminate
                     | intros (a' & d & [= <-] & Hd'); congruence] |].
      split; discriminate.
  - cbn.
    split; [reflexivity |].
    split; [discriminate |].
    split; [reflexivity |].
    split; [discriminate |].
    split; [split; [discriminate | intros (a' & d & Ha' & _); discriminate] |].
    split; discriminate.
Qed.

Lemma C8_init_acquires_adapter_then_device_witness :
  fst (Gpu.init browser_without_adapter (Gpu.new "g")) = Throw no_webgpu
  /\ fst (Gpu.init (browser None) (Gpu.new "g")) = Throw no_webgpu
  /\ Gpu.ready (snd (Gpu.init (browser (Some (plain_device 7%nat 8192)))
                              (Gpu.new "g"))) = true.
Proof.
  split; [| split].
  - destruct (C8_init_acquires_adapter_then_device
                browser_without_adapter (Gpu.new "g"))
      as (_ & _ & _ & H & _).
    apply H. reflexivity.
  - destruct (C8_init_acquires_adapter_then_device
                (browser None) (Gpu.new "g"))
      as (_ & _ & _ & _ & H & _).
    apply (H {| adapter_id := 1%nat; requestDevice := None |}); reflexivity.
  - destruct (C8_init_acquires_adapter_then_device
                (browser (Some (plain_device 7%nat 8192))) (Gpu.new "g"))
      as (_ & _ & _ & _ & _ & _ & H).
    apply H. reflexivity.
Defined.

(** C8, the claim as stated fails: the failure without an adapter and the
    failure without a device throw one and the same error, so the thrown
    error does not tell the two causes apart. *)
Lemma C8_failure_causes_not_distinguished :
  fst (Gpu.init browser_without_adapter (Gpu.new "g"))
  = Throw (JS.Error "browser does not support WebGPU")
  /\ fst (Gpu.init (browser None) (Gpu.new "g"))
     = Throw (JS.Error "browser does not support WebGPU")
  /\ ~ (fst (Gpu.init browser_without_adapter (Gpu.new "g"))
        <> fst (Gpu.init (browser None) (Gpu.new "g"))).
Proof.
  split; [reflexivity |]. split; [reflexivity |].
  intros H. apply H. reflexivity.
Qed.

(** C10: [init] is not atomic.  When the adapter is acquired and the
    device is not, [init] throws, [ready] is false afterwards, and the
    adapter accessor, which threw on the new [Gpu], now returns the
    adapter. *)
Theorem C10_init_failure_keeps_adapter
        (navigator : Navigator) (l : string) (a : GPUAdapter) :
  Gpu.request_adapter navigator = Some a ->
  requestDevice a = None ->
  Gpu.adapter (Gpu.new l) = Throw (JS.Error "Rendering device is not initialized")
  /\ fst (Gpu.init navigator (Gpu.new l)) = Throw no_webgpu
  /\ Gpu.ready (snd (Gpu.init navigator (Gpu.new l))) = false
  /\ Gpu.adapter (snd (Gpu.init navigator (Gpu.new l))) = Ok a
  /\ Gpu.device (snd (Gpu.init navigator (Gpu.new l)))
     = Throw (JS.Error "Rendering device is not initialized").
Proof.
  intros Ha Hd. rewrite init_outcome, Ha, Hd. cbn.
  repeat split.
Qed.

Lemma C10_init_failure_keeps_adapter_witness :
  Gpu.ready (snd (Gpu.init (browser None) (Gpu.new "g"))) = false
  /\ Gpu.adapter (snd (Gpu.init (browser None) (Gpu.new "g")))
     = Ok {| adapter_id := 1%nat; requestDevice := None |}.
Proof.
  destruct (C10_init_failure_keeps_adapter
              (browser None) "g" {| adapter_id := 1%nat; requestDevice := None |})
    as (_ & _ & Hready & Hadapter & _); [reflexivity | reflexivity |].
  split; [exact Hready | exact Hadapter].
Defined.

End DeviceContext.

(** ** Presentation Surface: the resize observer *)

Section Resize.

(** What the observer stores for a reported size [x] on a device with the
    limit [limit]. *)
Lemma assign_clamped (limit : Z) (x : Q) :
  1 <= limit < 2 ^ 32 ->
  1 <= Surface.assign_dimension (Qmax 1 (Qmin x (inject_Z limit))) <= limit.
Proof.
  intros Hl.
  set (q := Qmax 1 (Qmin x (inject_Z limit))).
  assert (Hlo : (1 <= q)%Q) by apply Q.le_max_l.
  assert (Hhi : (q <= inject_Z limit)%Q).
  { apply Q.max_lub; [| apply Q.le_min_r].
    change 1%Q with (inject_Z 1). rewrite <- Zle_Qle. lia. }
  assert (Hpos : Qle_bool 0 q = true).
  { apply Qle_bool_iff. apply Qle_trans with 1%Q; [discriminate | exact Hlo]. }
  unfold Surface.assign_dimension, JS.trunc, JS.ToUint32. rewrite Hpos.
  assert (H1 : 1 <= Qfloor q).
  { change 1 with (Qfloor 1) at 1. apply Qfloor_resp_le. exact Hlo. }
  assert (H2 : Qfloor q <= limit).
  { rewrite <- (Qfloor_Z limit). apply Qfloor_resp_le. exact Hhi. }
  rewrite Z.mod_small; lia.
Qed.

Lemma resize_entry_clamps (gpu : Gpu) (d : GPUDevice)
      (entry : ResizeObserverEntry) (this : Surface) :
  _device gpu = Some d -> 1 <= maxTextureDimension2D d < 2 ^ 32 ->
  contentBoxSize entry <> [] ->
  fst (Surface.resize_entry gpu entry this) = Ok tt
  /\ canvas_clamped (maxTextureDimension2D d)
                    (snd (Surface.resize_entry gpu entry this)).
Proof.
  intros Hd Hl Hbox. unfold Surface.resize_entry, Gpu.device.
  destruct (contentBoxSize entry) as [| box rest]; [congruence |].
  rewrite Hd. cbn.
  destruct (onResize this); cbn; (split; [reflexivity |]);
    split; apply assign_clamped; exact Hl.
Qed.

Lemma resize_observer_clamps (gpu : Gpu) (d : GPUDevice)
      (entries : list ResizeObserverEntry) :
  _device gpu = Some d -> 1 <= maxTextureDimension2D d < 2 ^ 32 ->
  Forall (fun e => contentBoxSize e <> []) entries ->
  forall this,
    canvas_clamped (maxTextureDimension2D d) this \/ entries <> [] ->
    fst (Surface.resize_observer gpu entries this) = Ok tt
    /\ canvas_clamped (maxTextureDimension2D d)
                      (snd (Surface.resize_observer gpu entries this)).
Proof.
  intros Hd Hl Hall. induction Hall as [| entry rest Hbox _ IH]; intros this Hs.
  - destruct Hs as [Hs | Hne]; [| congruence]. cbn. split; [reflexivity | exact Hs].
  - cbn [Surface.resize_observer].
    destruct (resize_entry_clamps gpu d entry this Hd Hl Hbox) as [Hok Hcl].
    destruct (Surface.resize_entry gpu entry this) as [r this'].
    cbn in Hok, Hcl. subst r.
    apply IH. left. exact Hcl.
Qed.

(** C9: after a resize event (one or more entries, each with its content
    box) on a device whose limit is at least 1, the stored canvas
    dimensions are between 1 and [maxTextureDimension2D] on each axis, and
    the observer does not throw.  A reported 5000 by 5000 under a limit of
    4096 is stored as 4096 by 4096, and a reported 0 by 0 as 1 by 1. *)
Theorem C9_resize_clamps_canvas
        (gpu : Gpu) (d : GPUDevice) (entries : list ResizeObserverEntry)
        (this : Surface) :
  _device gpu = Some d -> 1 <= maxTextureDimension2D d < 2 ^ 32 ->
  entries <> [] -> Forall (fun e => contentBoxSize e <> []) entries ->
  (fst (Surface.resize_observer gpu entries this) = Ok tt
   /\ 1 <= canvas_width (canvas (snd (Surface.resize_observer gpu entries this)))
      <= maxTextureDimension2D d
   /\ 1 <= canvas_height (canvas (snd (Surface.resize_observer gpu entries this)))
      <= maxTextureDimension2D d)
  /\ (let s := snd (Surface.resize_observer
                      (ready_gpu (plain_device 7%nat 4096))
                      [{| contentBoxSize :=
                            [{| inlineSize := 5000 # 1; blockSize := 5000 # 1 |}] |}]
                      this) in
      canvas_width (canvas s) = 4096 /\ canvas_height (canvas s) = 4096)
  /\ (let s := snd (Surface.resize_observer
                      (ready_gpu (plain_device 7%nat 4096))
                      [{| contentBoxSize :=
                            [{| inlineSize := 0; blockSize := 0 |}] |}]
                      this) in
      canvas_width (canvas s) = 1 /\ canvas_height (canvas s) = 1).
Proof.
  intros Hd Hl Hne Hall. split; [| split].
  - destruct (resize_observer_clamps gpu d entries Hd Hl Hall this)
      as (Hok & Hw & Hh); [right; exact Hne |].
    repeat split; assumption || apply Hw || apply Hh.
  - cbn. destruct (onResize this); split; reflexivity.
  - cbn. destruct (onResize this); split; reflexivity.
Qed.

Lemma C9_resize_clamps_canvas_witness :
  let s := snd (Surface.resize_observer
                  (ready_gpu (plain_device 7%nat 4096))
                  [{| contentBoxSize :=
                        [{| inlineSize := 5000 # 1; blockSize := 1 # 2 |}] |}]
                  (Surface.new sample_canvas)) in
  1 <= canvas_width (canvas s) <= 4096 /\ 1 <= canvas_height (canvas s) <= 4096.
Proof.
  destruct (C9_resize_clamps_canvas
              (ready_gpu (plain_device 7%nat 4096)) (plain_device 7%nat 4096)
              [{| contentBoxSize :=
                    [{| inlineSize := 5000 # 1; blockSize := 1 # 2 |}] |}]
              (Surface.new sample_canvas))
    as [(_ & Hw & Hh) _].
  - reflexivity.
  - cbn. lia.
  - discriminate.
  - repeat constructor. discriminate.
  - cbn zeta. split; [exact Hw | exact Hh].
Defined.

End Resize.

(** ** What a call leaves of the cache *)

Create HintDb frame.

Section Frames.

Lemma frame_ret {A} (a : A) : mip_frame (ret a).
Proof. intros w. split; reflexivity. Qed.

Lemma frame_lift {A} (o : outcome A) : mip_frame (lift o).
Proof. intros w. split; reflexivity. Qed.

Lemma frame_fresh : mip_frame fresh.
Proof. intros w. split; reflexivity. Qed.

Lemma frame_emit (c : Command) : mip_frame (emit c).
Proof. intros w. split; reflexivity. Qed.

Lemma frame_spawn (j : Job) : mip_frame (spawn j).
Proof. intros w. split; reflexivity. Qed.

Lemma frame_this : mip_frame MipGenerator.this.
Proof. intros w. split; reflexivity. Qed.

Lemma frame_read (r : ref) : mip_frame (Program.read r).
Proof. intros w. split; reflexivity. Qed.

Lemma frame_bind {A B} (c : M A) (k : A -> M B) :
  mip_frame c -> (forall a, mip_frame (k a)) -> mip_frame (bind c k).
Proof.
  intros Hc Hk w. unfold bind. destruct (Hc w) as [Hm Hh].
  destruct (c w) as [[a | e |] w1]; cbn in *; try (split; assumption).
  destruct (Hk a w1) as [Hm' Hh']. rewrite Hm', Hh'. split; assumption.
Qed.

Hint Resolve frame_ret frame_lift frame_fresh frame_emit frame_spawn
     frame_this frame_read : frame.

Ltac frames := repeat (apply frame_bind; [| intros ?]); auto with frame.

Lemma frame_createBindGroup d p i s v :
  mip_frame (Device.createBindGroup d p i s v).
Proof. unfold Device.createBindGroup. frames. Qed.

Lemma frame_createCommandEncoder d l :
  mip_frame (Device.createCommandEncoder d l).
Proof. unfold Device.createCommandEncoder. frames. Qed.

Lemma frame_createTexture d l f sz n u :
  mip_frame (Device.createTexture d l f sz n u).
Proof. unfold Device.createTexture. frames. Qed.

Lemma frame_copy d src flip t cw ch :
  mip_frame (Device.copyExternalImageToTexture d src flip t cw ch).
Proof. unfold Device.copyExternalImageToTexture. frames. Qed.

Lemma frame_finish e : mip_frame (Device.finish e).
Proof. unfold Device.finish. frames. Qed.

Lemma frame_submit d bs : mip_frame (Device.submit d bs).
Proof. unfold Device.submit. frames. Qed.

Hint Resolve frame_createBindGroup frame_createCommandEncoder
     frame_createTexture frame_copy frame_finish frame_submit : frame.

Lemma frame_getBindGroup gpu program texture l :
  mip_frame (MipGenerator.getBindGroup gpu program texture l).
Proof. unfold MipGenerator.getBindGroup. frames. Qed.

Lemma frame_renderMipmap encoder program desc bg :
  mip_frame (MipGenerator.renderMipmap encoder program desc bg).
Proof. unfold MipGenerator.renderMipmap. frames. Qed.

Hint Resolve frame_getBindGroup frame_renderMipmap : frame.

Lemma frame_generate_loop (fuel : nat) gpu program texture encoder count :
  forall width height l,
    mip_frame (MipGenerator.generate_loop fuel gpu program texture encoder
                                          count width height l).
Proof.
  induction fuel as [| fuel IH]; intros width height l;
    cbn [MipGenerator.generate_loop];
    destruct (MipGenerator.continues count width height l); frames.
Qed.

Hint Resolve frame_generate_loop : frame.

Lemma keeps_frame {A} (c : M A) f r : mip_frame c -> keeps_entry f r c.
Proof. intros Hc w Hin. destruct (Hc w) as [-> _]. exact Hin. Qed.

Lemma keeps_bind {A B} (c : M A) (k : A -> M B) f r :
  keeps_entry f r c -> (forall a, keeps_entry f r (k a)) ->
  keeps_entry f r (bind c k).
Proof.
  intros Hc Hk w Hin. unfold bind. specialize (Hc w Hin).
  destruct (c w) as [[a | e |] w1]; cbn in *; try exact Hc.
  apply (Hk a w1 Hc).
Qed.

Lemma keeps_getProgram gpu f0 f r :
  keeps_entry f r (MipGenerator.getProgram gpu f0).
Proof. intros w Hin. apply getProgram_keeps. exact Hin. Qed.

Lemma keeps_generate fuel gpu texture levels f r :
  keeps_entry f r (MipGenerator.generate fuel gpu texture levels).
Proof.
  unfold MipGenerator.generate.
  apply keeps_bind; [apply keeps_getProgram |].
  intros program. apply keeps_frame. frames.
Qed.

Lemma keeps_init gpu f r : keeps_entry f r (MipGenerator.init gpu).
Proof.
  intros w Hin.
  unfold MipGenerator.init, MipGenerator.this, MipGenerator.assign,
    Device.createSampler, Gpu.device, bind, lift, fresh, emit, ret.
  cbn. destruct (_device gpu); cbn; exact Hin.
Qed.

(** No awaited call removes or replaces a cache entry. *)
Lemma perform_keeps (c : Call) (w : World) f r :
  awaited c ->
  _programMap (mipGenerator w) !! f = Some r ->
  _programMap (mipGenerator (perform c w)) !! f = Some r.
Proof.
  intros Hc Hin. destruct c; cbn [perform]; try contradiction.
  - apply keeps_init. exact Hin.
  - apply keeps_getProgram. exact Hin.
  - apply keeps_generate. exact Hin.
Qed.

Lemma perform_all_keeps (cs : list Call) :
  forall w f r,
    Forall awaited cs ->
    _programMap (mipGenerator w) !! f = Some r ->
    _programMap (mipGenerator (perform_all cs w)) !! f = Some r.
Proof.
  induction cs as [| c cs IH]; intros w f r Hcs Hin; [exact Hin |].
  apply Forall_cons_1 in Hcs as [Hc Hcs].
  cbn [perform_all fold_left]. apply IH; [exact Hcs |].
  apply perform_keeps; assumption.
Qed.

(** The cache stays well formed under the awaited calls. *)
Lemma wf_frame {A} (c : M A) (w : World) :
  mip_frame c -> cache_wf w -> cache_wf (snd (c w)).
Proof.
  intros Hc Hwf. destruct (Hc w) as [Hm Hh].
  unfold cache_wf. rewrite Hm, Hh. exact Hwf.
Qed.

Lemma wf_generate fuel gpu texture levels (w : World) :
  cache_wf w ->
  cache_wf (snd (MipGenerator.generate fuel gpu texture levels w)).
Proof.
  intros Hwf. unfold MipGenerator.generate. unfold bind at 1.
  assert (Hwf1 := getProgram_wf gpu (format texture) w Hwf).
  destruct (MipGenerator.getProgram gpu (format texture) w)
    as [[program | e |] w1]; cbn [snd] in *; try exact Hwf1.
  apply wf_frame; [frames | exact Hwf1].
Qed.

Lemma wf_init gpu (w : World) :
  cache_wf w -> cache_wf (snd (MipGenerator.init gpu w)).
Proof.
  intros Hwf.
  unfold MipGenerator.init, MipGenerator.this, MipGenerator.assign,
    Device.createSampler, Gpu.device, bind, lift, fresh, emit, ret.
  cbn. destruct (_device gpu); cbn; exact Hwf.
Qed.

(** *** What no call takes away *)

Lemma grows_refl (w : World) : grows w w.
Proof. split; intros; assumption. Qed.

Lemma grows_trans (w1 w2 w3 : World) : grows w1 w2 -> grows w2 w3 -> grows w1 w3.
Proof.
  intros [Hh1 Hm1] [Hh2 Hm2]. split.
  - intros r p H. apply Hh2, Hh1, H.
  - intros f H. apply Hm2, Hm1, H.
Qed.

Lemma growing_frame {A} (c : M A) : mip_frame c -> growing c.
Proof.
  intros Hc w. destruct (Hc w) as [Hm Hh]. unfold grows. rewrite Hm, Hh.
  apply grows_refl.
Qed.

Lemma growing_bind {A B} (c : M A) (k : A -> M B) :
  growing c -> (forall a, growing (k a)) -> growing (bind c k).
Proof.
  intros Hc Hk w. unfold bind. specialize (Hc w).
  destruct (c w) as [[a | e |] w1]; cbn [snd] in *; try exact Hc.
  apply (grows_trans _ w1); [exact Hc | apply Hk].
Qed.

Lemma growing_settle {A} (c : M A) : growing c -> growing (settle c).
Proof.
  intros Hc w. unfold settle. specialize (Hc w).
  destruct (c w) as [o w1]. exact Hc.
Qed.

(** A [new Program()] and its [init]: the objects that were there are not
    touched. *)
Lemma init_fresh_grows (gpu : Gpu) (desc : ProgramDescriptor) (w : World) :
  grows w (snd (Program.init (length (heap w)) gpu desc
                             {| next_handle := next_handle w; commands := commands w;
                                heap := heap w ++ [Program.new];
                                mipGenerator := mipGenerator w;
                                pending := pending w |})).
Proof.
  assert (Hgrow : forall n cs extra q,
             grows w {| next_handle := n; commands := cs;
                        heap := heap w ++ extra; mipGenerator := mipGenerator w;
                        pending := q |}).
  { intros n cs extra q. split; cbn; [| intros; assumption].
    intros r p H. apply lookup_app_l_Some. exact H. }
  unfold Program.init, Program.update, Device.createShaderModule,
    Device.createRenderPipeline, Gpu.device, bind, lift, fresh, emit, ret.
  cbn. destruct (_device gpu) as [d |]; cbn; [| apply Hgrow].
  destruct (createShaderModule_throws d _); cbn; [apply Hgrow |].
  rewrite alter_snoc.
  destruct (Device.refused d _); cbn; [apply Hgrow |].
  rewrite alter_snoc. apply Hgrow.
Qed.

Lemma growing_new_program {B} (gpu : Gpu) (desc : ProgramDescriptor)
      (k : ref -> outcome unit -> M B) :
  (forall r o, growing (k r o)) ->
  growing (let! program := Program.alloc in
           let! initialised := settle (Program.init program gpu desc) in
           k program initialised).
Proof.
  intros Hk w.
  unfold Program.alloc, settle. unfold bind at 1 2. cbn [heap].
  assert (Hinit := init_fresh_grows gpu desc w).
  destruct (Program.init _ gpu desc _) as [o w2]. cbn [snd] in Hinit.
  apply (grows_trans _ w2); [exact Hinit | apply Hk].
Qed.

Lemma growing_getProgram_resume (f : GPUTextureFormat) (program : ref) :
  growing (MipGenerator.getProgram_resume f program).
Proof.
  intros w. split; cbn; [intros; assumption |].
  intros f0 H. destruct (decide (f = f0)) as [-> | Hne].
  - rewrite lookup_insert_eq. eexists. reflexivity.
  - rewrite lookup_insert_ne by exact Hne. exact H.
Qed.

Lemma growing_getProgram (gpu : Gpu) (f : GPUTextureFormat) :
  growing (MipGenerator.getProgram gpu f).
Proof.
  intros w. rewrite getProgram_parts.
  unfold MipGenerator.this. unfold bind at 1. cbn [mipGenerator].
  destruct (_programMap (mipGenerator w) !! f); [apply grows_refl |].
  unfold Program.alloc. unfold bind at 1 2. cbn [heap].
  assert (Hinit := init_fresh_grows gpu (MipGenerator.programDescriptor f) w).
  destruct (Program.init _ gpu _ _) as [[[] | e |] w2]; cbn [snd] in *;
    try exact Hinit.
  apply (grows_trans _ w2); [exact Hinit | apply growing_getProgram_resume].
Qed.

Lemma growing_generate_resume fuel gpu texture levels program :
  growing (MipGenerator.generate_resume fuel gpu texture levels program).
Proof. apply growing_frame. unfold MipGenerator.generate_resume. frames. Qed.

Lemma growing_generate fuel gpu texture levels :
  growing (MipGenerator.generate fuel gpu texture levels).
Proof.
  rewrite generate_parts. apply growing_bind; [apply growing_getProgram |].
  intros program. apply growing_generate_resume.
Qed.

Lemma growing_generate_start gpu texture levels :
  growing (MipGenerator.generate_start gpu texture levels).
Proof.
  intros w. unfold MipGenerator.generate_start, MipGenerator.this.
  unfold bind at 1. cbn [mipGenerator].
  destruct (_programMap (mipGenerator w) !! format texture).
  - apply growing_frame. apply frame_spawn.
  - apply (growing_new_program
             gpu (MipGenerator.programDescriptor (format texture))
             (fun program initialised =>
                spawn (ResumeGetProgram gpu texture levels program initialised))).
    intros r o. apply growing_frame. apply frame_spawn.
Qed.

Lemma growing_run_job fuel (j : Job) : growing (MipGenerator.run_job fuel j).
Proof.
  destruct j as [gpu texture levels program initialised
                | gpu texture levels program]; cbn [MipGenerator.run_job].
  - apply growing_bind.
    + destruct initialised as [[] | e |];
        [apply growing_settle, growing_getProgram_resume
        | apply growing_frame, frame_ret | apply growing_frame, frame_ret].
    + intros p. apply growing_frame. frames.
  - destruct program as [program | e |];
      [| apply growing_frame, frame_ret | apply growing_frame, frame_ret].
    apply growing_bind; [apply growing_settle, growing_generate_resume |].
    intros r. apply growing_frame, frame_ret.
Qed.

Lemma frame_next_job : mip_frame next_job.
Proof. intros w. unfold next_job. destruct (pending w); split; reflexivity. Qed.

Lemma growing_tick fuel : growing (MipGenerator.tick fuel).
Proof.
  unfold MipGenerator.tick.
  apply growing_bind; [apply growing_frame, frame_next_job |].
  intros [j |]; [apply growing_run_job | apply growing_frame, frame_ret].
Qed.

Lemma growing_createTexture (options : CreateTextureOptions) :
  growing (TextureLoader.createTexture options).
Proof.
  unfold TextureLoader.createTexture. cbn zeta.
  repeat (apply growing_bind; [try solve [apply growing_frame; frames] | intros ?]).
  - destruct (JS.truthy_int _);
      [apply growing_generate_start | apply growing_frame, frame_ret].
  - apply growing_frame, frame_ret.
Qed.

Lemma growing_init gpu : growing (MipGenerator.init gpu).
Proof.
  intros w.
  unfold MipGenerator.init, MipGenerator.this, MipGenerator.assign,
    Device.createSampler, Gpu.device, bind, lift, fresh, emit, ret.
  cbn. destruct (_device gpu); cbn; split; intros; assumption.
Qed.

(** Whatever is called, no program object changes and no cached format
    leaves the cache. *)
Lemma perform_grows (c : Call) (w : World) : grows w (perform c w).
Proof.
  destruct c; cbn [perform].
  - apply growing_init.
  - apply growing_getProgram.
  - apply growing_generate.
  - apply growing_createTexture.
  - apply growing_tick.
Qed.

Lemma perform_all_grows (cs : list Call) : forall w, grows w (perform_all cs w).
Proof.
  induction cs as [| c cs IH]; intros w; [apply grows_refl |].
  cbn [perform_all fold_left].
  apply (grows_trans _ (perform c w)); [apply perform_grows | apply IH].
Qed.

(** *** What only [init] changes: the sampler *)

Lemma ks_frame {A} (c : M A) : mip_frame c -> keeps_sampler c.
Proof. intros Hc w. destruct (Hc w) as [-> _]. reflexivity. Qed.

Lemma ks_bind {A B} (c : M A) (k : A -> M B) :
  keeps_sampler c -> (forall a, keeps_sampler (k a)) -> keeps_sampler (bind c k).
Proof.
  intros Hc Hk w. unfold bind. specialize (Hc w).
  destruct (c w) as [[a | e |] w1]; cbn [snd] in *; try exact Hc.
  rewrite Hk. exact Hc.
Qed.

Lemma ks_settle {A} (c : M A) : keeps_sampler c -> keeps_sampler (settle c).
Proof.
  intros Hc w. unfold settle. specialize (Hc w).
  destruct (c w) as [o w1]. exact Hc.
Qed.

Lemma ks_alloc : keeps_sampler Program.alloc.
Proof. intros w. reflexivity. Qed.

Lemma ks_init_program this gpu desc : keeps_sampler (Program.init this gpu desc).
Proof.
  intros w.
  unfold Program.init, Program.update, Device.createShaderModule,
    Device.createRenderPipeline, Gpu.device, bind, lift, fresh, emit, ret.
  cbn. destruct (_device gpu) as [d |]; cbn; [| reflexivity].
  destruct (createShaderModule_throws d _); cbn; [reflexivity |].
  destruct (Device.refused d _); cbn; reflexivity.
Qed.

Lemma ks_getProgram_resume f program :
  keeps_sampler (MipGenerator.getProgram_resume f program).
Proof. intros w. reflexivity. Qed.

Lemma ks_getProgram gpu f : keeps_sampler (MipGenerator.getProgram gpu f).
Proof.
  intros w. rewrite getProgram_parts.
  unfold MipGenerator.this. unfold bind at 1. cbn [mipGenerator].
  destruct (_programMap (mipGenerator w) !! f); [reflexivity |].
  apply (ks_bind Program.alloc); [apply ks_alloc |].
  intros program. apply ks_bind; [apply ks_init_program |].
  intros _. apply ks_getProgram_resume.
Qed.

Lemma ks_generate_resume fuel gpu texture levels program :
  keeps_sampler (MipGenerator.generate_resume fuel gpu texture levels program).
Proof. apply ks_frame. unfold MipGenerator.generate_resume. frames. Qed.

Lemma ks_generate fuel gpu texture levels :
  keeps_sampler (MipGenerator.generate fuel gpu texture levels).
Proof.
  rewrite generate_parts. apply ks_bind; [apply ks_getProgram |].
  intros program. apply ks_generate_resume.
Qed.

Lemma ks_generate_start gpu texture levels :
  keeps_sampler (MipGenerator.generate_start gpu texture levels).
Proof.
  intros w. unfold MipGenerator.generate_start, MipGenerator.this.
  unfold bind at 1. cbn [mipGenerator].
  destruct (_programMap (mipGenerator w) !! format texture); [reflexivity |].
  apply (ks_bind Program.alloc); [apply ks_alloc |].
  intros program. apply ks_bind; [apply ks_settle, ks_init_program |].
  intros o. apply ks_frame, frame_spawn.
Qed.

Lemma ks_run_job fuel (j : Job) : keeps_sampler (MipGenerator.run_job fuel j).
Proof.
  destruct j as [gpu texture levels program initialised
                | gpu texture levels program]; cbn [MipGenerator.run_job].
  - apply ks_bind.
    + destruct initialised as [[] | e |];
        [apply ks_settle, ks_getProgram_resume
        | apply ks_frame, frame_ret | apply ks_frame, frame_ret].
    + intros p. apply ks_frame. frames.
  - destruct program as [program | e |];
      [| apply ks_frame, frame_ret | apply ks_frame, frame_ret].
    apply ks_bind; [apply ks_settle, ks_generate_resume |].
    intros r. apply ks_frame, frame_ret.
Qed.

Lemma ks_tick fuel : keeps_sampler (MipGenerator.tick fuel).
Proof.
  unfold MipGenerator.tick.
  apply ks_bind; [apply ks_frame, frame_next_job |].
  intros [j |]; [apply ks_run_job | apply ks_frame, frame_ret].
Qed.

Lemma ks_createTexture (options : CreateTextureOptions) :
  keeps_sampler (TextureLoader.createTexture options).
Proof.
  unfold TextureLoader.createTexture. cbn zeta.
  repeat (apply ks_bind; [try solve [apply ks_frame; frames] | intros ?]).
  - destruct (JS.truthy_int _);
      [apply ks_generate_start | apply ks_frame, frame_ret].
  - apply ks_frame, frame_ret.
Qed.

(** No call but [init] changes the sampler. *)
Lemma perform_keeps_sampler (c : Call) (w : World) :
  (forall gpu, c <> CallInit gpu) ->
  _sampler (mipGenerator (perform c w)) = _sampler (mipGenerator w).
Proof.
  intros Hc. destruct c; cbn [perform].
  - exfalso. exact (Hc gpu eq_refl).
  - apply ks_getProgram.
  - apply ks_generate.
  - apply ks_createTexture.
  - apply ks_tick.
Qed.

Lemma perform_all_keeps_sampler (cs : list Call) :
  forall w,
    Forall (fun c => forall gpu, c <> CallInit gpu) cs ->
    _sampler (mipGenerator (perform_all cs w)) = _sampler (mipGenerator w).
Proof.
  induction cs as [| c cs IH]; intros w Hcs; [reflexivity |].
  apply Forall_cons_1 in Hcs as [Hc Hcs].
  cbn [perform_all fold_left]. rewrite (IH _ Hcs).
  apply perform_keeps_sampler. exact Hc.
Qed.

End Frames.

(** ** Accessors and initialisation *)

Section Accessors.

Lemma Gpu_init_ok (navigator : Navigator) (this this' : Gpu) :
  Gpu.init navigator this = (Ok tt, this') ->
  exists a d, Gpu.adapter this' = Ok a /\ Gpu.device this' = Ok d.
Proof.
  rewrite init_outcome.
  destruct (Gpu.request_adapter navigator) as [a |]; [| discriminate].
  destruct (requestDevice a) as [d |]; [| discriminate].
  intros [= <-]. exists a, d. split; reflexivity.
Qed.

Lemma Surface_init_ok (navigator : Navigator) (gpu : Gpu) (this this' : Surface) :
  Surface.init navigator gpu this = (Ok tt, this') ->
  exists c g,
    navigator_gpu navigator = Some g
    /\ _context this' = Some c
    /\ _format this' = Some (getPreferredCanvasFormat g).
Proof.
  unfold Surface.init, Gpu.device. cbn.
  destruct (getContext_webgpu (canvas this)) as [c |]; [| discriminate].
  destruct (navigator_gpu navigator) as [g |]; [| discriminate].
  cbn. destruct (_device gpu) as [d |]; [| discriminate].
  intros [= <-]. exists c, g. repeat split.
Qed.

Lemma Program_init_ok (this : ref) (gpu : Gpu) (desc : ProgramDescriptor)
      (w w' : World) :
  is_Some (heap w !! this) ->
  Program.init this gpu desc w = (Ok tt, w') ->
  exists p m pl, heap w' !! this = Some p
                 /\ _shaderModule p = Some m /\ _pipeline p = Some pl.
Proof.
  intros [p0 Hp0].
  unfold Program.init, Program.update, Device.createShaderModule,
    Device.createRenderPipeline, Gpu.device, bind, lift, fresh, emit, ret.
  cbn. destruct (_device gpu) as [d |]; cbn; [| discriminate].
  destruct (createShaderModule_throws d _); cbn; [discriminate |].
  destruct (Device.refused d _); cbn; [discriminate |].
  intros [= <-]. cbn.
  do 3 eexists. split; [| split].
  - unfold ref in *. rewrite !list_lookup_alter_eq, Hp0. cbn. reflexivity.
  - reflexivity.
  - reflexivity.
Qed.

Lemma MipGenerator_init_ok (gpu : Gpu) (w w' : World) :
  MipGenerator.init gpu w = (Ok tt, w') ->
  exists s, _sampler (mipGenerator w') = Some s.
Proof.
  unfold MipGenerator.init, MipGenerator.this, MipGenerator.assign,
    Device.createSampler, Gpu.device, bind, lift, fresh, emit, ret.
  cbn. destruct (_device gpu) as [d |]; cbn; [| discriminate].
  intros [= <-]. cbn. eexists. reflexivity.
Qed.

(** The resize observer touches the canvas and the record of callbacks
    only. *)
Lemma resize_entry_keeps (gpu : Gpu) (entry : ResizeObserverEntry) (s : Surface) :
  _context (snd (Surface.resize_entry gpu entry s)) = _context s
  /\ _format (snd (Surface.resize_entry gpu entry s)) = _format s.
Proof.
  unfold Surface.resize_entry, Gpu.device.
  destruct (contentBoxSize entry) as [| box rest]; [split; reflexivity |].
  destruct (_device gpu) as [d |]; [| split; reflexivity].
  cbn. destruct (onResize s); split; reflexivity.
Qed.

Lemma resize_observer_keeps (gpu : Gpu) (entries : list ResizeObserverEntry) :
  forall s,
    _context (snd (Surface.resize_observer gpu entries s)) = _context s
    /\ _format (snd (Surface.resize_observer gpu entries s)) = _format s.
Proof.
  induction entries as [| entry rest IH]; intros s; [split; reflexivity |].
  cbn [Surface.resize_observer].
  destruct (resize_entry_keeps gpu entry s) as [Hc Hf].
  destruct (Surface.resize_entry gpu entry s) as [[[] | e |] s1]; cbn [snd] in *;
    try (split; assumption).
  destruct (IH s1) as [Hc' Hf']. rewrite Hc', Hf'. split; assumption.
Qed.

Lemma resize_events_keep (events : list (Gpu * list ResizeObserverEntry)) :
  forall s,
    _context (resize_events events s) = _context s
    /\ _format (resize_events events s) = _format s.
Proof.
  induction events as [| [gpu entries] rest IH]; intros s; [split; reflexivity |].
  unfold resize_events in *. cbn [fold_left fst snd].
  destruct (IH (snd (Surface.resize_observer gpu entries s))) as [Hc Hf].
  destruct (resize_observer_keeps gpu entries s) as [Hc' Hf'].
  rewrite Hc, Hf. split; assumption.
Qed.

(** C7, as the code has it.  On a component whose [init] was never
    called, each of the seven accessors throws the [Error] that names its
    component as not initialised.  After an [init] that returned normally
    each accessor returns the handle that [init] stored, and goes on
    returning it until [init] is called again: a [Gpu] changes by [init]
    only; a [Surface] is otherwise changed by its resize observer, which
    leaves context and format alone; a [Program] and the sampler of a
    [MipGenerator] are left alone by every call on the loader, for the
    sampler every call but [init].  ([Surface.format] returns when the
    preferred format is a non-empty name.) *)
Theorem C7_accessors_before_and_after_init :
  (* components whose init was never called *)
  (forall l, Gpu.adapter (Gpu.new l)
             = Throw (JS.Error "Rendering device is not initialized")
             /\ Gpu.device (Gpu.new l)
                = Throw (JS.Error "Rendering device is not initialized"))
  /\ (forall c, Surface.context (Surface.new c)
                = Throw (JS.Error "Surface is not initialized")
                /\ Surface.format (Surface.new c)
                   = Throw (JS.Error "Surface is not initialized"))
  /\ (Program.shaderModule Program.new
      = Throw (JS.Error "Program is not initialized")
      /\ Program.pipeline Program.new
         = Throw (JS.Error "Program is not initialized"))
  /\ MipGenerator.sampler MipGenerator.new
     = Throw (JS.Error "MipGenerator is not initialized")
  (* after an init that returned normally, until the next init *)
  /\ (forall navigator this this',
        Gpu.init navigator this = (Ok tt, this') ->
        exists a d, Gpu.request_adapter navigator = Some a
                    /\ requestDevice a = Some d
                    /\ Gpu.adapter this' = Ok a /\ Gpu.device this' = Ok d)
  /\ (forall navigator gpu this this',
        Surface.init navigator gpu this = (Ok tt, this') ->
        exists c g,
          navigator_gpu navigator = Some g
          /\ getContext_webgpu (canvas this) = Some c
          /\ forall events,
              Surface.context (resize_events events this') = Ok c
              /\ (JS.truthy_string (getPreferredCanvasFormat g) = true ->
                  Surface.format (resize_events events this')
                  = Ok (getPreferredCanvasFormat g)))
  /\ (forall this gpu desc w w',
        is_Some (heap w !! this) ->
        Program.init this gpu desc w = (Ok tt, w') ->
        exists p m pl,
          Program.shaderModule p = Ok m /\ Program.pipeline p = Ok pl
          /\ forall calls, heap (perform_all calls w') !! this = Some p)
  /\ (forall gpu w w',
        MipGenerator.init gpu w = (Ok tt, w') ->
        exists s,
          forall calls,
            Forall (fun c => forall gpu', c <> CallInit gpu') calls ->
            MipGenerator.sampler (mipGenerator (perform_all calls w')) = Ok s).
Proof.
  repeat match goal with |- _ /\ _ => split end;
    try (intros; split; reflexivity); try reflexivity.
  - intros navigator this this'. rewrite init_outcome.
    destruct (Gpu.request_adapter navigator) as [a |]; [| discriminate].
    destruct (requestDevice a) as [d |] eqn:Hd; [| discriminate].
    intros [= <-]. exists a, d. repeat split. exact Hd.
  - intros navigator gpu this this' Hinit.
    destruct (Surface_init_ok _ _ _ _ Hinit) as (c & g & Hg & Hc & Hf).
    exists c, g. split; [exact Hg |]. split.
    + revert Hinit Hc. unfold Surface.init, Gpu.device. cbn.
      destruct (getContext_webgpu (canvas this)) as [c0 |]; [| discriminate].
      destruct (navigator_gpu navigator) as [g0 |]; [| discriminate].
      cbn. destruct (_device gpu) as [d |]; [| discriminate].
      intros [= <-]. cbn. intros [= ->]. reflexivity.
    + intros events.
      destruct (resize_events_keep events this') as [Hc' Hf'].
      unfold Surface.context, Surface.format. rewrite Hc', Hf', Hc, Hf.
      split; [reflexivity |]. intros ->. reflexivity.
  - intros this gpu desc w w' Hcell Hinit.
    destruct (Program_init_ok _ _ _ _ _ Hcell Hinit) as (p & m & pl & Hp & Hm & Hpl).
    exists p, m, pl. unfold Program.shaderModule, Program.pipeline.
    rewrite Hm, Hpl. split; [reflexivity |]. split; [reflexivity |].
    intros calls. apply (perform_all_grows calls w'). exact Hp.
  - intros gpu w w' Hinit.
    destruct (MipGenerator_init_ok _ _ _ Hinit) as (s & Hs).
    exists s. intros calls Hcalls. unfold MipGenerator.sampler.
    rewrite (perform_all_keeps_sampler calls w' Hcalls), Hs. reflexivity.
Qed.

Lemma C7_accessors_before_and_after_init_witness :
  (exists a d,
      Gpu.adapter (ready_gpu (plain_device 7%nat 8192)) = Ok a
      /\ Gpu.device (ready_gpu (plain_device 7%nat 8192)) = Ok d)
  /\ (exists s,
         MipGenerator.sampler
           (mipGenerator
              (perform_all
                 [CallCreateTexture (sample_options sample_gpu 4 4 "rgba8unorm");
                  CallTick 32; CallTick 32;
                  CallGenerate 32 sample_gpu (texture_of 9%nat 2 2 "rgba8unorm") None]
                 ready_world))
         = Ok s).
Proof.
  destruct C7_accessors_before_and_after_init
    as (_ & _ & _ & _ & Hgpu & _ & _ & Hmip).
  split.
  - destruct (Hgpu (browser (Some (plain_device 7%nat 8192)))
                   (Gpu.new Gpu.default_label) _ eq_refl)
      as (a & d & _ & _ & Ha & Hd).
    exists a, d. split; assumption.
  - destruct (Hmip sample_gpu initial_world _ eq_refl) as (s & Hs).
    exists s. apply Hs. repeat constructor; discriminate.
Defined.

(** C7, the claim as stated fails on both sides.  An [init] that threw
    leaves the fields it had already assigned, and their accessors return
    although no [init] has succeeded: after the only [init] of a [Gpu]
    failed for want of a device, [adapter] returns the adapter; after the
    only [init] of a [Surface] failed because the [Gpu] had no device,
    [context] and [format] return and [ready] is true.  And an accessor
    can throw after an [init] has resolved: a second [init] that finds no
    adapter clears the adapter of a [Gpu] that was ready. *)
Lemma C7_accessor_returns_after_failed_init :
  (fst (Gpu.init (browser None) (Gpu.new "g")) = Throw no_webgpu
   /\ Gpu.adapter (snd (Gpu.init (browser None) (Gpu.new "g")))
      = Ok {| adapter_id := 1%nat; requestDevice := None |})
  /\ (fst (Surface.init (browser None) (Gpu.new "g") (Surface.new sample_canvas))
      = Throw (JS.Error "Rendering device is not initialized")
      /\ Surface.context
           (snd (Surface.init (browser None) (Gpu.new "g")
                              (Surface.new sample_canvas)))
         = Ok 3%nat
      /\ Surface.format
           (snd (Surface.init (browser None) (Gpu.new "g")
                              (Surface.new sample_canvas)))
         = Ok "bgra8unorm"
      /\ Surface.ready
           (snd (Surface.init (browser None) (Gpu.new "g")
                              (Surface.new sample_canvas)))
         = true)
  /\ (fst (Gpu.init (browser (Some (plain_device 7%nat 8192))) (Gpu.new "g"))
      = Ok tt
      /\ fst (Gpu.init browser_without_adapter
                       (ready_gpu (plain_device 7%nat 8192)))
         = Throw no_webgpu
      /\ Gpu.adapter (snd (Gpu.init browser_without_adapter
                                    (ready_gpu (plain_device 7%nat 8192))))
         = Throw (JS.Error "Rendering device is not initialized")).
Proof. repeat split. Qed.

End Accessors.

(** ** Pipeline cache: failure and reuse *)

Section CacheClaims.

(** An entry that appears was built: a cache entry is only ever stored
    after the device built the program of its format. *)
Lemma cache_entry_was_built (gpu : Gpu) (f f0 : GPUTextureFormat) (r : ref)
      (w : World) :
  _programMap (mipGenerator w) !! f0 = None ->
  _programMap (mipGenerator (snd (MipGenerator.getProgram gpu f w))) !! f0
  = Some r ->
  f0 = f /\ exists d, _device gpu = Some d /\ buildable d f.
Proof.
  intros Hnone.
  unfold MipGenerator.getProgram, Program.init, Program.alloc,
    Program.update, Device.createShaderModule, Device.createRenderPipeline,
    MipGenerator.this, MipGenerator.assign, Gpu.device,
    bind, lift, fresh, emit, ret.
  cbn.
  destruct (_programMap (mipGenerator w) !! f) as [r' |] eqn:Hf;
    [cbn; congruence |].
  cbn. destruct (_device gpu) as [d |]; cbn; [| congruence].
  destruct (createShaderModule_throws d _) eqn:Hs; cbn; [congruence |].
  destruct (createRenderPipeline_throws d f) eqn:Hp; cbn; [congruence |].
  intros Hin. apply lookup_insert_Some in Hin as [[<- <-] | [_ Hin]];
    [| congruence].
  split; [reflexivity |]. exists d. repeat split; assumption.
Qed.

(** C5, as the code has it: when the device throws [e] while it builds
    the program of the texture's format (the shader module, or the
    pipeline for that target format), then on a format that is not cached
    [getProgram] and [generate] end with that same [e]; [generate] has
    then begun no render pass and submitted nothing, and the mip
    generator, with its cache, is as it was: the format has no entry.  On a
    format that is cached nothing is built: [getProgram] returns the cached
    program and [generate] goes on with it. *)
Theorem C5_unbuildable_format_fails_before_any_pass
        (fuel : nat) (gpu : Gpu) (d : GPUDevice) (texture : GPUTexture)
        (levels : option Z) (e : JS.exn) (w : World) :
  _device gpu = Some d ->
  build_throws d (format texture) e ->
  (_programMap (mipGenerator w) !! format texture = None ->
   (fst (MipGenerator.getProgram gpu (format texture) w) = Throw e
    /\ mipGenerator (snd (MipGenerator.getProgram gpu (format texture) w))
       = mipGenerator w)
   /\ exists w' cs,
       MipGenerator.generate fuel gpu texture levels w = (Throw e, w')
       /\ mipGenerator w' = mipGenerator w
       /\ _programMap (mipGenerator w') !! format texture = None
       /\ commands w' = commands w ++ cs
       /\ rendered_levels cs = []
       /\ sampled_levels cs = []
       /\ submissions cs = O)
  /\ (forall r,
         _programMap (mipGenerator w) !! format texture = Some r ->
         MipGenerator.getProgram gpu (format texture) w = (Ok r, w)
         /\ MipGenerator.generate fuel gpu texture levels w
            = MipGenerator.generate_resume fuel gpu texture levels r w).
Proof.
  intros Hd Hthrow. split.
  - intros Hmiss.
    destruct (getProgram_throws gpu d (format texture) e w Hmiss Hd Hthrow)
      as (w' & Hget & Hmip & _ & cs & Hcs & Hr & Hsm & Hsub).
    split.
    + rewrite Hget. split; [reflexivity | exact Hmip].
    + exists w', cs.
      unfold MipGenerator.generate. unfold bind at 1. rewrite Hget.
      rewrite Hmip. repeat split; assumption.
  - intros r Hhit.
    assert (Hget := getProgram_cached gpu (format texture) r w Hhit).
    split; [exact Hget |].
    rewrite generate_parts. unfold bind at 1. rewrite Hget. reflexivity.
Qed.

Lemma C5_unbuildable_format_fails_before_any_pass_witness :
  exists w' cs,
    MipGenerator.generate 32 picky_gpu (texture_of 100%nat 64 64 "r32float")
                          None ready_world = (Throw refusal, w')
    /\ mipGenerator w' = mipGenerator ready_world
    /\ _programMap (mipGenerator w') !! "r32float" = None
    /\ commands w' = commands ready_world ++ cs
    /\ rendered_levels cs = []
    /\ sampled_levels cs = []
    /\ submissions cs = O.
Proof.
  destruct (C5_unbuildable_format_fails_before_any_pass
              32 picky_gpu (picky_device 7%nat 8192 "r32float" refusal)
              (texture_of 100%nat 64 64 "r32float") None refusal ready_world)
    as [H _].
  - reflexivity.
  - right. split; reflexivity.
  - destruct H as [_ H]; [reflexivity |]. exact H.
Defined.

(** C5, the claim as stated fails: the code has no error of its own for a
    format and makes no test of the format; a failure is whatever the
    device throws while it builds, and nothing is built for a format that
    is cached.  The cache is keyed by the format alone: once a device that
    builds the program of [r32float] has filled the entry, [generate] for
    a device context that cannot build a pipeline for [r32float] does not
    fail; it makes its six passes with the cached program. *)
Lemma C5_cached_format_is_served_to_a_refusing_device :
  let texture := texture_of 100%nat 64 64 "r32float" in
  let w1 := snd (MipGenerator.generate 32 sample_gpu texture None ready_world) in
  let w2 := snd (MipGenerator.generate 32 picky_gpu texture None w1) in
  build_throws (picky_device 7%nat 8192 "r32float" refusal) "r32float" refusal
  /\ fst (MipGenerator.generate 32 picky_gpu texture None ready_world)
     = Throw refusal
  /\ fst (MipGenerator.generate 32 sample_gpu texture None ready_world) = Ok 6
  /\ fst (MipGenerator.generate 32 picky_gpu texture None w1) = Ok 6
  /\ rendered_levels (commands w1) = [1; 2; 3; 4; 5; 6]
  /\ rendered_levels (commands w2) = [1; 2; 3; 4; 5; 6; 1; 2; 3; 4; 5; 6]
  /\ submissions (commands w2) = 2%nat
  /\ compilations (commands w2) = 2%nat.
Proof.
  cbn zeta. split; [right; split; reflexivity |].
  repeat split; vm_compute; reflexivity.
Qed.

(** C6, as the code has it: once [getProgram] has returned a program for a
    format, a further call for that format, with whatever device context,
    returns the same reference and leaves the world untouched, so nothing
    is compiled; a call for another format that returns a program returns
    a different reference; when no job waits, no sequence of awaited calls
    removes or replaces the entry; and no sequence of calls whatever,
    calls of [createTexture] and the turns of the job queue they leave
    included, removes the format from the cache. *)
Theorem C6_getProgram_returns_the_cached_instance
        (gpu : Gpu) (f : GPUTextureFormat) (p : ref) (w w1 : World) :
  cache_wf w ->
  MipGenerator.getProgram gpu f w = (Ok p, w1) ->
  (forall gpu', MipGenerator.getProgram gpu' f w1 = (Ok p, w1))
  /\ (forall gpu' f' p' w2,
        f' <> f ->
        MipGenerator.getProgram gpu' f' w1 = (Ok p', w2) -> p' <> p)
  /\ (pending w = [] ->
      forall calls gpu',
        Forall awaited calls ->
        _programMap (mipGenerator (perform_all calls w1)) !! f = Some p
        /\ fst (MipGenerator.getProgram gpu' f (perform_all calls w1)) = Ok p
        /\ compilations
             (commands (snd (MipGenerator.getProgram
                               gpu' f (perform_all calls w1))))
           = compilations (commands (perform_all calls w1)))
  /\ (forall calls gpu',
        exists q,
          _programMap (mipGenerator (perform_all calls w1)) !! f = Some q
          /\ MipGenerator.getProgram gpu' f (perform_all calls w1)
             = (Ok q, perform_all calls w1)).
Proof.
  intros Hwf Hget.
  assert (Hentry := getProgram_ok_entry gpu f p w w1 Hget).
  assert (Hwf1 : cache_wf w1).
  { assert (H := getProgram_wf gpu f w Hwf). rewrite Hget in H. exact H. }
  split; [| split; [| split]].
  - intros gpu'. apply getProgram_cached. exact Hentry.
  - intros gpu' f' p' w2 Hne Hget'.
    destruct Hwf1 as [Hready Hinj].
    destruct (_programMap (mipGenerator w1) !! f') as [q |] eqn:Hf'.
    + rewrite (getProgram_cached gpu' f' q w1 Hf') in Hget'.
      injection Hget' as <- <-.
      intros ->. apply Hne. exact (Hinj _ _ _ Hf' Hentry).
    + destruct (getProgram_ok_miss gpu' f' p' w1 w2 Hf' Hget') as [-> _].
      destruct (Hready f p Hentry) as (prog & Hp & _).
      apply lookup_lt_Some in Hp. lia.
  - intros _ calls gpu' Hcalls.
    assert (Hkept := perform_all_keeps calls w1 f p Hcalls Hentry).
    rewrite (getProgram_cached gpu' f p _ Hkept).
    repeat split. exact Hkept.
  - intros calls gpu'.
    destruct (perform_all_grows calls w1) as [_ Hmap].
    destruct (Hmap f) as [q Hq]; [eexists; exact Hentry |].
    exists q. split; [exact Hq |]. apply getProgram_cached. exact Hq.
Qed.

Lemma C6_getProgram_returns_the_cached_instance_witness :
  let w1 := snd (MipGenerator.getProgram sample_gpu "rgba8unorm" ready_world) in
  MipGenerator.getProgram sample_gpu "rgba8unorm" w1 = (Ok 0%nat, w1)
  /\ fst (MipGenerator.getProgram sample_gpu "bgra8unorm" w1) <> Ok 0%nat.
Proof.
  destruct (C6_getProgram_returns_the_cached_instance
              sample_gpu "rgba8unorm" 0%nat ready_world
              (snd (MipGenerator.getProgram sample_gpu "rgba8unorm" ready_world)))
    as (Hsame & Hother & _).
  - apply cache_wf_empty. reflexivity.
  - reflexivity.
  - cbn zeta. split; [apply Hsame |].
    intros Heq.
    destruct (MipGenerator.getProgram
                sample_gpu "bgra8unorm"
                (snd (MipGenerator.getProgram sample_gpu "rgba8unorm" ready_world)))
      as [r w2] eqn:Hrun.
    cbn [fst] in Heq. subst r.
    apply (Hother sample_gpu "bgra8unorm" 0%nat w2);
      [discriminate | exact Hrun | reflexivity].
Defined.

(** C6, the claim as stated fails: a cached program can be replaced.  Two
    calls of [createTexture] made one after the other for a format that is
    not cached both look the format up before either has stored its
    program: both build, four compilations in all, and when the job queue
    runs, the first stores its program, which the cache then holds, and the
    second stores its own in the place of it. *)
Lemma C6_overlapping_requests_replace_the_program :
  let first := sample_options sample_gpu 4 4 "rgba8unorm" in
  let second := sample_options sample_gpu 2 2 "rgba8unorm" in
  let w2 := perform_all [CallCreateTexture first; CallCreateTexture second]
                        ready_world in
  let w3 := perform (CallTick 32) w2 in
  let w4 := perform (CallTick 32) w3 in
  let w6 := perform_all [CallTick 32; CallTick 32] w4 in
  compilations (commands w2) = 4%nat
  /\ _programMap (mipGenerator w2) !! "rgba8unorm" = None
  /\ _programMap (mipGenerator w3) !! "rgba8unorm" = Some 0%nat
  /\ _programMap (mipGenerator w4) !! "rgba8unorm" = Some 1%nat
  /\ heap w4 !! 0%nat = Some (built_program 2%nat)
  /\ heap w4 !! 1%nat = Some (built_program 5%nat)
  /\ pending w6 = []
  /\ rendered_levels (commands w6) = [1; 2; 1]
  /\ submissions (commands w6) = 2%nat
  /\ compilations (commands w6) = 4%nat
  /\ _programMap (mipGenerator w6) !! "rgba8unorm" = Some 1%nat.
Proof. cbn zeta. repeat split; vm_compute; reflexivity. Qed.

End CacheClaims.

(** ** Texture Factory *)

Section Factory.

Lemma usage_flags_value : TextureLoader.usage_flags = 22.
Proof. reflexivity. Qed.

Ltac run_start :=
  unfold MipGenerator.generate_start, Program.init, Program.alloc,
    Program.update, Device.createShaderModule, Device.createRenderPipeline,
    MipGenerator.this, Gpu.device, settle, spawn, bind, lift, fresh, emit, ret;
  cbn.

(** What a call of [generate] does before it returns its promise. *)
Lemma generate_start_hit (gpu : Gpu) (texture : GPUTexture) (levels : option Z)
      (r : ref) (w : World) :
  _programMap (mipGenerator w) !! format texture = Some r ->
  MipGenerator.generate_start gpu texture levels w
  = (Ok tt, with_pending (pending w ++ [ResumeGenerate gpu texture levels (Ok r)]) w).
Proof. intros Hhit. run_start. rewrite Hhit. reflexivity. Qed.

Lemma generate_start_built (gpu : Gpu) (d : GPUDevice) (texture : GPUTexture)
      (levels : option Z) (w : World) :
  _programMap (mipGenerator w) !! format texture = None ->
  _device gpu = Some d -> buildable d (format texture) ->
  MipGenerator.generate_start gpu texture levels w
  = (Ok tt,
     {| next_handle := S (S (next_handle w));
        commands := commands w ++ build_commands (format texture) (next_handle w);
        heap := heap w ++ [built_program (next_handle w)];
        mipGenerator := mipGenerator w;
        pending := pending w
                   ++ [ResumeGetProgram gpu texture levels (length (heap w))
                                        (Ok tt)] |}).
Proof.
  intros Hmiss Hd [Hs Hp]. run_start. cbn in Hs.
  rewrite Hmiss. cbn. rewrite Hd. cbn. rewrite Hs. cbn.
  rewrite Hp. cbn.
  rewrite alter_snoc. cbn. rewrite alter_snoc. cbn.
  rewrite <- app_assoc. reflexivity.
Qed.

Lemma generate_start_throws (gpu : Gpu) (d : GPUDevice) (texture : GPUTexture)
      (levels : option Z) (e : JS.exn) (w : World) :
  _programMap (mipGenerator w) !! format texture = None ->
  _device gpu = Some d -> build_throws d (format texture) e ->
  exists w',
    MipGenerator.generate_start gpu texture levels w = (Ok tt, w')
    /\ mipGenerator w' = mipGenerator w
    /\ pending w'
       = pending w
         ++ [ResumeGetProgram gpu texture levels (length (heap w)) (Throw e)]
    /\ exists cs, commands w' = commands w ++ cs
                  /\ rendered_levels cs = [] /\ sampled_levels cs = []
                  /\ submissions cs = O.
Proof.
  intros Hmiss Hd [Hs | [Hs Hp]]; cbn in Hs.
  - eexists. split.
    + run_start. rewrite Hmiss. cbn. rewrite Hd. cbn. rewrite Hs. cbn.
      reflexivity.
    + cbn. repeat split. exists []. rewrite app_nil_r. repeat split.
  - eexists. split.
    + run_start. rewrite Hmiss. cbn. rewrite Hd. cbn. rewrite Hs. cbn.
      rewrite Hp. cbn. reflexivity.
    + cbn. repeat split. eexists. repeat split.
Qed.

(** It never throws to its caller, leaves the mip generator as it is, and
    leaves exactly one job more in the queue. *)
Lemma generate_start_returns (gpu : Gpu) (texture : GPUTexture)
      (levels : option Z) (w : World) :
  fst (MipGenerator.generate_start gpu texture levels w) = Ok tt
  /\ mipGenerator (snd (MipGenerator.generate_start gpu texture levels w))
     = mipGenerator w
  /\ exists j,
      pending (snd (MipGenerator.generate_start gpu texture levels w))
      = pending w ++ [j].
Proof.
  run_start.
  destruct (_programMap (mipGenerator w) !! format texture) as [r |]; cbn;
    [repeat split; eexists; reflexivity |].
  destruct (_device gpu) as [d |]; cbn; [| repeat split; eexists; reflexivity].
  destruct (createShaderModule_throws d _); cbn;
    [repeat split; eexists; reflexivity |].
  destruct (createRenderPipeline_throws d _); cbn;
    repeat split; eexists; reflexivity.
Qed.

(** The commands it issues are those of [getProgram]. *)
Lemma generate_start_commands (gpu : Gpu) (texture : GPUTexture)
      (levels : option Z) (w : World) :
  commands (snd (MipGenerator.generate_start gpu texture levels w))
  = commands (snd (MipGenerator.getProgram gpu (format texture) w)).
Proof.
  run_start.
  unfold MipGenerator.getProgram, Program.init, Program.alloc,
    Program.update, Device.createShaderModule, Device.createRenderPipeline,
    MipGenerator.this, MipGenerator.assign, Gpu.device,
    bind, lift, fresh, emit, ret.
  cbn.
  destruct (_programMap (mipGenerator w) !! format texture) as [r |]; cbn;
    [reflexivity |].
  destruct (_device gpu) as [d |]; cbn; [| reflexivity].
  destruct (createShaderModule_throws d _); cbn; [reflexivity |].
  destruct (createRenderPipeline_throws d _); cbn; reflexivity.
Qed.

(** What [createTexture] does on a device context that has its device. *)
Lemma createTexture_run (options : CreateTextureOptions) (d : GPUDevice)
      (w : World) :
  _device (options_gpu options) = Some d ->
  TextureLoader.createTexture options w
  = (Ok (created_texture options w),
     if JS.truthy_int (mipLevelCount (created_texture options w))
     then snd (MipGenerator.generate_start (options_gpu options)
                                           (created_texture options w) None
                                           (after_copy options w))
     else after_copy options w).
Proof.
  intros Hd.
  unfold TextureLoader.createTexture, Device.createTexture,
    Device.copyExternalImageToTexture, Gpu.device, bind, lift, fresh, emit, ret.
  cbn -[MipGenerator.generate_start]. rewrite Hd.
  cbn -[MipGenerator.generate_start].
  fold (created_texture options w).
  rewrite <- app_assoc. cbn [app]. fold (after_copy options w).
  destruct (JS.truthy_int (mipLevelCount (created_texture options w))) eqn:Ht;
    cbn in Ht; rewrite Ht; [| reflexivity].
  destruct (generate_start_returns (options_gpu options)
                                   (created_texture options w) None
                                   (after_copy options w)) as [Hok _].
  destruct (MipGenerator.generate_start _ _ _ _) as [o w1].
  cbn in Hok. subst o. reflexivity.
Qed.

Lemma count_of_positive_sizes (a b : Z) :
  1 <= a < 2 ^ 32 -> 1 <= b < 2 ^ 32 ->
  1 <= MipGenerator.countMipLevels [a; b]
  /\ JS.truthy_int (MipGenerator.countMipLevels [a; b]) = true.
Proof.
  intros Ha Hb.
  rewrite (countMipLevels_log2 _ (Z.max a b)); [| reflexivity | lia].
  assert (0 <= Z.log2 (Z.max a b)) by apply Z.log2_nonneg.
  split; [lia |]. unfold JS.truthy_int.
  destruct (Z.eqb_spec (1 + Z.log2 (Z.max a b)) 0); [lia | reflexivity].
Qed.

(** C4: evaluation at a failing input.  The guard of [createTexture] is
    [if (texture.mipLevelCount)], a test for a count other than zero where
    the claim has a count greater than 1.  For a texture of 1 by 1 the
    level count is 1, not greater than 1, and [generate] is started all
    the same: before [createTexture] returns, [generate] has looked the
    format up, has on a miss built the program of the format, and has left
    the rest of itself in the job queue. *)
Theorem C4_generate_started_for_a_single_level
        (options : CreateTextureOptions) (d : GPUDevice) (w : World) :
  _device (options_gpu options) = Some d ->
  size options = (1, 1) ->
  let texture := created_texture options w in
  let w' := snd (TextureLoader.createTexture options w) in
  mipLevelCount texture = 1
  /\ (1 <? mipLevelCount texture) = false
  /\ TextureLoader.createTexture options w
     = (Ok texture,
        snd (MipGenerator.generate_start (options_gpu options) texture None
                                         (after_copy options w)))
  /\ (exists j, pending w' = pending w ++ [j])
  /\ (forall r, _programMap (mipGenerator w) !! options_format options = Some r ->
                pending w'
                = pending w
                  ++ [ResumeGenerate (options_gpu options) texture None (Ok r)])
  /\ (_programMap (mipGenerator w) !! options_format options = None ->
      buildable d (options_format options) ->
      commands w'
      = commands (after_copy options w)
        ++ build_commands (options_format options) (S (next_handle w))
      /\ pending w'
         = pending w
           ++ [ResumeGetProgram (options_gpu options) texture None
                                (length (heap w)) (Ok tt)]).
Proof.
  intros Hd Hsize texture w'. subst w'.
  assert (Hcount : mipLevelCount texture = 1).
  { subst texture. cbn [mipLevelCount created_texture]. rewrite Hsize. reflexivity. }
  rewrite (createTexture_run options d w Hd). fold texture.
  rewrite Hcount. cbn [JS.truthy_int Z.eqb negb snd].
  split; [reflexivity |]. split; [reflexivity |]. split; [reflexivity |].
  split; [| split].
  - destruct (generate_start_returns (options_gpu options) texture None
                                     (after_copy options w)) as (_ & _ & j & Hj).
    exists j. exact Hj.
  - intros r Hhit.
    rewrite (generate_start_hit (options_gpu options) texture None r
                                (after_copy options w)) by exact Hhit.
    reflexivity.
  - intros Hmiss Hb.
    rewrite (generate_start_built (options_gpu options) d texture None
                                  (after_copy options w)) by assumption.
    split; reflexivity.
Qed.

Lemma C4_generate_started_for_a_single_level_witness :
  let options := sample_options sample_gpu 1 1 "rgba8unorm" in
  let texture := created_texture options ready_world in
  let w' := snd (TextureLoader.createTexture options ready_world) in
  (mipLevelCount texture = 1
   /\ pending w' = [ResumeGetProgram sample_gpu texture None 0%nat (Ok tt)]
   /\ compilations (commands w') = 2%nat)
  /\ fst (TextureLoader.run_pending 32 w') = Ok (Some (Ok 0))
  /\ rendered_levels (commands (snd (TextureLoader.run_pending 32 w'))) = []
  /\ submissions (commands (snd (TextureLoader.run_pending 32 w'))) = 1%nat.
Proof.
  intros options texture w'.
  pose proof (C4_generate_started_for_a_single_level
                options (plain_device 7%nat 8192) ready_world eq_refl eq_refl)
    as (Hcount & _ & _ & _ & _ & Hmiss).
  destruct Hmiss as [Hcs Hq]; [reflexivity | split; reflexivity |].
  split.
  - split; [exact Hcount |]. split; [exact Hq |].
    subst w'. rewrite Hcs. reflexivity.
  - repeat split; vm_compute; reflexivity.
Defined.

(** The factory does not wait for the generation: it returns the texture
    also when the call it started is going to throw, as it is when the
    device refuses the format. *)
Lemma createTexture_returns_despite_failing_generate :
  let options := sample_options picky_gpu 64 64 "r32float" in
  let w' := snd (TextureLoader.createTexture options ready_world) in
  fst (TextureLoader.createTexture options ready_world)
  = Ok (created_texture options ready_world)
  /\ pending w'
     = [ResumeGetProgram picky_gpu (created_texture options ready_world) None
                         0%nat (Throw refusal)]
  /\ fst (TextureLoader.run_pending 32 w') = Ok (Some (Throw refusal)).
Proof. cbn zeta. repeat split; vm_compute; reflexivity. Qed.

End Factory.

(** ** Calls that nobody awaits *)

Section Jobs.

Lemma init_pending (this : ref) (gpu : Gpu) (desc : ProgramDescriptor) (w : World) :
  pending (snd (Program.init this gpu desc w)) = pending w.
Proof.
  unfold Program.init, Program.update, Device.createShaderModule,
    Device.createRenderPipeline, Gpu.device, bind, lift, fresh, emit, ret.
  destruct (_device gpu) as [d |]; cbn; [| reflexivity].
  destruct (createShaderModule_throws d _); cbn; [reflexivity |].
  destruct (Device.refused d _); cbn; reflexivity.
Qed.

Ltac run_jobs :=
  repeat (unfold TextureLoader.run_pending, MipGenerator.await_settled,
            MipGenerator.tick, MipGenerator.run_job,
            MipGenerator.getProgram_resume, MipGenerator.assign,
            MipGenerator.this, Program.alloc, next_job, settle, spawn, bind, ret;
          cbn -[Program.init MipGenerator.generate_resume]).

(** A [generate] call that is started while no job waits, followed by the
    turns of the job queue that let it settle, ends as the awaited call
    does and leaves the same world. *)
Lemma started_generate_settles (fuel : nat) (gpu : Gpu) (texture : GPUTexture)
      (levels : option Z) (w : World) :
  pending w = [] ->
  (let! _ := MipGenerator.generate_start gpu texture levels in
   TextureLoader.run_pending fuel) w
  = (let (o, w') := MipGenerator.generate fuel gpu texture levels w in
     (Ok (Some o), w')).
Proof.
  intros Hq. destruct w as [n cs h g q]. cbn in Hq. subst q.
  rewrite generate_parts, getProgram_parts.
  unfold MipGenerator.generate_start. run_jobs.
  destruct (_programMap g !! format texture) as [program |] eqn:Hf.
  - run_jobs.
    destruct (MipGenerator.generate_resume _ _ _ _ _ _) as [r w']. reflexivity.
  - run_jobs.
    match goal with
    | |- context [Program.init ?p ?g ?d ?w1] =>
        assert (Hp := init_pending p g d w1); destruct (Program.init p g d w1) as [o w2]
    end.
    cbn in Hp. destruct w2 as [n2 cs2 h2 g2 q2].
    cbn in Hp. subst q2.
    destruct o as [[] | e |]; run_jobs.
    + destruct (MipGenerator.generate_resume _ _ _ _ _ _) as [r w']. reflexivity.
    + reflexivity.
    + reflexivity.
Qed.

(** One turn of the queue runs its oldest job. *)
Lemma tick_run (fuel : nat) (j : Job) (rest : list Job) (w : World) :
  pending w = j :: rest ->
  MipGenerator.tick fuel w = MipGenerator.run_job fuel j (with_pending rest w).
Proof.
  intros Hq. unfold MipGenerator.tick, next_job. unfold bind at 1.
  rewrite Hq. reflexivity.
Qed.

Lemma run_job_resume_generate (fuel : nat) (gpu : Gpu) (texture : GPUTexture)
      (levels : option Z) (program : ref) (w : World) :
  MipGenerator.run_job fuel (ResumeGenerate gpu texture levels (Ok program)) w
  = (let (r, w') := MipGenerator.generate_resume fuel gpu texture levels program w in
     (Ok (Some r), w')).
Proof.
  cbn [MipGenerator.run_job]. unfold settle, bind, ret.
  destruct (MipGenerator.generate_resume _ _ _ _ _ _) as [r w']. reflexivity.
Qed.

Lemma run_job_resume_getProgram (fuel : nat) (gpu : Gpu) (texture : GPUTexture)
      (levels : option Z) (program : ref) (w : World) :
  MipGenerator.run_job fuel (ResumeGetProgram gpu texture levels program (Ok tt)) w
  = (Ok None,
     {| next_handle := next_handle w; commands := commands w; heap := heap w;
        mipGenerator :=
          {| _sampler := _sampler (mipGenerator w);
             _programMap := <[format texture := program]>
                              (_programMap (mipGenerator w)) |};
        pending := pending w ++ [ResumeGenerate gpu texture levels (Ok program)] |}).
Proof. reflexivity. Qed.

Lemma run_job_returns (fuel : nat) (j : Job) (w : World) :
  exists r, fst (MipGenerator.run_job fuel j w) = Ok r.
Proof.
  destruct j as [gpu texture levels program initialised
                | gpu texture levels program]; cbn [MipGenerator.run_job].
  - destruct initialised as [[] | e |]; eexists; reflexivity.
  - destruct program as [program | e |]; try (eexists; reflexivity).
    unfold settle, bind, ret.
    destruct (MipGenerator.generate_resume _ _ _ _ _ _) as [r w'].
    eexists. reflexivity.
Qed.

(** An [await] behind one waiting job runs that job. *)
Lemma await_settled_one (fuel : nat) (j : Job) (w : World) :
  pending w = [j] ->
  MipGenerator.await_settled fuel w
  = (Ok tt, snd (MipGenerator.run_job fuel j (with_pending [] w))).
Proof.
  intros Hq. unfold MipGenerator.await_settled. rewrite Hq.
  cbn [length MipGenerator.ticks]. unfold bind at 1.
  rewrite (tick_run fuel j [] w Hq).
  destruct (run_job_returns fuel j (with_pending [] w)) as [r Hr].
  destruct (MipGenerator.run_job fuel j (with_pending [] w)) as [o w'].
  cbn in Hr. subst o. reflexivity.
Qed.

(** *** The fuel of [loadTexture] never runs out *)

Lemma mip_trace_S (fuel : nat) (count w h l : Z) :
  mip_trace (S fuel) count w h l
  = if MipGenerator.continues count w h l
    then option_map (cons (Z.max 1 (JS.half w), Z.max 1 (JS.half h), l + 1))
                    (mip_trace fuel count (Z.max 1 (JS.half w))
                               (Z.max 1 (JS.half h)) (l + 1))
    else Some [].
Proof. reflexivity. Qed.

Lemma mip_trace_enough (count w h l : Z) :
  is_Some (mip_trace MipGenerator.enough_fuel count w h l).
Proof.
  change MipGenerator.enough_fuel with (S 32). rewrite mip_trace_S.
  destruct (MipGenerator.continues count w h l); [| eexists; reflexivity].
  assert (Hrange : forall x, 1 <= Z.max 1 (JS.half x) < 2 ^ 31).
  { intros x. unfold JS.half, JS.ToInt32.
    assert (H := Z.mod_pos_bound (x ÷ 2 + 2 ^ 31) (2 ^ 32)). lia. }
  assert (Hw := Hrange w). assert (Hh := Hrange h).
  rewrite mip_trace_closed; [eexists; reflexivity | lia | lia |].
  unfold pass_count.
  assert (Z.log2 (Z.max 1 (JS.half w)) < 31) by (apply Z.log2_lt_pow2; lia).
  assert (Z.log2 (Z.max 1 (JS.half h)) < 31) by (apply Z.log2_lt_pow2; lia).
  lia.
Qed.

Lemma getBindGroup_in_fuel gpu program texture l (w : World) :
  fst (MipGenerator.getBindGroup gpu program texture l w) <> OutOfFuel.
Proof.
  unfold MipGenerator.getBindGroup, Device.createBindGroup, Program.read,
    MipGenerator.this, Gpu.device, Program.pipeline, MipGenerator.sampler,
    bind, lift, fresh, emit, ret.
  cbn. destruct (_device gpu); cbn; [| discriminate].
  destruct (_pipeline _); cbn; [| discriminate].
  destruct (_sampler _); cbn; discriminate.
Qed.

Lemma renderMipmap_in_fuel encoder program desc bg (w : World) :
  fst (MipGenerator.renderMipmap encoder program desc bg w) <> OutOfFuel.
Proof.
  unfold MipGenerator.renderMipmap, Program.read, Program.pipeline,
    bind, lift, emit, ret.
  cbn. destruct (_pipeline _); cbn; discriminate.
Qed.

Lemma generate_loop_in_fuel (fuel : nat) gpu program texture encoder count :
  forall width height l (w : World),
    is_Some (mip_trace fuel count width height l) ->
    fst (MipGenerator.generate_loop fuel gpu program texture encoder count
                                    width height l w) <> OutOfFuel.
Proof.
  induction fuel as [| fuel IH]; intros width height l w [tr Htr];
    cbn [mip_trace mip_step] in Htr; cbn [MipGenerator.generate_loop];
    destruct (MipGenerator.continues count width height l);
    try discriminate.
  unfold bind.
  assert (Hbg := getBindGroup_in_fuel gpu program texture l w).
  destruct (MipGenerator.getBindGroup gpu program texture l w)
    as [[bg | e |] w1]; cbn [fst] in *; try discriminate; try congruence.
  match goal with
  | |- context [MipGenerator.renderMipmap ?a ?b ?c ?d ?w0] =>
      assert (Hrm := renderMipmap_in_fuel a b c d w0);
      destruct (MipGenerator.renderMipmap a b c d w0) as [[[] | e |] w2]
  end; cbn [fst] in *; try discriminate; try congruence.
  apply IH.
  destruct (mip_trace fuel count _ _ _) as [tr' |]; [eexists; reflexivity |].
  discriminate.
Qed.

(** With [enough_fuel] the rest of a [generate] call ends by itself,
    whatever the texture and the level count. *)
Lemma enough_fuel_suffices gpu texture levels program (w : World) :
  fst (MipGenerator.generate_resume MipGenerator.enough_fuel gpu texture levels
                                    program w) <> OutOfFuel.
Proof.
  unfold MipGenerator.generate_resume, Device.createCommandEncoder,
    Device.finish, Device.submit, Gpu.device.
  unfold bind at 1. unfold lift at 1.
  destruct (_device gpu) as [d |]; [| discriminate].
  unfold bind at 1. unfold bind at 1 2. unfold fresh at 1. unfold emit at 1.
  unfold ret at 1. unfold bind at 1.
  match goal with
  | |- context [MipGenerator.generate_loop ?f ?g ?p ?t ?e ?c ?wd ?ht ?l ?w0] =>
      assert (Hloop := generate_loop_in_fuel f g p t e c wd ht l w0
                                             (mip_trace_enough c wd ht l));
      destruct (MipGenerator.generate_loop f g p t e c wd ht l w0)
        as [[final | e0 |] w2]
  end; cbn [fst] in *; try discriminate; try congruence.
Qed.

End Jobs.

(** * Further properties of the code *)

(** ** Device Context: repeated initialisation *)

Section GpuMore.

(** X1: what [init] throws or returns depends on the platform only, not on
    the state the [Gpu] was in, and a second [init] on the same platform
    gives the same result and the same state as the first. *)
Theorem X1_Gpu_init_is_idempotent (navigator : Navigator) (this other : Gpu) :
  fst (Gpu.init navigator this) = fst (Gpu.init navigator other)
  /\ Gpu.init navigator (snd (Gpu.init navigator this)) = Gpu.init navigator this.
Proof.
  rewrite !init_outcome.
  destruct (Gpu.request_adapter navigator) as [a |] eqn:Ha.
  - destruct (requestDevice a) as [d |] eqn:Hd; cbn; split; reflexivity.
  - cbn. split; reflexivity.
Qed.

(** X2: an [init] that finds no adapter clears the adapter and keeps
    whatever device an earlier [init] had stored: [ready] is false and the
    adapter accessor throws, while the device accessor answers as before. *)
Theorem X2_Gpu_failed_init_keeps_stale_device (navigator : Navigator) (this : Gpu) :
  Gpu.request_adapter navigator = None ->
  fst (Gpu.init navigator this) = Throw no_webgpu
  /\ Gpu.ready (snd (Gpu.init navigator this)) = false
  /\ Gpu.adapter (snd (Gpu.init navigator this))
     = Throw (JS.Error "Rendering device is not initialized")
  /\ Gpu.device (snd (Gpu.init navigator this)) = Gpu.device this
  /\ label (snd (Gpu.init navigator this)) = label this.
Proof.
  intros Ha. rewrite init_outcome, Ha. cbn. repeat split.
Qed.

Lemma X2_Gpu_failed_init_keeps_stale_device_witness :
  Gpu.ready sample_gpu = true
  /\ Gpu.ready (snd (Gpu.init browser_without_adapter sample_gpu)) = false
  /\ Gpu.device (snd (Gpu.init browser_without_adapter sample_gpu))
     = Ok (plain_device 7%nat 8192).
Proof.
  destruct (X2_Gpu_failed_init_keeps_stale_device browser_without_adapter sample_gpu)
    as (_ & Hready & _ & Hdevice & _); [reflexivity |].
  split; [reflexivity |]. split; [exact Hready |].
  rewrite Hdevice. reflexivity.
Defined.

(** X3: [ready] is true exactly when every accessor of the component
    returns: for [Gpu] the adapter and the device, for [Program] the shader
    module and the pipeline, for [Surface] the context and the format. *)
Theorem X3_ready_iff_accessors_return :
  (forall g : Gpu,
      Gpu.ready g = true
      <-> exists a d, Gpu.adapter g = Ok a /\ Gpu.device g = Ok d)
  /\ (forall p : Program,
         Program.ready p = true
         <-> exists m pl, Program.shaderModule p = Ok m /\ Program.pipeline p = Ok pl)
  /\ (forall s : Surface,
         Surface.ready s = true
         <-> exists c f, Surface.context s = Ok c /\ Surface.format s = Ok f).
Proof.
  split; [| split].
  - intros g. unfold Gpu.ready, Gpu.adapter, Gpu.device.
    rewrite andb_true_iff, !bool_decide_eq_true.
    destruct (_adapter g) as [a |], (_device g) as [d |]; split;
      try (intros [[? ?] [? ?]]; discriminate);
      try (intros (? & ? & ? & ?); discriminate).
    + intros _. exists a, d. split; reflexivity.
    + intros _. split; eexists; reflexivity.
  - intros p. unfold Program.ready, Program.shaderModule, Program.pipeline.
    rewrite andb_true_iff, !bool_decide_eq_true.
    destruct (_shaderModule p) as [m |], (_pipeline p) as [pl |]; split;
      try (intros [[? ?] [? ?]]; discriminate);
      try (intros (? & ? & ? & ?); discriminate).
    + intros _. exists m, pl. split; reflexivity.
    + intros _. split; eexists; reflexivity.
  - intros s. unfold Surface.ready, Surface.context, Surface.format,
      Surface.truthy_format.
    rewrite andb_true_iff, bool_decide_eq_true.
    destruct (_context s) as [c |], (_format s) as [f |];
      try destruct (JS.truthy_string f) eqn:Hf; split;
      try (intros [[? ?] ?]; discriminate);
      try (intros [_ ?]; discriminate);
      try (intros (? & ? & ? & ?); discriminate).
    + intros _. exists c, f. split; reflexivity.
    + intros _. split; [eexists; reflexivity | reflexivity].
Qed.

End GpuMore.

(** ** Presentation Surface: initialisation and the resize observer *)

Section SurfaceMore.

Lemma trunc_inject_Z (z : Z) : JS.trunc (inject_Z z) = z.
Proof.
  unfold JS.trunc. destruct (Qle_bool 0 (inject_Z z)).
  - apply Qfloor_Z.
  - apply Qceiling_Z.
Qed.

(** X4: [Surface.init] returns normally exactly when the canvas has a WebGPU
    context, the browser has [navigator.gpu] and the [Gpu] has its device.
    It then stores the context and the preferred format, configures the
    context with that device and format and pre-multiplied alpha, starts
    the observer, and has set the canvas to its offset size (converted to an
    unsigned long); the resize callback is not called. *)
Theorem X4_Surface_init_success (navigator : Navigator) (gpu : Gpu) (this : Surface) :
  (fst (Surface.init navigator gpu this) = Ok tt
   <-> is_Some (getContext_webgpu (canvas this))
       /\ is_Some (navigator_gpu navigator) /\ is_Some (_device gpu))
  /\ forall c g d,
      getContext_webgpu (canvas this) = Some c ->
      navigator_gpu navigator = Some g ->
      _device gpu = Some d ->
      let s' := snd (Surface.init navigator gpu this) in
      _context s' = Some c
      /\ _format s' = Some (getPreferredCanvasFormat g)
      /\ configuration s'
         = Some {| config_device := device_id d;
                   config_format := getPreferredCanvasFormat g;
                   alphaMode := "premultiplied" |}
      /\ _resizeObserver s' = true
      /\ canvas_width (canvas s') = JS.ToUint32 (offsetWidth (canvas this))
      /\ canvas_height (canvas s') = JS.ToUint32 (offsetHeight (canvas this))
      /\ (0 <= offsetWidth (canvas this) < 2 ^ 32 ->
          canvas_width (canvas s') = offsetWidth (canvas this))
      /\ (0 <= offsetHeight (canvas this) < 2 ^ 32 ->
          canvas_height (canvas s') = offsetHeight (canvas this))
      /\ resize_calls s' = resize_calls this.
Proof.
  split.
  - unfold Surface.init, Gpu.device. cbn.
    destruct (getContext_webgpu (canvas this)) as [c |];
      [| cbn; split; [discriminate | intros ([? ?] & _); discriminate]].
    destruct (navigator_gpu navigator) as [g |];
      [| cbn; split; [discriminate | intros (_ & [? ?] & _); discriminate]].
    cbn. destruct (_device gpu) as [d |];
      [| cbn; split; [discriminate | intros (_ & _ & [? ?]); discriminate]].
    cbn. split; [| reflexivity].
    intros _. repeat split; eexists; reflexivity.
  - intros c g d Hc Hg Hd. unfold Surface.init, Gpu.device. cbn.
    rewrite Hc, Hg. cbn. rewrite Hd. cbn.
    unfold Surface.assign_dimension. rewrite !trunc_inject_Z.
    repeat split; try reflexivity.
    + intros Hr. unfold JS.ToUint32. apply Z.mod_small. exact Hr.
    + intros Hr. unfold JS.ToUint32. apply Z.mod_small. exact Hr.
Qed.

Lemma X4_Surface_init_success_witness :
  let s' := snd (Surface.init (browser (Some (plain_device 7%nat 8192)))
                              sample_gpu (Surface.new sample_canvas)) in
  _context s' = Some 3%nat /\ _format s' = Some "bgra8unorm"
  /\ canvas_width (canvas s') = 640 /\ canvas_height (canvas s') = 480.
Proof.
  destruct (X4_Surface_init_success (browser (Some (plain_device 7%nat 8192)))
                                    sample_gpu (Surface.new sample_canvas))
    as [_ H].
  destruct (H 3%nat
              {| requestAdapter :=
                   Some {| adapter_id := 1%nat;
                           requestDevice := Some (plain_device 7%nat 8192) |};
                 getPreferredCanvasFormat := "bgra8unorm" |}
              (plain_device 7%nat 8192))
    as (Hc & Hf & _ & _ & _ & _ & Hw & Hh & _); try reflexivity.
  cbn zeta. split; [exact Hc |]. split; [exact Hf |].
  split; [apply Hw | apply Hh]; cbn; lia.
Defined.

(** X5: the two ways [Surface.init] throws.  Without a WebGPU context on
    the canvas it throws [Error('canvas does not support WebGPU')] and the
    surface is not ready afterwards, whatever it was before; the format,
    the configuration and the observer are untouched.  With a context but a
    [Gpu] that has no device it throws the error of the device accessor
    after storing context and format: the context is never configured and
    no observer is started. *)
Theorem X5_Surface_init_failures (navigator : Navigator) (gpu : Gpu) (this : Surface) :
  (getContext_webgpu (canvas this) = None ->
   let s' := snd (Surface.init navigator gpu this) in
   fst (Surface.init navigator gpu this)
   = Throw (JS.Error "canvas does not support WebGPU")
   /\ Surface.ready s' = false
   /\ Surface.context s' = Throw (JS.Error "Surface is not initialized")
   /\ _format s' = _format this
   /\ configuration s' = configuration this
   /\ _resizeObserver s' = _resizeObserver this)
  /\ (forall c g,
         getContext_webgpu (canvas this) = Some c ->
         navigator_gpu navigator = Some g ->
         _device gpu = None ->
         let s' := snd (Surface.init navigator gpu this) in
         fst (Surface.init navigator gpu this)
         = Throw (JS.Error "Rendering device is not initialized")
         /\ Surface.context s' = Ok c
         /\ _format s' = Some (getPreferredCanvasFormat g)
         /\ configuration s' = configuration this
         /\ _resizeObserver s' = _resizeObserver this).
Proof.
  split.
  - intros Hc. unfold Surface.init, Surface.ready, Surface.context. cbn.
    rewrite Hc. cbn. repeat split.
  - intros c g Hc Hg Hd. unfold Surface.init, Surface.context, Gpu.device. cbn.
    rewrite Hc, Hg. cbn. rewrite Hd. cbn. repeat split.
Qed.

Lemma X5_Surface_init_failures_witness :
  fst (Surface.init (browser None) (Gpu.new "g") (Surface.new sample_canvas))
  = Throw (JS.Error "Rendering device is not initialized")
  /\ configuration (snd (Surface.init (browser None) (Gpu.new "g")
                                      (Surface.new sample_canvas))) = None.
Proof.
  destruct (X5_Surface_init_failures (browser None) (Gpu.new "g")
                                     (Surface.new sample_canvas))
    as [_ H].
  destruct (H 3%nat
              {| requestAdapter :=
                   Some {| adapter_id := 1%nat; requestDevice := None |};
                 getPreferredCanvasFormat := "bgra8unorm" |})
    as (Hthrow & _ & _ & Hconf & _); try reflexivity.
  split; [exact Hthrow | exact Hconf].
Defined.

End SurfaceMore.

Section ResizeMore.

(** One entry on a [Gpu] with its device: the size of the entry is stored,
    then the callback, if installed, is called with it. *)
Lemma resize_entry_run (gpu : Gpu) (d : GPUDevice) (entry : ResizeObserverEntry)
      (this : Surface) :
  _device gpu = Some d -> contentBoxSize entry <> [] ->
  let size := stored_size (maxTextureDimension2D d) entry in
  Surface.resize_entry gpu entry this
  = (Ok tt,
     {| canvas := {| canvas_width := fst size; canvas_height := snd size;
                     offsetWidth := offsetWidth (canvas this);
                     offsetHeight := offsetHeight (canvas this);
                     getContext_webgpu := getContext_webgpu (canvas this) |};
        onResize := onResize this;
        _resizeObserver := _resizeObserver this;
        _context := _context this;
        _format := _format this;
        configuration := configuration this;
        resize_calls :=
          resize_calls this ++ (if onResize this then [size] else []) |}).
Proof.
  intros Hd Hbox.
  unfold Surface.resize_entry, stored_size, Gpu.device, Surface.set_canvas,
    Surface.set_width, Surface.set_height.
  destruct (contentBoxSize entry) as [| box rest]; [congruence |].
  rewrite Hd. cbn.
  destruct (onResize this); cbn; [reflexivity |].
  rewrite app_nil_r. reflexivity.
Qed.

(** What is stored lies between 1 and the limit, or is 1 under a limit
    below 1: under a limit below [2 ^ 31] it is a value a canvas keeps. *)
Lemma assign_within (limit : Z) (x : Q) :
  limit < 2 ^ 31 ->
  1 <= Surface.assign_dimension (Qmax 1 (Qmin x (inject_Z limit))) < 2 ^ 31.
Proof.
  intros Hl.
  set (q := Qmax 1 (Qmin x (inject_Z limit))).
  assert (Hlo : (1 <= q)%Q) by apply Q.le_max_l.
  assert (Hhi : (q <= inject_Z (Z.max 1 limit))%Q).
  { apply Q.max_lub.
    - change 1%Q with (inject_Z 1). rewrite <- Zle_Qle. lia.
    - apply Qle_trans with (inject_Z limit); [apply Q.le_min_r |].
      rewrite <- Zle_Qle. lia. }
  assert (Hpos : Qle_bool 0 q = true).
  { apply Qle_bool_iff. apply Qle_trans with 1%Q; [discriminate | exact Hlo]. }
  unfold Surface.assign_dimension, JS.trunc, JS.ToUint32. rewrite Hpos.
  assert (H1 : 1 <= Qfloor q).
  { change 1 with (Qfloor 1) at 1. apply Qfloor_resp_le. exact Hlo. }
  assert (H2 : Qfloor q <= Z.max 1 limit).
  { rewrite <- (Qfloor_Z (Z.max 1 limit)). apply Qfloor_resp_le. exact Hhi. }
  rewrite Z.mod_small; lia.
Qed.

(** X6: on a [Gpu] with its device, whose limit is below [2 ^ 31] so that
    every size stored is one a canvas keeps, the observer handles the
    entries in order: it stores the size of each and, when a callback is
    installed, calls it once per entry with the size just stored; the
    canvas ends with the size of the last entry; context, format and
    configuration are not touched. *)
Theorem X6_resize_observer_calls_back_per_entry
        (gpu : Gpu) (d : GPUDevice) (entries : list ResizeObserverEntry) :
  _device gpu = Some d ->
  maxTextureDimension2D d < 2 ^ 31 ->
  Forall (fun e => contentBoxSize e <> []) entries ->
  forall this,
    let s' := snd (Surface.resize_observer gpu entries this) in
    fst (Surface.resize_observer gpu entries this) = Ok tt
    /\ resize_calls s'
       = resize_calls this
         ++ (if onResize this
             then map (stored_size (maxTextureDimension2D d)) entries
             else [])
    /\ (canvas_width (canvas s'), canvas_height (canvas s'))
       = List.last (map (stored_size (maxTextureDimension2D d)) entries)
                   (canvas_width (canvas this), canvas_height (canvas this))
    /\ Forall (fun size => 1 <= fst size < 2 ^ 31 /\ 1 <= snd size < 2 ^ 31)
              (map (stored_size (maxTextureDimension2D d)) entries)
    /\ _context s' = _context this
    /\ _format s' = _format this
    /\ configuration s' = configuration this
    /\ onResize s' = onResize this.
Proof.
  intros Hd Hlimit Hall.
  assert (Hkept : Forall (fun size => 1 <= fst size < 2 ^ 31
                                      /\ 1 <= snd size < 2 ^ 31)
                         (map (stored_size (maxTextureDimension2D d)) entries)).
  { apply List.Forall_forall. intros size Hin.
    apply in_map_iff in Hin as (entry & <- & Hin).
    rewrite List.Forall_forall in Hall. specialize (Hall entry Hin).
    unfold stored_size. destruct (contentBoxSize entry) as [| box boxes];
      [congruence |].
    cbn [fst snd]. split; apply assign_within; exact Hlimit. }
  clear Hlimit.
  enough (Hmain : forall this,
             let s' := snd (Surface.resize_observer gpu entries this) in
             fst (Surface.resize_observer gpu entries this) = Ok tt
             /\ resize_calls s'
                = resize_calls this
                  ++ (if onResize this
                      then map (stored_size (maxTextureDimension2D d)) entries
                      else [])
             /\ (canvas_width (canvas s'), canvas_height (canvas s'))
                = List.last (map (stored_size (maxTextureDimension2D d)) entries)
                            (canvas_width (canvas this), canvas_height (canvas this))
             /\ _context s' = _context this
             /\ _format s' = _format this
             /\ configuration s' = configuration this
             /\ onResize s' = onResize this).
  { intros this. destruct (Hmain this) as (H1 & H2 & H3 & H4).
    split; [exact H1 |]. split; [exact H2 |]. split; [exact H3 |].
    split; [exact Hkept | exact H4]. }
  clear Hkept.
  induction Hall as [| entry rest Hbox _ IH]; intros this.
  - cbn. destruct (onResize this); rewrite app_nil_r; repeat split.
  - cbn [Surface.resize_observer].
    rewrite (resize_entry_run gpu d entry this Hd Hbox). cbn zeta.
    match goal with
    | |- context [Surface.resize_observer gpu rest ?s1] =>
        destruct (IH s1) as (Hok & Hcalls & Hsize & Hc & Hf & Hconf & Hon)
    end.
    cbn in Hcalls, Hsize, Hc, Hf, Hconf, Hon.
    split; [exact Hok |].
    split.
    { rewrite Hcalls. destruct (onResize this); cbn.
      - rewrite <- app_assoc. reflexivity.
      - rewrite !app_nil_r. reflexivity. }
    split.
    { rewrite Hsize. cbn [map]. rewrite last_cons_default.
      destruct (stored_size (maxTextureDimension2D d) entry). reflexivity. }
    repeat split; assumption.
Qed.

Lemma X6_resize_observer_calls_back_per_entry_witness :
  let entries :=
    [{| contentBoxSize := [{| inlineSize := 5000 # 1; blockSize := 300 # 1 |}] |};
     {| contentBoxSize := [{| inlineSize := 801 # 2; blockSize := 0 |}] |}] in
  let this := snd (Surface.init (browser (Some (plain_device 7%nat 4096)))
                                (ready_gpu (plain_device 7%nat 4096))
                                (Surface.new sample_canvas)) in
  resize_calls (snd (Surface.resize_observer
                       (ready_gpu (plain_device 7%nat 4096)) entries
                       {| canvas := canvas this; onResize := true;
                          _resizeObserver := _resizeObserver this;
                          _context := _context this; _format := _format this;
                          configuration := configuration this;
                          resize_calls := [] |}))
  = [(4096, 300); (400, 1)].
Proof.
  intros entries this.
  destruct (X6_resize_observer_calls_back_per_entry
              (ready_gpu (plain_device 7%nat 4096)) (plain_device 7%nat 4096)
              entries)
    with (this := {| canvas := canvas this; onResize := true;
                     _resizeObserver := _resizeObserver this;
                     _context := _context this; _format := _format this;
                     configuration := configuration this;
                     resize_calls := [] |})
    as (_ & Hcalls & _).
  - reflexivity.
  - cbn. lia.
  - repeat constructor; discriminate.
  - rewrite Hcalls. reflexivity.
Defined.

Lemma assign_dimension_floor (q : Q) :
  (1 <= q)%Q -> Qfloor q < 2 ^ 32 -> Surface.assign_dimension q = Qfloor q.
Proof.
  intros Hq Hlt.
  assert (Hpos : Qle_bool 0 q = true).
  { apply Qle_bool_iff. apply Qle_trans with 1%Q; [discriminate | exact Hq]. }
  unfold Surface.assign_dimension, JS.trunc, JS.ToUint32. rewrite Hpos.
  assert (H1 : 1 <= Qfloor q).
  { change 1 with (Qfloor 1) at 1. apply Qfloor_resp_le. exact Hq. }
  apply Z.mod_small. lia.
Qed.

(** X7: the value the observer stores for a reported size [x], on a device
    whose limit is at least 1 and below [2 ^ 31], so that the value is one
    a canvas keeps: the floor of [x], clamped into the interval from 1 to
    the limit.  This holds for every rational [x], negative and fractional
    sizes included; an integer size within the interval is stored as it
    is. *)
Theorem X7_stored_dimension_closed_form (limit : Z) (x : Q) :
  1 <= limit < 2 ^ 31 ->
  Surface.assign_dimension (Qmax 1 (Qmin x (inject_Z limit)))
  = Z.max 1 (Z.min (Qfloor x) limit)
  /\ forall z, 1 <= z <= limit ->
               Surface.assign_dimension (Qmax 1 (Qmin (inject_Z z) (inject_Z limit)))
               = z.
Proof.
  intros Hl.
  assert (Hone : (1 <= inject_Z limit)%Q).
  { change 1%Q with (inject_Z 1). rewrite <- Zle_Qle. lia. }
  assert (Hform : forall y : Q,
             Surface.assign_dimension (Qmax 1 (Qmin y (inject_Z limit)))
             = Z.max 1 (Z.min (Qfloor y) limit)).
  { intros y.
    assert (Hq1 : (1 <= Qmax 1 (Qmin y (inject_Z limit)))%Q) by apply Q.le_max_l.
    assert (Hq2 : Qfloor (Qmax 1 (Qmin y (inject_Z limit))) < 2 ^ 32).
    { apply Z.le_lt_trans with (Qfloor (inject_Z limit)).
      - apply Qfloor_resp_le. apply Q.max_lub; [exact Hone | apply Q.le_min_r].
      - rewrite Qfloor_Z. lia. }
    rewrite (assign_dimension_floor _ Hq1 Hq2).
    destruct (Qlt_le_dec y 1) as [Hlt | Hge].
    - (* below 1: the maximum with 1 is 1 *)
      assert (Hq : (Qmax 1 (Qmin y (inject_Z limit)) == 1)%Q).
      { apply Q.max_l. apply Qle_trans with y; [apply Q.le_min_l |].
        apply Qlt_le_weak. exact Hlt. }
      rewrite (Qfloor_comp _ _ Hq).
      assert (Hf : Qfloor y < 1).
      { rewrite Zlt_Qlt. apply Qle_lt_trans with y; [apply Qfloor_le | exact Hlt]. }
      change (Qfloor 1) with 1. lia.
    - destruct (Qlt_le_dec (inject_Z limit) y) as [Hbig | Hfit].
      + (* above the limit: the minimum is the limit *)
        assert (Hq : (Qmax 1 (Qmin y (inject_Z limit)) == inject_Z limit)%Q).
        { rewrite (Q.min_r y (inject_Z limit)) by (apply Qlt_le_weak; exact Hbig).
          apply Q.max_r. exact Hone. }
        rewrite (Qfloor_comp _ _ Hq), Qfloor_Z.
        assert (Hf : limit <= Qfloor y).
        { rewrite <- (Qfloor_Z limit). apply Qfloor_resp_le.
          apply Qlt_le_weak. exact Hbig. }
        lia.
      + (* within the interval: the size itself *)
        assert (Hq : (Qmax 1 (Qmin y (inject_Z limit)) == y)%Q).
        { rewrite (Q.min_l y (inject_Z limit)) by exact Hfit.
          apply Q.max_r. exact Hge. }
        rewrite (Qfloor_comp _ _ Hq).
        assert (Hf1 : 1 <= Qfloor y).
        { change 1 with (Qfloor 1) at 1. apply Qfloor_resp_le. exact Hge. }
        assert (Hf2 : Qfloor y <= limit).
        { rewrite <- (Qfloor_Z limit). apply Qfloor_resp_le. exact Hfit. }
        lia. }
  split; [apply Hform |].
  intros z Hz. rewrite Hform, Qfloor_Z. lia.
Qed.

Lemma X7_stored_dimension_closed_form_witness :
  Surface.assign_dimension (Qmax 1 (Qmin (-7 # 2) (inject_Z 4096)))
  = Z.max 1 (Z.min (Qfloor (-7 # 2)) 4096).
Proof.
  destruct (X7_stored_dimension_closed_form 4096 (-7 # 2)) as [H _]; [lia |].
  exact H.
Defined.

(** X8: when the [Gpu] has lost its device, the observer throws the error
    of the device accessor at the first entry and leaves the surface, its
    canvas size included, as it was; no callback is called. *)
Theorem X8_resize_observer_without_device
        (gpu : Gpu) (entries : list ResizeObserverEntry) (this : Surface) :
  _device gpu = None -> entries <> [] ->
  Forall (fun e => contentBoxSize e <> []) entries ->
  Surface.resize_observer gpu entries this
  = (Throw (JS.Error "Rendering device is not initialized"), this).
Proof.
  intros Hd Hne Hall.
  destruct Hall as [| entry rest Hbox _]; [congruence |].
  cbn [Surface.resize_observer]. unfold Surface.resize_entry, Gpu.device.
  destruct (contentBoxSize entry) as [| box boxes]; [congruence |].
  rewrite Hd. reflexivity.
Qed.

Lemma X8_resize_observer_without_device_witness :
  Surface.resize_observer
    (snd (Gpu.init browser_without_adapter (Gpu.new "g")))
    [{| contentBoxSize := [{| inlineSize := 10; blockSize := 10 |}] |}]
    (Surface.new sample_canvas)
  = (Throw (JS.Error "Rendering device is not initialized"),
     Surface.new sample_canvas).
Proof.
  apply X8_resize_observer_without_device.
  - reflexivity.
  - discriminate.
  - repeat constructor; discriminate.
Defined.

End ResizeMore.

(** ** [Program.init] and [MipGenerator.init] *)

Section InitMore.

Ltac run_Program_init :=
  unfold Program.init, Program.update, Device.createShaderModule,
    Device.createRenderPipeline, Gpu.device, bind, lift, fresh, emit, ret;
  cbn.

(** X9: the ways [Program.init] throws.  On a [Gpu] without its device it
    throws the error of the device accessor and changes nothing.  When the
    shader module is created and the pipeline is refused, it passes the
    throw on with the program half initialised: the module is stored, the
    pipeline is as before, one command was issued, and no other program of
    the heap is touched. *)
Theorem X9_Program_init_failures
        (this : ref) (gpu : Gpu) (desc : ProgramDescriptor) (w : World) :
  (_device gpu = None ->
   Program.init this gpu desc w
   = (Throw (JS.Error "Rendering device is not initialized"), w))
  /\ (forall d e p0,
         _device gpu = Some d ->
         heap w !! this = Some p0 ->
         createShaderModule_throws d (shaderDescriptor desc tt) = None ->
         Device.refused d (targets (pipelineDescriptor desc (next_handle w)))
         = Some e ->
         let w' := snd (Program.init this gpu desc w) in
         fst (Program.init this gpu desc w) = Throw e
         /\ heap w' !! this
            = Some {| _shaderModule := Some (next_handle w);
                      _pipeline := _pipeline p0 |}
         /\ (forall r, r <> this -> heap w' !! r = heap w !! r)
         /\ commands w'
            = commands w
              ++ [CreateShaderModule (next_handle w) (shaderDescriptor desc tt)]
         /\ mipGenerator w' = mipGenerator w).
Proof.
  split.
  - intros Hd. run_Program_init. rewrite Hd. reflexivity.
  - intros d e p0 Hd Hp0 Hs Hp. run_Program_init.
    rewrite Hd. cbn. rewrite Hs. cbn. rewrite Hp. cbn.
    unfold ref in *.
    split; [reflexivity |]. split; [| split; [| split; reflexivity]].
    + rewrite list_lookup_alter_eq, Hp0. reflexivity.
    + intros r Hr. apply list_lookup_alter_ne. congruence.
Qed.

Lemma X9_Program_init_failures_witness :
  let w := snd (Program.alloc ready_world) in
  fst (Program.init 0%nat picky_gpu (MipGenerator.programDescriptor "r32float") w)
  = Throw refusal
  /\ heap (snd (Program.init 0%nat picky_gpu
                             (MipGenerator.programDescriptor "r32float") w))
     !! 0%nat
     = Some {| _shaderModule := Some 1%nat; _pipeline := None |}.
Proof.
  intros w.
  destruct (X9_Program_init_failures
              0%nat picky_gpu (MipGenerator.programDescriptor "r32float") w)
    as [_ H].
  destruct (H (picky_device 7%nat 8192 "r32float" refusal) refusal Program.new)
    as (Hthrow & Hcell & _); try reflexivity.
  split; [exact Hthrow | exact Hcell].
Defined.

(** X10: a [Program.init] that nothing refuses creates the shader module,
    builds the pipeline from the descriptor of that very module, and stores
    both in the program: exactly these two commands are issued, in this
    order, and no other program of the heap is touched. *)
Theorem X10_Program_init_builds_pipeline_from_its_module
        (this : ref) (gpu : Gpu) (d : GPUDevice) (desc : ProgramDescriptor)
        (p0 : Program) (w : World) :
  _device gpu = Some d ->
  heap w !! this = Some p0 ->
  createShaderModule_throws d (shaderDescriptor desc tt) = None ->
  Device.refused d (targets (pipelineDescriptor desc (next_handle w))) = None ->
  let w' := snd (Program.init this gpu desc w) in
  fst (Program.init this gpu desc w) = Ok tt
  /\ heap w' !! this
     = Some {| _shaderModule := Some (next_handle w);
               _pipeline := Some (S (next_handle w)) |}
  /\ (forall r, r <> this -> heap w' !! r = heap w !! r)
  /\ length (heap w') = length (heap w)
  /\ commands w'
     = commands w
       ++ [CreateShaderModule (next_handle w) (shaderDescriptor desc tt);
           CreateRenderPipeline (S (next_handle w))
                                (pipelineDescriptor desc (next_handle w))]
  /\ mipGenerator w' = mipGenerator w.
Proof.
  intros Hd Hp0 Hs Hp. run_Program_init.
  rewrite Hd. cbn. rewrite Hs. cbn. rewrite Hp. cbn.
  unfold ref in *.
  split; [reflexivity |].
  split; [| split; [| split; [| split; [| reflexivity]]]].
  - rewrite !list_lookup_alter_eq, Hp0. reflexivity.
  - intros r Hr. rewrite !list_lookup_alter_ne by congruence. reflexivity.
  - rewrite !length_alter. reflexivity.
  - rewrite <- app_assoc. reflexivity.
Qed.

Lemma X10_Program_init_builds_pipeline_from_its_module_witness :
  let w := snd (Program.alloc ready_world) in
  heap (snd (Program.init 0%nat sample_gpu
                          (MipGenerator.programDescriptor "rgba8unorm") w))
  !! 0%nat
  = Some {| _shaderModule := Some 1%nat; _pipeline := Some 2%nat |}.
Proof.
  intros w.
  pose proof (X10_Program_init_builds_pipeline_from_its_module
                0%nat sample_gpu (plain_device 7%nat 8192)
                (MipGenerator.programDescriptor "rgba8unorm") Program.new w
                eq_refl eq_refl eq_refl eq_refl)
    as (_ & Hcell & _).
  exact Hcell.
Defined.

(** X11: [MipGenerator.init] on a [Gpu] without its device throws and
    changes nothing; on a [Gpu] with its device it creates one sampler with
    linear minification, stores it, and keeps the cached programs.  It
    creates a sampler on every call: a second [init] issues a second
    [createSampler]. *)
Theorem X11_MipGenerator_init_creates_a_sampler (gpu : Gpu) (w : World) :
  (_device gpu = None ->
   MipGenerator.init gpu w
   = (Throw (JS.Error "Rendering device is not initialized"), w))
  /\ (forall d,
         _device gpu = Some d ->
         let w' := snd (MipGenerator.init gpu w) in
         fst (MipGenerator.init gpu w) = Ok tt
         /\ MipGenerator.sampler (mipGenerator w') = Ok (next_handle w)
         /\ _programMap (mipGenerator w') = _programMap (mipGenerator w)
         /\ heap w' = heap w
         /\ commands w' = commands w ++ [CreateSampler (next_handle w) "linear"]
         /\ commands (snd (MipGenerator.init gpu w'))
            = commands w ++ [CreateSampler (next_handle w) "linear";
                             CreateSampler (S (next_handle w)) "linear"]
         /\ MipGenerator.sampler (mipGenerator (snd (MipGenerator.init gpu w')))
            = Ok (S (next_handle w))).
Proof.
  unfold MipGenerator.init, MipGenerator.this, MipGenerator.assign,
    MipGenerator.sampler, Device.createSampler, Gpu.device,
    bind, lift, fresh, emit, ret.
  split.
  - intros Hd. cbn. rewrite Hd. reflexivity.
  - intros d Hd. cbn. rewrite Hd. cbn.
    rewrite <- app_assoc. repeat split.
Qed.

Lemma X11_MipGenerator_init_creates_a_sampler_witness :
  MipGenerator.sampler (mipGenerator (snd (MipGenerator.init sample_gpu initial_world)))
  = Ok 0%nat.
Proof.
  destruct (X11_MipGenerator_init_creates_a_sampler sample_gpu initial_world)
    as [_ H].
  destruct (H (plain_device 7%nat 8192)) as (_ & Hs & _); [reflexivity |].
  exact Hs.
Defined.

End InitMore.

(** ** [generate]: failures, command sequence, cache *)

Section GenerateMore.

(** X12: the commands of a [generate] that finds its program in the cache,
    in closed form, on a texture with dimensions in range.  One encoder is
    created; then, for [k] from 0 up to the number of passes, one bind group
    that samples level [k] with the generator's sampler, and one render pass
    on level [k + 1] with the cached pipeline, that bind group and a draw of
    6 vertices; then the encoder is finished and its one command buffer is
    submitted.  Nothing else is issued and the call returns the number of
    passes. *)
Theorem X12_generate_command_sequence
        (fuel : nat) (gpu : Gpu) (d : GPUDevice) (texture : GPUTexture)
        (count : option Z) (w : World) (r : ref) (p : Program)
        (pl : GPURenderPipeline) (s : GPUSampler) :
  _device gpu = Some d ->
  _programMap (mipGenerator w) !! format texture = Some r ->
  heap w !! r = Some p -> _pipeline p = Some pl ->
  _sampler (mipGenerator w) = Some s ->
  1 <= width texture < 2 ^ 32 -> 1 <= height texture < 2 ^ 32 ->
  (32 <= fuel)%nat ->
  let n := Z.to_nat (pass_count (requested_levels texture count)
                                (width texture) (height texture) 0) in
  let encoder := next_handle w in
  let buffer := S (encoder + n) in
  MipGenerator.generate fuel gpu texture count w
  = (Ok (Z.of_nat n),
     {| next_handle := S buffer;
        commands :=
          commands w
          ++ [CreateCommandEncoder encoder "mip gen encoder"]
          ++ loop_commands texture encoder pl s (S encoder) 0 n
          ++ [Finish encoder buffer; Submit [buffer]];
        heap := heap w; mipGenerator := mipGenerator w;
        pending := pending w |}).
Proof.
  intros Hd Hhit Hp Hpl Hs Hw Hh Hfuel n encoder buffer.
  assert (Hn : (n <= fuel)%nat).
  { assert (Hle := pass_count_bound (requested_levels texture count) _ _ Hw Hh).
    subst n. lia. }
  assert (Htr := mip_trace_closed fuel (requested_levels texture count)
                                  _ _ 0 Hw Hh Hn).
  fold n in Htr.
  unfold MipGenerator.generate. unfold bind at 1.
  rewrite (getProgram_cached gpu (format texture) r w Hhit).
  unfold bind, lift, Gpu.device, Device.createCommandEncoder, Device.finish,
    Device.submit, fresh, emit, ret.
  cbn. rewrite Hd. cbn.
  fold (requested_levels texture count).
  match goal with
  | |- context [MipGenerator.generate_loop ?f ?g ?pr ?t ?e ?c ?wd ?ht ?l ?w0] =>
      rewrite (generate_loop_exact f g d pr p pl s t e c Hd Hpl wd ht l _ w0
                                   Hp Hs Htr)
  end.
  cbn. rewrite closed_trace_length.
  rewrite (last_closed_trace _ _ 0 n) by lia. cbn.
  subst buffer encoder. rewrite <- !app_assoc. cbn.
  rewrite Z.add_0_l. reflexivity.
Qed.

Lemma X12_generate_command_sequence_witness :
  let w := snd (MipGenerator.getProgram sample_gpu "rgba8unorm" ready_world) in
  fst (MipGenerator.generate 32 sample_gpu (texture_of 100%nat 4 2 "rgba8unorm")
                             None w) = Ok 2.
Proof.
  intros w.
  rewrite (X12_generate_command_sequence
             32 sample_gpu (plain_device 7%nat 8192)
             (texture_of 100%nat 4 2 "rgba8unorm") None w 0%nat
             {| _shaderModule := Some 1%nat; _pipeline := Some 2%nat |}
             2%nat 0%nat);
    try reflexivity; cbn; lia.
Defined.

(** [generate] once [getProgram] has returned: the encoder, the loop, and
    after a loop that ends normally the finish and the submission. *)
Lemma generate_after_getProgram (fuel : nat) (gpu : Gpu) (d : GPUDevice)
      (texture : GPUTexture) (count : option Z) (w w1 : World) (r : ref) :
  MipGenerator.getProgram gpu (format texture) w = (Ok r, w1) ->
  _device gpu = Some d ->
  MipGenerator.generate fuel gpu texture count w
  = match MipGenerator.generate_loop
            fuel gpu r texture (next_handle w1)
            (requested_levels texture count) (width texture) (height texture) 0
            {| next_handle := S (next_handle w1);
               commands := commands w1
                           ++ [CreateCommandEncoder (next_handle w1)
                                                    "mip gen encoder"];
               heap := heap w1; mipGenerator := mipGenerator w1;
               pending := pending w1 |}
    with
    | (Ok final, w2) =>
        (Ok (snd final),
         {| next_handle := S (next_handle w2);
            commands := commands w2
                        ++ [Finish (next_handle w1) (next_handle w2);
                            Submit [next_handle w2]];
            heap := heap w2; mipGenerator := mipGenerator w2;
            pending := pending w2 |})
    | (Throw e, w2) => (Throw e, w2)
    | (OutOfFuel, w2) => (OutOfFuel, w2)
    end.
Proof.
  intros Hget Hd.
  unfold MipGenerator.generate. unfold bind at 1. rewrite Hget.
  unfold bind, lift, Gpu.device, Device.createCommandEncoder, Device.finish,
    Device.submit, fresh, emit, ret.
  cbn. rewrite Hd. cbn.
  fold (requested_levels texture count).
  match goal with
  | |- context [MipGenerator.generate_loop ?f ?g ?pr ?t ?e ?c ?wd ?ht ?l ?w0] =>
      set (run := MipGenerator.generate_loop f g pr t e c wd ht l w0)
  end.
  repeat match goal with
  | |- context [MipGenerator.generate_loop ?f ?g ?pr ?t ?e ?c ?wd ?ht ?l ?w0] =>
      change (MipGenerator.generate_loop f g pr t e c wd ht l w0) with run
  end.
  destruct run as [[final | e0 |] w2]; cbn; try reflexivity.
  rewrite <- app_assoc. reflexivity.
Qed.

Lemma getBindGroup_without_sampler (gpu : Gpu) (d : GPUDevice) (program : ref)
      (p : Program) (pl : GPURenderPipeline) (texture : GPUTexture) (l : Z)
      (w : World) :
  _device gpu = Some d -> heap w !! program = Some p -> _pipeline p = Some pl ->
  _sampler (mipGenerator w) = None ->
  MipGenerator.getBindGroup gpu program texture l w
  = (Throw (JS.Error "MipGenerator is not initialized"), w).
Proof.
  intros Hd Hp Hpl Hs.
  unfold MipGenerator.getBindGroup, Program.read, MipGenerator.this,
    Gpu.device, Program.pipeline, MipGenerator.sampler, bind, lift, ret.
  cbn. rewrite Hd. cbn. rewrite Hp. cbn. rewrite Hpl, Hs. reflexivity.
Qed.

(** X13: [generate] on a mip generator that was never initialised.  When
    the loop has at least one iteration to make, the call throws
    [Error('MipGenerator is not initialized')] from the first bind group:
    by then the program of the format is compiled and cached, and no pass
    is begun and nothing is submitted.  When the loop has none to make, the
    call needs no sampler and returns 0. *)
Theorem X13_generate_without_sampler
        (fuel : nat) (gpu : Gpu) (d : GPUDevice) (texture : GPUTexture)
        (count : option Z) (w : World) :
  cache_wf w -> _device gpu = Some d ->
  _sampler (mipGenerator w) = None ->
  buildable d (format texture) ->
  let w' := snd (MipGenerator.generate (S fuel) gpu texture count w) in
  (MipGenerator.continues (requested_levels texture count)
                          (width texture) (height texture) 0 = true ->
   fst (MipGenerator.generate (S fuel) gpu texture count w)
   = Throw (JS.Error "MipGenerator is not initialized")
   /\ is_Some (_programMap (mipGenerator w') !! format texture)
   /\ rendered_levels (commands w') = rendered_levels (commands w)
   /\ submissions (commands w') = submissions (commands w))
  /\ (MipGenerator.continues (requested_levels texture count)
                             (width texture) (height texture) 0 = false ->
      fst (MipGenerator.generate (S fuel) gpu texture count w) = Ok 0
      /\ submissions (commands w') = S (submissions (commands w))).
Proof.
  intros Hwf Hd Hs Hb.
  destruct (getProgram_run gpu d (format texture) w Hwf Hd Hb)
    as (r & w1 & cs1 & Hget & Hcs1 & Hr1 & _ & Hsub1 & _ & Hsam & (p & Hp & [pl Hpl])).
  assert (Hentry := getProgram_ok_entry gpu (format texture) r w w1 Hget).
  assert (Hunfold := generate_after_getProgram (S fuel) gpu d texture count
                                               w w1 r Hget Hd).
  cbn [MipGenerator.generate_loop] in Hunfold.
  split; intros Hc; rewrite Hc in Hunfold.
  - unfold bind at 1 in Hunfold.
    rewrite (getBindGroup_without_sampler gpu d r p pl) in Hunfold;
      [| exact Hd | exact Hp | exact Hpl | cbn; rewrite Hsam; exact Hs].
    rewrite Hunfold. cbn.
    split; [reflexivity |]. split; [eexists; exact Hentry |].
    rewrite Hcs1, !rendered_levels_app, !submissions_app, Hr1, Hsub1. cbn.
    rewrite !app_nil_r. split; [reflexivity | lia].
  - cbn in Hunfold. rewrite Hunfold. cbn. split; [reflexivity |].
    rewrite Hcs1, !submissions_app, Hsub1. cbn. lia.
Qed.

Lemma X13_generate_without_sampler_witness :
  fst (MipGenerator.generate 1 sample_gpu (texture_of 100%nat 8 8 "rgba8unorm")
                             None initial_world)
  = Throw (JS.Error "MipGenerator is not initialized")
  /\ fst (MipGenerator.generate 1 sample_gpu (texture_of 100%nat 1 1 "rgba8unorm")
                                None initial_world) = Ok 0.
Proof.
  split.
  - pose proof (X13_generate_without_sampler
                  0 sample_gpu (plain_device 7%nat 8192)
                  (texture_of 100%nat 8 8 "rgba8unorm") None initial_world
                  (cache_wf_empty initial_world eq_refl) eq_refl eq_refl
                  (conj eq_refl eq_refl)) as [H _].
    apply H. reflexivity.
  - pose proof (X13_generate_without_sampler
                  0 sample_gpu (plain_device 7%nat 8192)
                  (texture_of 100%nat 1 1 "rgba8unorm") None initial_world
                  (cache_wf_empty initial_world eq_refl) eq_refl eq_refl
                  (conj eq_refl eq_refl)) as [_ H].
    apply H. reflexivity.
Defined.

(** X14: on a [Gpu] without its device, [getProgram] for a format that is
    not cached and [generate] for any texture throw the error of the device
    accessor; no command is issued and the mip generator, with its cache,
    is unchanged.  A cached format is still returned by [getProgram], which
    then does not look at the [Gpu] at all. *)
Theorem X14_generate_without_device
        (fuel : nat) (gpu : Gpu) (texture : GPUTexture) (count : option Z)
        (w : World) :
  _device gpu = None ->
  let w' := snd (MipGenerator.generate fuel gpu texture count w) in
  fst (MipGenerator.generate fuel gpu texture count w)
  = Throw (JS.Error "Rendering device is not initialized")
  /\ commands w' = commands w
  /\ mipGenerator w' = mipGenerator w
  /\ (_programMap (mipGenerator w) !! format texture = None ->
      fst (MipGenerator.getProgram gpu (format texture) w)
      = Throw (JS.Error "Rendering device is not initialized"))
  /\ (forall r, _programMap (mipGenerator w) !! format texture = Some r ->
                MipGenerator.getProgram gpu (format texture) w = (Ok r, w)).
Proof.
  intros Hd.
  unfold MipGenerator.generate, MipGenerator.getProgram, Program.init,
    Program.alloc, Program.update, Device.createShaderModule,
    Device.createRenderPipeline, Device.createCommandEncoder,
    MipGenerator.this, MipGenerator.assign, Gpu.device,
    bind, lift, fresh, emit, ret.
  cbn. destruct (_programMap (mipGenerator w) !! format texture) as [r |];
    cbn; rewrite Hd; cbn.
  - repeat split; [discriminate |]. intros r' [= <-]. reflexivity.
  - repeat split. discriminate.
Qed.

Lemma X14_generate_without_device_witness :
  fst (MipGenerator.generate 32 (Gpu.new "g") (texture_of 100%nat 8 8 "rgba8unorm")
                             None ready_world)
  = Throw (JS.Error "Rendering device is not initialized").
Proof.
  pose proof (X14_generate_without_device
                32 (Gpu.new "g") (texture_of 100%nat 8 8 "rgba8unorm") None
                ready_world eq_refl) as (H & _).
  exact H.
Defined.

(** X15: the loop of [generate] ends for every width, height and level
    count, zero, negative and out-of-range values included: on a device
    that builds the program, with a sampler in place, [generate] returns
    normally once it is given enough fuel. *)
Theorem X15_generate_always_returns
        (gpu : Gpu) (d : GPUDevice) (texture : GPUTexture) (count : option Z)
        (w : World) :
  cache_wf w -> _device gpu = Some d ->
  is_Some (_sampler (mipGenerator w)) ->
  buildable d (format texture) ->
  exists n, forall fuel, (n <= fuel)%nat ->
    exists v w', MipGenerator.generate fuel gpu texture count w = (Ok v, w').
Proof. exact (generate_terminates gpu d texture count w). Qed.

Lemma X15_generate_always_returns_witness :
  exists n, forall fuel, (n <= fuel)%nat ->
    exists v w',
      MipGenerator.generate fuel sample_gpu
                            (texture_of 100%nat (-5) (2 ^ 40) "rgba8unorm")
                            (Some (-3)) ready_world = (Ok v, w').
Proof.
  apply (X15_generate_always_returns sample_gpu (plain_device 7%nat 8192)).
  - apply cache_wf_empty. reflexivity.
  - reflexivity.
  - eexists. reflexivity.
  - split; reflexivity.
Defined.

End GenerateMore.

(** ** [generate] and the cache *)

Section GenerateCache.

Ltac run_getProgram' :=
  unfold MipGenerator.getProgram, Program.init, Program.alloc,
    Program.update, Device.createShaderModule, Device.createRenderPipeline,
    MipGenerator.this, MipGenerator.assign, Gpu.device,
    bind, lift, fresh, emit, ret;
  cbn.

(** What [getProgram] can change of the mip generator: the entry of the
    format it was asked for, and nothing else. *)
Lemma getProgram_effect (gpu : Gpu) (f : GPUTextureFormat) (w : World) :
  let w' := snd (MipGenerator.getProgram gpu f w) in
  _sampler (mipGenerator w') = _sampler (mipGenerator w)
  /\ (forall f0, f0 <> f ->
                 _programMap (mipGenerator w') !! f0
                 = _programMap (mipGenerator w) !! f0)
  /\ (_programMap (mipGenerator w) !! f = None ->
      forall r, _programMap (mipGenerator w') !! f = Some r -> r = length (heap w)).
Proof.
  run_getProgram'.
  destruct (_programMap (mipGenerator w) !! f) as [r' |] eqn:Hf.
  - cbn. split; [reflexivity |]. split; [reflexivity |].
    intros Hn. discriminate Hn.
  - cbn. destruct (_device gpu) as [d |]; cbn;
      [| split; [reflexivity | split; [reflexivity | intros _ r Hr; unfold ref in *; rewrite Hf in Hr; discriminate Hr]]].
    destruct (createShaderModule_throws d _); cbn;
      [split; [reflexivity | split; [reflexivity | intros _ r Hr; unfold ref in *; rewrite Hf in Hr; discriminate Hr]] |].
    destruct (createRenderPipeline_throws d f); cbn;
      [split; [reflexivity | split; [reflexivity | intros _ r Hr; unfold ref in *; rewrite Hf in Hr; discriminate Hr]] |].
    split; [reflexivity |]. split.
    + intros f0 Hne. apply lookup_insert_ne. congruence.
    + intros _ r Hr. rewrite lookup_insert_eq in Hr. congruence.
Qed.

Lemma generate_tail_frame (fuel : nat) (gpu : Gpu) (texture : GPUTexture)
      (count : option Z) (w : World) :
  mipGenerator (snd (MipGenerator.generate fuel gpu texture count w))
  = mipGenerator (snd (MipGenerator.getProgram gpu (format texture) w)).
Proof.
  unfold MipGenerator.generate. unfold bind at 1.
  destruct (MipGenerator.getProgram gpu (format texture) w)
    as [[program | e |] w1]; cbn [snd]; try reflexivity.
  match goal with
  | |- mipGenerator (snd (?c w1)) = _ =>
      assert (Hframe : mip_frame c)
  end.
  { cbn beta zeta.
    repeat (apply frame_bind; [| intros ?]);
      auto using frame_ret, frame_lift, frame_fresh, frame_emit,
        frame_createCommandEncoder, frame_generate_loop, frame_finish,
        frame_submit. }
  apply Hframe.
Qed.

(** X16: whatever its arguments and however it ends, [generate] leaves the
    sampler and the cache entries of all other formats as they are and
    keeps an entry its own format already had; an entry that appears for
    its format is the program allocated by this call. *)
Theorem X16_generate_touches_only_its_format
        (fuel : nat) (gpu : Gpu) (texture : GPUTexture) (count : option Z)
        (w : World) :
  let w' := snd (MipGenerator.generate fuel gpu texture count w) in
  _sampler (mipGenerator w') = _sampler (mipGenerator w)
  /\ (forall f, f <> format texture ->
                _programMap (mipGenerator w') !! f
                = _programMap (mipGenerator w) !! f)
  /\ (forall r, _programMap (mipGenerator w) !! format texture = Some r ->
                _programMap (mipGenerator w') !! format texture = Some r)
  /\ (_programMap (mipGenerator w) !! format texture = None ->
      forall r, _programMap (mipGenerator w') !! format texture = Some r ->
                r = length (heap w)).
Proof.
  cbn zeta. rewrite generate_tail_frame.
  destruct (getProgram_effect gpu (format texture) w) as (Hs & Hother & Hnew).
  split; [exact Hs |]. split; [exact Hother |]. split; [| exact Hnew].
  intros r Hr. apply getProgram_keeps. exact Hr.
Qed.

Lemma cn_bind {A B} (c : M A) (k : A -> M B) :
  compiles_nothing c -> (forall a, compiles_nothing (k a)) ->
  compiles_nothing (bind c k).
Proof.
  intros Hc Hk w. unfold bind. specialize (Hc w).
  destruct (c w) as [[a | e |] w1]; cbn in *; try exact Hc.
  rewrite (Hk a w1). exact Hc.
Qed.

Lemma cn_pure {A} (c : M A) :
  (forall w, commands (snd (c w)) = commands w) -> compiles_nothing c.
Proof. intros H w. rewrite H. reflexivity. Qed.

Lemma cn_emit (c : Command) : compilations [c] = O -> compiles_nothing (emit c).
Proof.
  intros Hc w. cbn. rewrite compilations_app, Hc. lia.
Qed.

Ltac compiles_nothing_tac :=
  repeat (apply cn_bind; [| intros ?]);
  try (apply cn_emit; reflexivity);
  try (apply cn_pure; intros ?; reflexivity).

Lemma cn_getBindGroup gpu program texture l :
  compiles_nothing (MipGenerator.getBindGroup gpu program texture l).
Proof.
  unfold MipGenerator.getBindGroup, Device.createBindGroup. compiles_nothing_tac.
Qed.

Lemma cn_renderMipmap encoder program desc bg :
  compiles_nothing (MipGenerator.renderMipmap encoder program desc bg).
Proof. unfold MipGenerator.renderMipmap. compiles_nothing_tac. Qed.

Lemma cn_generate_loop (fuel : nat) gpu program texture encoder count :
  forall width height l,
    compiles_nothing (MipGenerator.generate_loop fuel gpu program texture encoder
                                                 count width height l).
Proof.
  induction fuel as [| fuel IH]; intros width height l;
    cbn [MipGenerator.generate_loop];
    destruct (MipGenerator.continues count width height l);
    try (apply cn_pure; intros ?; reflexivity).
  apply cn_bind; [apply cn_getBindGroup | intros ?].
  apply cn_bind; [apply cn_renderMipmap | intros ?].
  apply IH.
Qed.

(** A [generate] that finds its program in the cache compiles nothing,
    however it ends. *)
Lemma generate_hit_compiles_nothing (fuel : nat) (gpu : Gpu)
      (texture : GPUTexture) (count : option Z) (w : World) (r : ref) :
  _programMap (mipGenerator w) !! format texture = Some r ->
  compilations (commands (snd (MipGenerator.generate fuel gpu texture count w)))
  = compilations (commands w).
Proof.
  intros Hhit. unfold MipGenerator.generate. unfold bind at 1.
  rewrite (getProgram_cached gpu (format texture) r w Hhit).
  match goal with
  | |- compilations (commands (snd (?c w))) = _ =>
      assert (Hcn : compiles_nothing c)
  end.
  { cbn beta zeta.
    unfold Device.createCommandEncoder, Device.finish, Device.submit.
    repeat (apply cn_bind; [| intros ?]);
      try (apply cn_emit; reflexivity);
      try (apply cn_pure; intros ?; reflexivity).
    apply cn_generate_loop. }
  apply Hcn.
Qed.

(** X17: the program of a format is compiled once.  After a [generate]
    that returned normally, the format of its texture is cached, and every
    later [generate] on a texture of that format, with whatever [Gpu],
    level count and dimensions and however it ends, compiles no shader
    module and no pipeline. *)
Theorem X17_generate_compiles_a_format_once
        (fuel : nat) (gpu : Gpu) (texture : GPUTexture) (count : option Z)
        (n : Z) (w w1 : World) :
  MipGenerator.generate fuel gpu texture count w = (Ok n, w1) ->
  is_Some (_programMap (mipGenerator w1) !! format texture)
  /\ forall fuel' gpu' texture' count',
      format texture' = format texture ->
      compilations
        (commands (snd (MipGenerator.generate fuel' gpu' texture' count' w1)))
      = compilations (commands w1).
Proof.
  intros Hrun.
  assert (Hcached : is_Some (_programMap (mipGenerator w1) !! format texture)).
  { assert (Hframe := generate_tail_frame fuel gpu texture count w).
    rewrite Hrun in Hframe. cbn [snd] in Hframe. rewrite Hframe.
    unfold MipGenerator.generate in Hrun. unfold bind at 1 in Hrun.
    destruct (MipGenerator.getProgram gpu (format texture) w)
      as [[r | e |] w0] eqn:Hget; try discriminate.
    cbn [snd]. eexists. exact (getProgram_ok_entry _ _ _ _ _ Hget). }
  split; [exact Hcached |].
  intros fuel' gpu' texture' count' Hf.
  destruct Hcached as [r Hr]. rewrite <- Hf in Hr.
  exact (generate_hit_compiles_nothing fuel' gpu' texture' count' w1 r Hr).
Qed.

Lemma X17_generate_compiles_a_format_once_witness :
  compilations
    (commands
       (snd (MipGenerator.generate
               32 sample_gpu (texture_of 101%nat 64 16 "rgba8unorm") (Some 2)
               (snd (MipGenerator.generate
                       32 sample_gpu (texture_of 100%nat 8 8 "rgba8unorm")
                       None ready_world)))))
  = compilations
      (commands (snd (MipGenerator.generate
                        32 sample_gpu (texture_of 100%nat 8 8 "rgba8unorm")
                        None ready_world))).
Proof.
  assert (Hrun : MipGenerator.generate
                   32 sample_gpu (texture_of 100%nat 8 8 "rgba8unorm")
                   None ready_world
                 = (Ok 3,
                    snd (MipGenerator.generate
                           32 sample_gpu (texture_of 100%nat 8 8 "rgba8unorm")
                           None ready_world)))
    by (vm_compute; reflexivity).
  destruct (X17_generate_compiles_a_format_once _ _ _ _ _ _ _ Hrun) as [_ H].
  apply H. reflexivity.
Defined.

End GenerateCache.

(** ** [countMipLevels] on any number of dimensions *)

Section LevelCountMore.

(** X18: [countMipLevels] takes any number of dimensions and depends on
    their maximum only: the order of the dimensions does not matter.  It is
    0 for no dimension at all and when the greatest dimension is not
    positive, and between 1 and 32 when the greatest dimension is a texture
    dimension. *)
Theorem X18_countMipLevels_any_dimensions :
  MipGenerator.countMipLevels [] = 0
  /\ (forall sizes sizes',
         Permutation sizes sizes' ->
         MipGenerator.countMipLevels sizes = MipGenerator.countMipLevels sizes')
  /\ (forall sizes m,
         In m sizes -> Forall (fun y => y <= m) sizes ->
         MipGenerator.countMipLevels sizes = MipGenerator.countMipLevels [m]
         /\ (m <= 0 -> MipGenerator.countMipLevels sizes = 0)
         /\ (0 < m < 2 ^ 32 -> 1 <= MipGenerator.countMipLevels sizes <= 32)).
Proof.
  split; [reflexivity |].
  assert (Hmax : forall sizes m,
             In m sizes -> Forall (fun y => y <= m) sizes ->
             MipGenerator.countMipLevels sizes = MipGenerator.countMipLevels [m]).
  { intros sizes m Hin Hub.
    assert (Hm : JS.Math_max sizes = Some m) by (apply Math_max_spec; split; assumption).
    unfold MipGenerator.countMipLevels. rewrite Hm. reflexivity. }
  split.
  - intros sizes sizes' Hperm.
    destruct (JS.Math_max sizes) as [m |] eqn:Hm.
    + apply Math_max_spec in Hm as [Hin Hub].
      rewrite (Hmax sizes m Hin Hub).
      symmetry. apply Hmax.
      * apply (Permutation_in _ Hperm). exact Hin.
      * apply (Permutation_Forall Hperm). exact Hub.
    + destruct sizes as [| x rest]; [| discriminate].
      apply Permutation_nil in Hperm. subst sizes'. reflexivity.
  - intros sizes m Hin Hub.
    rewrite (Hmax sizes m Hin Hub).
    split; [reflexivity |]. split.
    + intros Hle. unfold MipGenerator.countMipLevels. cbn [JS.Math_max fold_left].
      destruct (Z.leb_spec m 0); [reflexivity | lia].
    + intros Hm. rewrite (countMipLevels_log2 [m] m); [| reflexivity | exact Hm].
      assert (0 <= Z.log2 m) by apply Z.log2_nonneg.
      assert (Z.log2 m < 32) by (apply Z.log2_lt_pow2; lia).
      lia.
Qed.

Lemma X18_countMipLevels_any_dimensions_witness :
  MipGenerator.countMipLevels [4; 300; 16] = MipGenerator.countMipLevels [300; 16; 4]
  /\ MipGenerator.countMipLevels [4; 300; 16] = MipGenerator.countMipLevels [300].
Proof.
  destruct X18_countMipLevels_any_dimensions as (_ & Hperm & Hmax).
  split.
  - apply Hperm.
    apply Permutation_trans with [300; 4; 16]; [apply perm_swap |].
    apply perm_skip. apply perm_swap.
  - apply (Hmax [4; 300; 16] 300).
    + right. left. reflexivity.
    + repeat constructor; lia.
Defined.

(** X19: one halving of the dimensions, as an iteration of the loop of
    [generate] makes it, lowers the level count by exactly one, as long as
    a dimension is above 1: the loop variables after [k] iterations have the
    level count of the texture minus [k]. *)
Theorem X19_halving_drops_one_level (w h : Z) :
  1 <= w < 2 ^ 32 -> 1 <= h < 2 ^ 32 -> 1 < Z.max w h ->
  MipGenerator.countMipLevels [Z.max 1 (JS.half w); Z.max 1 (JS.half h)]
  = MipGenerator.countMipLevels [w; h] - 1.
Proof.
  intros Hw Hh Hbig.
  rewrite !halved_div by lia.
  assert (Hhalf : Z.max (Z.max 1 (w / 2)) (Z.max 1 (h / 2))
                  = Z.max 1 (Z.max w h / 2)).
  { destruct (Z.max_spec w h) as [[Hlt ->] | [Hle ->]].
    - assert (w / 2 <= h / 2) by (apply Z.div_le_mono; lia). lia.
    - assert (h / 2 <= w / 2) by (apply Z.div_le_mono; lia). lia. }
  assert (Hrange : 1 <= Z.max 1 (Z.max w h / 2) < 2 ^ 32).
  { assert (Z.max w h / 2 <= Z.max w h) by (apply Z.div_le_upper_bound; lia).
    lia. }
  rewrite (countMipLevels_log2 [Z.max 1 (w / 2); Z.max 1 (h / 2)]
                               (Z.max 1 (Z.max w h / 2)));
    [| cbn; f_equal; exact Hhalf | lia].
  rewrite (countMipLevels_log2 [w; h] (Z.max w h)); [| reflexivity | lia].
  rewrite log2_halved by lia.
  assert (0 < Z.log2 (Z.max w h)) by (apply Z.log2_pos; lia).
  lia.
Qed.

Lemma X19_halving_drops_one_level_witness :
  MipGenerator.countMipLevels [Z.max 1 (JS.half 300); Z.max 1 (JS.half 1)]
  = MipGenerator.countMipLevels [300; 1] - 1.
Proof.
  apply X19_halving_drops_one_level; lia.
Defined.

End LevelCountMore.

(** ** Texture Factory and Engine *)

Section FactoryMore.

(** X20: the factory and the generation it starts, together.  For a texture
    with dimensions in range, created in a world with nothing pending, on a
    device that builds the program and with the generator initialised, the
    pending call makes one pass on each of the levels 1 up to
    [mipLevelCount - 1] of the new texture, in order, returns
    [mipLevelCount - 1] and submits once: every level the texture was
    allocated with is written and no level beyond them. *)
Theorem X20_factory_fills_every_level
        (fuel : nat) (options : CreateTextureOptions) (d : GPUDevice) (w : World) :
  cache_wf w -> _device (options_gpu options) = Some d ->
  is_Some (_sampler (mipGenerator w)) ->
  buildable d (options_format options) ->
  1 <= fst (size options) < 2 ^ 32 -> 1 <= snd (size options) < 2 ^ 32 ->
  pending w = [] -> (32 <= fuel)%nat ->
  let texture := created_texture options w in
  let w1 := snd (TextureLoader.createTexture options w) in
  exists w2 cs,
    TextureLoader.run_pending fuel w1
    = (Ok (Some (Ok (mipLevelCount texture - 1))), w2)
    /\ commands w2 = commands w1 ++ cs
    /\ rendered_levels cs
       = map (fun k => Z.of_nat k) (seq 1 (Z.to_nat (mipLevelCount texture - 1)))
    /\ Forall (fun l => 1 <= l < mipLevelCount texture) (rendered_levels cs)
    /\ submissions cs = 1%nat.
Proof.
  intros Hwf Hd [s Hs] Hb Hw Hh Hpend Hfuel texture w1.
  assert (Hcount : mipLevelCount texture
                   = 1 + Z.log2 (Z.max (fst (size options)) (snd (size options)))).
  { subst texture. cbn [mipLevelCount created_texture].
    apply countMipLevels_log2; [reflexivity | lia]. }
  assert (Hlog : 0 <= Z.log2 (Z.max (fst (size options)) (snd (size options))))
    by apply Z.log2_nonneg.
  assert (Htruthy : JS.truthy_int (mipLevelCount texture) = true).
  { unfold JS.truthy_int. destruct (Z.eqb_spec (mipLevelCount texture) 0);
      [lia | reflexivity]. }
  assert (Hn : pass_count (requested_levels texture None)
                          (width texture) (height texture) 0
               = mipLevelCount texture - 1).
  { cbn [requested_levels]. subst texture.
    cbn [width height mipLevelCount created_texture] in *.
    rewrite Hcount, pass_count_default by lia. lia. }
  subst w1. rewrite (createTexture_run options d w Hd). cbn [snd].
  fold texture. rewrite Htruthy.
  set (w0 := after_copy options w).
  assert (Hsettle := started_generate_settles fuel (options_gpu options) texture
                                              None w0 Hpend).
  unfold bind in Hsettle.
  destruct (generate_start_returns (options_gpu options) texture None w0)
    as [Hok _].
  assert (Hcmd := generate_start_commands (options_gpu options) texture None w0).
  destruct (MipGenerator.generate_start (options_gpu options) texture None w0)
    as [o w1]. cbn [fst snd] in *. subst o.
  rewrite Hsettle.
  destruct (generate_exact fuel (options_gpu options) d texture None w0 s)
    as (r & pl & wg & Hget & _ & _ & _ & Hrun); try assumption.
  rewrite Hget in Hcmd. cbn [snd] in Hcmd.
  rewrite Hrun, Hn. rewrite Z2Nat.id by lia.
  destruct (generate_commands_levels
              texture (next_handle wg) pl s (Z.to_nat (mipLevelCount texture - 1)))
    as (Hr & _ & Hsub & _).
  do 2 eexists. split; [reflexivity |].
  split; [cbn [after_generate commands]; rewrite Hcmd; reflexivity |].
  split; [exact Hr |]. split; [| exact Hsub].
  rewrite Hr. apply List.Forall_forall. intros l Hl.
  apply in_map_iff in Hl as (k & <- & Hk). apply in_seq in Hk. lia.
Qed.

Lemma X20_factory_fills_every_level_witness :
  let options := sample_options sample_gpu 300 150 "rgba8unorm" in
  exists w2 cs,
    TextureLoader.run_pending
      32 (snd (TextureLoader.createTexture options ready_world))
    = (Ok (Some (Ok (mipLevelCount (created_texture options ready_world) - 1))), w2)
    /\ commands w2
       = commands (snd (TextureLoader.createTexture options ready_world)) ++ cs
    /\ rendered_levels cs
       = map (fun k => Z.of_nat k)
             (seq 1 (Z.to_nat (mipLevelCount (created_texture options ready_world) - 1)))
    /\ Forall (fun l => 1 <= l < mipLevelCount (created_texture options ready_world))
              (rendered_levels cs)
    /\ submissions cs = 1%nat.
Proof.
  intros options.
  apply (X20_factory_fills_every_level 32 options (plain_device 7%nat 8192)
                                       ready_world).
  - apply cache_wf_empty. reflexivity.
  - reflexivity.
  - eexists. reflexivity.
  - split; reflexivity.
  - cbn. lia.
  - cbn. lia.
  - reflexivity.
  - lia.
Defined.

Lemma loadImageBitmap_pure (globals : Globals) (url : string) (w : World) :
  snd (TextureLoader.loadImageBitmap globals url w) = w.
Proof.
  unfold TextureLoader.loadImageBitmap, bind, lift.
  destruct (fetch globals url) as [res | e |]; cbn; try reflexivity.
  destruct (response_blob globals res) as [blob | e |]; cbn; reflexivity.
Qed.

(** X21: the ways the factory throws.  [createTexture] on a [Gpu] without
    its device throws the error of the device accessor and leaves the world
    as it is.  [loadTexture] passes on the rejection of whichever loading
    step rejects ([fetch], [blob] or [createImageBitmap]) and then creates
    nothing, whatever the state of the [Gpu]; with a loaded image and a
    [Gpu] without its device it throws like [createTexture]. *)
Theorem X21_factory_failures
        (globals : Globals) (options : CreateTextureOptions) (gpu : Gpu)
        (url : string) (w : World) :
  (_device (options_gpu options) = None ->
   TextureLoader.createTexture options w
   = (Throw (JS.Error "Rendering device is not initialized"), w))
  /\ (forall e, fetch globals url = Throw e ->
                TextureLoader.loadTexture globals gpu url w = (Throw e, w))
  /\ (forall res e, fetch globals url = Ok res ->
                    response_blob globals res = Throw e ->
                    TextureLoader.loadTexture globals gpu url w = (Throw e, w))
  /\ (forall res blob e, fetch globals url = Ok res ->
                         response_blob globals res = Ok blob ->
                         createImageBitmap globals blob "none" = Throw e ->
                         TextureLoader.loadTexture globals gpu url w = (Throw e, w))
  /\ (forall b, fst (TextureLoader.loadImageBitmap globals url w) = Ok b ->
                _device gpu = None ->
                TextureLoader.loadTexture globals gpu url w
                = (Throw (JS.Error "Rendering device is not initialized"), w)).
Proof.
  split; [| split; [| split; [| split]]].
  - intros Hd. unfold TextureLoader.createTexture, Gpu.device, bind, lift.
    rewrite Hd. reflexivity.
  - intros e He. unfold TextureLoader.loadTexture, TextureLoader.loadImageBitmap,
      bind, lift. rewrite He. reflexivity.
  - intros res e Hres He.
    unfold TextureLoader.loadTexture, TextureLoader.loadImageBitmap, bind, lift.
    rewrite Hres, He. reflexivity.
  - intros res blob e Hres Hblob He.
    unfold TextureLoader.loadTexture, TextureLoader.loadImageBitmap, bind, lift.
    rewrite Hres, Hblob, He. reflexivity.
  - intros b Hb Hd.
    assert (Hw := loadImageBitmap_pure globals url w).
    unfold TextureLoader.loadTexture. unfold bind at 1.
    destruct (TextureLoader.loadImageBitmap globals url w) as [o w0].
    cbn in Hb, Hw. subst o w0.
    unfold TextureLoader.createTexture, Gpu.device, bind, lift. cbn.
    rewrite Hd. reflexivity.
Qed.

Lemma X21_factory_failures_witness :
  TextureLoader.loadTexture (offline_globals refusal) sample_gpu "a.png" ready_world
  = (Throw refusal, ready_world)
  /\ TextureLoader.createTexture (sample_options (Gpu.new "g") 4 4 "rgba8unorm")
                                 ready_world
     = (Throw (JS.Error "Rendering device is not initialized"), ready_world).
Proof.
  destruct (X21_factory_failures
              (offline_globals refusal)
              (sample_options (Gpu.new "g") 4 4 "rgba8unorm")
              sample_gpu "a.png" ready_world)
    as (Hcreate & Hfetch & _).
  split.
  - apply Hfetch. reflexivity.
  - apply Hcreate. reflexivity.
Defined.

(** X22: a [loadTexture] whose image loads, called while no job waits, on
    a [Gpu] with a device that builds the program of [rgba8unorm] and with
    the generator initialised, for a bitmap with dimensions in range.  It
    returns a texture of format [rgba8unorm] with the dimensions of the
    bitmap, the URL as its label and the level count of those dimensions,
    after the texture was created and the whole bitmap copied, flipped,
    into level 0.  What [generate] has done by then depends on the cache,
    because [loadTexture] awaits [createTexture] and goes on behind the job
    [generate] left: with the format cached, every pass of the new texture
    is issued and submitted when [loadTexture] returns; with the format not
    cached, the program is built and stored in the cache, and the passes
    are the one job left in the queue, which the next turn runs. *)
Theorem X22_loadTexture_creates_texture_of_the_bitmap
        (fuel : nat) (globals : Globals) (gpu : Gpu) (d : GPUDevice)
        (url : string) (b : ImageBitmap) (w : World) (s : GPUSampler) :
  fst (TextureLoader.loadImageBitmap globals url w) = Ok b ->
  _device gpu = Some d -> pending w = [] ->
  _sampler (mipGenerator w) = Some s ->
  buildable d "rgba8unorm" ->
  1 <= bitmap_width b < 2 ^ 32 -> 1 <= bitmap_height b < 2 ^ 32 ->
  (32 <= fuel)%nat ->
  let options :=
    {| options_gpu := gpu; source := bitmap b; options_label := Some url;
       size := (bitmap_width b, bitmap_height b);
       options_format := "rgba8unorm" |} in
  let texture :=
    {| texture_id := next_handle w; texture_label := Some url;
       width := bitmap_width b; height := bitmap_height b;
       format := "rgba8unorm";
       mipLevelCount :=
         MipGenerator.countMipLevels [bitmap_width b; bitmap_height b];
       usage := TextureLoader.usage_flags |} in
  let n := Z.to_nat (mipLevelCount texture - 1) in
  let w' := snd (TextureLoader.loadTexture globals gpu url w) in
  fst (TextureLoader.loadTexture globals gpu url w) = Ok texture
  /\ (forall r p pl,
         _programMap (mipGenerator w) !! "rgba8unorm" = Some r ->
         heap w !! r = Some p -> _pipeline p = Some pl ->
         w' = after_generate texture pl s n (after_copy options w))
  /\ (_programMap (mipGenerator w) !! "rgba8unorm" = None ->
      w' = {| next_handle := S (S (S (next_handle w)));
              commands := commands (after_copy options w)
                          ++ build_commands "rgba8unorm" (S (next_handle w));
              heap := heap w ++ [built_program (S (next_handle w))];
              mipGenerator :=
                {| _sampler := Some s;
                   _programMap := <["rgba8unorm" := length (heap w)]>
                                    (_programMap (mipGenerator w)) |};
              pending := [ResumeGenerate gpu texture None (Ok (length (heap w)))] |}
      /\ MipGenerator.tick fuel w'
         = (Ok (Some (Ok (Z.of_nat n))),
            after_generate texture (S (S (next_handle w))) s n
                           (with_pending [] w'))).
Proof.
  intros Hb Hd Hpend Hs Hbuild Hw Hh Hfuel options texture n w'. subst w'.
  assert (Hload : TextureLoader.loadImageBitmap globals url w = (Ok b, w)).
  { assert (Hpure := loadImageBitmap_pure globals url w).
    destruct (TextureLoader.loadImageBitmap globals url w) as [o w0].
    cbn in Hb, Hpure. subst o w0. reflexivity. }
  assert (Htex : created_texture options w = texture) by reflexivity.
  destruct (count_of_positive_sizes (bitmap_width b) (bitmap_height b) Hw Hh)
    as [Hone Htruthy].
  assert (Hn : Z.to_nat (pass_count (requested_levels texture None)
                                    (width texture) (height texture) 0) = n).
  { subst n. f_equal. cbn [requested_levels width height mipLevelCount texture].
    rewrite (countMipLevels_log2 _ (Z.max (bitmap_width b) (bitmap_height b)));
      [| reflexivity | lia].
    rewrite pass_count_default by lia. lia. }
  assert (Hrun : TextureLoader.loadTexture globals gpu url w
                 = (let w1 := snd (MipGenerator.generate_start
                                     gpu texture None (after_copy options w)) in
                    match MipGenerator.await_settled MipGenerator.enough_fuel w1 with
                    | (Ok _, w2) => (Ok texture, w2)
                    | (Throw e, w2) => (Throw e, w2)
                    | (OutOfFuel, w2) => (OutOfFuel, w2)
                    end)).
  { unfold TextureLoader.loadTexture. unfold bind at 1. rewrite Hload.
    unfold bind at 1. fold options.
    rewrite (createTexture_run options d w Hd). rewrite Htex.
    cbn [mipLevelCount texture]. rewrite Htruthy.
    unfold bind, ret. cbn zeta.
    destruct (MipGenerator.await_settled _ _) as [[[] | e |] w2]; reflexivity. }
  rewrite Hrun. cbn zeta.
  destruct (_programMap (mipGenerator w) !! "rgba8unorm") as [r |] eqn:Hf.
  - (* cached: the job is the rest of generate *)
    rewrite (generate_start_hit gpu texture None r (after_copy options w))
      by exact Hf.
    cbn [snd].
    rewrite (await_settled_one
               MipGenerator.enough_fuel
               (ResumeGenerate gpu texture None (Ok r)))
      by (cbn; rewrite Hpend; reflexivity).
    rewrite run_job_resume_generate.
    assert (Heta : with_pending
                     [] (with_pending
                           (pending (after_copy options w)
                            ++ [ResumeGenerate gpu texture None (Ok r)])
                           (after_copy options w))
                   = after_copy options w).
    { unfold with_pending, after_copy. cbn. rewrite Hpend. reflexivity. }
    rewrite Heta.
    split; [| split; [| discriminate]].
    + destruct (MipGenerator.generate_resume _ _ _ _ _ _); reflexivity.
    + intros r' p pl [= <-] Hp Hpl.
      rewrite (generate_resume_exact
                 MipGenerator.enough_fuel gpu d texture None
                 (after_copy options w) r p pl s);
        try assumption; try (unfold MipGenerator.enough_fuel; lia).
      rewrite Hn. reflexivity.
  - (* not cached: the job is the rest of getProgram *)
    rewrite (generate_start_built gpu d texture None (after_copy options w))
      by assumption.
    cbn [snd].
    match goal with
    | |- context [MipGenerator.await_settled _ ?w1] =>
        rewrite (await_settled_one
                   MipGenerator.enough_fuel
                   (ResumeGetProgram gpu texture None (length (heap w)) (Ok tt))
                   w1)
          by (cbn; rewrite Hpend; reflexivity)
    end.
    rewrite run_job_resume_getProgram.
    cbn [snd with_pending next_handle commands heap mipGenerator pending
         after_copy app format texture].
    rewrite Hs.
    split; [reflexivity |]. split; [discriminate |]. intros _.
    split; [reflexivity |].
    match goal with
    | |- MipGenerator.tick fuel ?w1 = _ =>
        rewrite (tick_run fuel
                          (ResumeGenerate gpu texture None (Ok (length (heap w))))
                          [] w1 eq_refl)
    end.
    rewrite run_job_resume_generate.
    rewrite (generate_resume_exact
               fuel gpu d texture None _ (length (heap w))
               (built_program (S (next_handle w))) (S (S (next_handle w))) s);
      try assumption; try reflexivity.
    + rewrite Hn. reflexivity.
    + cbn. apply list_lookup_middle. reflexivity.
Qed.

Lemma X22_loadTexture_creates_texture_of_the_bitmap_witness :
  let w' := snd (TextureLoader.loadTexture (sample_globals 300 150) sample_gpu
                                           "a.png" ready_world) in
  (exists t,
      fst (TextureLoader.loadTexture (sample_globals 300 150) sample_gpu "a.png"
                                     ready_world) = Ok t
      /\ width t = 300 /\ height t = 150 /\ mipLevelCount t = 9)
  /\ compilations (commands w') = 2%nat
  /\ rendered_levels (commands w') = []
  /\ length (pending w') = 1%nat.
Proof.
  intros w'.
  pose proof (X22_loadTexture_creates_texture_of_the_bitmap
                32 (sample_globals 300 150) sample_gpu (plain_device 7%nat 8192)
                "a.png"
                {| bitmap := 62%nat; bitmap_width := 300; bitmap_height := 150 |}
                ready_world 0%nat eq_refl eq_refl eq_refl eq_refl
                (conj eq_refl eq_refl))
    as H.
  destruct H as (Hret & _ & Hmiss); try (cbn; lia).
  destruct (Hmiss eq_refl) as [Hw' _].
  split.
  - eexists. split; [exact Hret |]. repeat split.
  - subst w'. rewrite Hw'. repeat split.
Defined.

(** X25: [createTexture] on a [Gpu] with its device, up to its return.  The
    texture has the level count of its two dimensions, which is at least 1
    for dimensions in range, and usage flags that permit sampling,
    copy-destination and render-attachment; it is created, and the source
    is copied, flipped, into its level 0.  When the level count is not zero
    [generate] is started and has run to its first [await] by the time
    [createTexture] returns: for a format that is cached nothing more is
    issued, and the rest of [generate] waits in the queue; for a format
    that is not cached the shader module and the pipeline of the format are
    built at once (or the build has thrown, which the caller does not
    see), and the rest of [getProgram], which will store the program,
    waits in the queue.  The cache is as it was, and no pass is begun and
    nothing submitted before the return. *)
Theorem X25_createTexture_up_to_its_return
        (options : CreateTextureOptions) (d : GPUDevice) (w : World) :
  _device (options_gpu options) = Some d ->
  let gpu := options_gpu options in
  let f := options_format options in
  let texture := created_texture options w in
  let w' := snd (TextureLoader.createTexture options w) in
  fst (TextureLoader.createTexture options w) = Ok texture
  /\ mipLevelCount texture
     = MipGenerator.countMipLevels [fst (size options); snd (size options)]
  /\ (1 <= fst (size options) < 2 ^ 32 -> 1 <= snd (size options) < 2 ^ 32 ->
      1 <= mipLevelCount texture)
  /\ (GPUTextureUsage.permits (usage texture) GPUTextureUsage.TEXTURE_BINDING = true
      /\ GPUTextureUsage.permits (usage texture) GPUTextureUsage.COPY_DST = true
      /\ GPUTextureUsage.permits (usage texture)
                                 GPUTextureUsage.RENDER_ATTACHMENT = true)
  /\ mipGenerator w' = mipGenerator w
  /\ (mipLevelCount texture = 0 -> w' = after_copy options w)
  /\ (mipLevelCount texture <> 0 ->
      (forall r,
          _programMap (mipGenerator w) !! f = Some r ->
          w' = with_pending (pending w ++ [ResumeGenerate gpu texture None (Ok r)])
                            (after_copy options w))
      /\ (_programMap (mipGenerator w) !! f = None -> buildable d f ->
          w' = {| next_handle := S (S (S (next_handle w)));
                  commands := commands (after_copy options w)
                              ++ build_commands f (S (next_handle w));
                  heap := heap w ++ [built_program (S (next_handle w))];
                  mipGenerator := mipGenerator w;
                  pending := pending w
                             ++ [ResumeGetProgram gpu texture None
                                                  (length (heap w)) (Ok tt)] |})
      /\ (forall e,
             _programMap (mipGenerator w) !! f = None -> build_throws d f e ->
             pending w'
             = pending w
               ++ [ResumeGetProgram gpu texture None (length (heap w)) (Throw e)]))
  /\ rendered_levels (commands w') = rendered_levels (commands w)
  /\ submissions (commands w') = submissions (commands w).
Proof.
  intros Hd gpu f texture w'. subst w'.
  rewrite (createTexture_run options d w Hd). fold texture gpu.
  cbn [fst snd].
  assert (Hzero : mipLevelCount texture = 0 ->
                  JS.truthy_int (mipLevelCount texture) = false).
  { intros ->. reflexivity. }
  assert (Hnz : mipLevelCount texture <> 0 ->
                JS.truthy_int (mipLevelCount texture) = true).
  { intros Hne. unfold JS.truthy_int.
    destruct (Z.eqb_spec (mipLevelCount texture) 0); [contradiction | reflexivity]. }
  destruct (generate_start_returns gpu texture None (after_copy options w))
    as (_ & Hgen & _).
  assert (Hcopy : rendered_levels (commands (after_copy options w))
                  = rendered_levels (commands w)
                  /\ submissions (commands (after_copy options w))
                     = submissions (commands w)).
  { cbn [after_copy commands].
    rewrite rendered_levels_app, submissions_app. cbn.
    rewrite app_nil_r, Nat.add_0_r. split; reflexivity. }
  split; [reflexivity |]. split; [reflexivity |].
  split; [intros Hw Hh; apply count_of_positive_sizes; assumption |].
  split; [repeat split |].
  split; [destruct (JS.truthy_int _); [rewrite Hgen |]; reflexivity |].
  split; [intros Hz; rewrite (Hzero Hz); reflexivity |].
  split.
  - intros Hne. rewrite (Hnz Hne). split; [| split].
    + intros r Hhit.
      rewrite (generate_start_hit gpu texture None r (after_copy options w))
        by exact Hhit.
      reflexivity.
    + intros Hmiss Hb.
      rewrite (generate_start_built gpu d texture None (after_copy options w))
        by assumption.
      reflexivity.
    + intros e Hmiss He.
      destruct (generate_start_throws gpu d texture None e (after_copy options w))
        as (w1 & Hrun & _ & Hq & _); try assumption.
      rewrite Hrun. exact Hq.
  - destruct (JS.truthy_int (mipLevelCount texture)); [| exact Hcopy].
    rewrite (generate_start_commands gpu texture None (after_copy options w)).
    destruct Hcopy as [Hr Hsub]. rewrite <- Hr, <- Hsub.
    assert (Hget : exists cs,
               commands (snd (MipGenerator.getProgram
                                gpu (format texture) (after_copy options w)))
               = commands (after_copy options w) ++ cs
               /\ rendered_levels cs = [] /\ submissions cs = O).
    { unfold MipGenerator.getProgram, Program.init, Program.alloc,
        Program.update, Device.createShaderModule, Device.createRenderPipeline,
        MipGenerator.this, MipGenerator.assign, Gpu.device,
        bind, lift, fresh, emit, ret.
      cbn -[after_copy].
      destruct (_programMap _ !! _); cbn -[after_copy];
        [exists []; rewrite app_nil_r; repeat split |].
      change (_device gpu) with (_device (options_gpu options)).
      rewrite Hd. cbn -[after_copy].
      destruct (createShaderModule_throws d _); cbn -[after_copy];
        [exists []; rewrite app_nil_r; repeat split |].
      destruct (createRenderPipeline_throws d _); cbn -[after_copy].
      - eexists. split; [reflexivity |]. split; reflexivity.
      - eexists. rewrite <- app_assoc. split; [reflexivity |]. split; reflexivity. }
    destruct Hget as (cs & Hcs & Hr0 & Hs0).
    rewrite Hcs, rendered_levels_app, submissions_app, Hr0, Hs0.
    rewrite app_nil_r, Nat.add_0_r. split; reflexivity.
Qed.

Lemma X25_createTexture_up_to_its_return_witness :
  let options := sample_options sample_gpu 256 256 "rgba8unorm" in
  let w' := snd (TextureLoader.createTexture options ready_world) in
  fst (TextureLoader.createTexture options ready_world)
  = Ok (created_texture options ready_world)
  /\ mipLevelCount (created_texture options ready_world) = 9
  /\ compilations (commands w') = 2%nat
  /\ pending w'
     = [ResumeGetProgram sample_gpu (created_texture options ready_world) None
                         0%nat (Ok tt)].
Proof.
  intros options w'.
  pose proof (X25_createTexture_up_to_its_return
                options (plain_device 7%nat 8192) ready_world eq_refl)
    as (Hret & _ & _ & _ & _ & _ & Hstart & _).
  destruct Hstart as (_ & Hmiss & _); [discriminate |].
  split; [exact Hret |]. split; [reflexivity |].
  subst w'. rewrite Hmiss; [| reflexivity | split; reflexivity].
  split; reflexivity.
Defined.

(** X23: [Engine.init] initialises the device context first and the loader
    with it second.  It returns normally exactly when the adapter and the
    device are both acquired; the engine's [Gpu] is then ready and the
    loader has created its sampler.  When the device context fails, the
    engine throws its error and the loader is not touched; no canvas is
    registered either way. *)
Theorem X23_Engine_init (navigator : Navigator) (this : Engine) :
  let e' := snd (Engine.init navigator this) in
  (fst (Engine.init navigator this) = Ok tt
   <-> exists a d, Gpu.request_adapter navigator = Some a
                   /\ requestDevice a = Some d)
  /\ (fst (Engine.init navigator this) = Ok tt ->
      Gpu.ready (engine_gpu e') = true
      /\ MipGenerator.sampler (mipGenerator (texLoader e'))
         = Ok (next_handle (texLoader this))
      /\ commands (texLoader e')
         = commands (texLoader this)
           ++ [CreateSampler (next_handle (texLoader this)) "linear"])
  /\ (fst (Engine.init navigator this) <> Ok tt ->
      fst (Engine.init navigator this) = Throw no_webgpu
      /\ texLoader e' = texLoader this
      /\ Gpu.ready (engine_gpu e') = false)
  /\ surfaces e' = surfaces this
  /\ label (engine_gpu e') = label (engine_gpu this).
Proof.
  unfold Engine.init. rewrite init_outcome.
  destruct (Gpu.request_adapter navigator) as [a |] eqn:Ha.
  - destruct (requestDevice a) as [d |] eqn:Hdev; cbn.
    + unfold TextureLoader.init, MipGenerator.init, MipGenerator.this,
        MipGenerator.assign, MipGenerator.sampler, Device.createSampler,
        Gpu.device, Gpu.ready, bind, lift, fresh, emit, ret.
      cbn.
      split; [split; [intros _; exists a, d; split; [reflexivity | exact Hdev]
                     | reflexivity] |].
      split; [intros _; repeat split |].
      split; [intros H; exfalso; apply H; reflexivity |].
      split; reflexivity.
    + split; [split; [discriminate
                     | intros (a' & d' & [= <-] & Hd'); congruence] |].
      split; [discriminate |].
      split; [intros _; repeat split |].
      split; reflexivity.
  - cbn.
    split; [split; [discriminate | intros (? & ? & ? & ?); discriminate] |].
    split; [discriminate |].
    split; [intros _; repeat split |].
    split; reflexivity.
Qed.

Lemma X23_Engine_init_witness :
  Gpu.ready (engine_gpu (snd (Engine.init (browser (Some (plain_device 7%nat 8192)))
                                          (Engine.new None)))) = true
  /\ texLoader (snd (Engine.init (browser None) (Engine.new (Some "app"))))
     = initial_world.
Proof.
  split.
  - destruct (X23_Engine_init (browser (Some (plain_device 7%nat 8192)))
                              (Engine.new None)) as (_ & H & _).
    apply H. reflexivity.
  - destruct (X23_Engine_init (browser None) (Engine.new (Some "app")))
      as (_ & _ & H & _).
    apply H. discriminate.
Defined.

End FactoryMore.

(** ** [generate]: bounds on the passes *)

Section PassBounds.

(** X24: whatever level count is requested, zero and negative counts
    included, [generate] on a texture with dimensions in range never makes
    more passes than it takes both dimensions to reach 1, so it never
    renders a level at or above [countMipLevels(width, height)]; it makes
    at least the passes it takes the height to reach 1; and from a
    requested count of [countMipLevels(width, height) - 1] upwards it makes
    exactly the passes of the full chain. *)
Theorem X24_generate_pass_bounds
        (fuel : nat) (gpu : Gpu) (d : GPUDevice) (texture : GPUTexture)
        (count : option Z) (w : World) :
  cache_wf w -> _device gpu = Some d ->
  is_Some (_sampler (mipGenerator w)) ->
  buildable d (format texture) ->
  1 <= width texture < 2 ^ 32 -> 1 <= height texture < 2 ^ 32 ->
  (32 <= fuel)%nat ->
  let full := MipGenerator.countMipLevels [width texture; height texture] - 1 in
  exists n w' cs,
    MipGenerator.generate fuel gpu texture count w = (Ok n, w')
    /\ commands w' = commands w ++ cs
    /\ Z.log2 (height texture) <= n <= full
    /\ Forall (fun l => 1 <= l <= full) (rendered_levels cs)
    /\ length (rendered_levels cs) = Z.to_nat n
    /\ (full <= requested_levels texture count -> n = full).
Proof.
  intros Hwf Hd Hs Hb Hw Hh Hfuel full.
  destruct (generate_closed fuel gpu d texture count w Hwf Hd Hs Hb Hw Hh Hfuel)
    as (w' & cs & Hrun & Hcs & Hr & _).
  assert (Hfull : full = Z.log2 (Z.max (width texture) (height texture))).
  { subst full.
    rewrite (countMipLevels_log2 _ (Z.max (width texture) (height texture)));
      [lia | reflexivity | lia]. }
  assert (Hlw : Z.log2 (width texture) <= full)
    by (rewrite Hfull; apply Z.log2_le_mono; lia).
  assert (Hlh : Z.log2 (height texture) <= full)
    by (rewrite Hfull; apply Z.log2_le_mono; lia).
  assert (Hmax : full = Z.max (Z.log2 (width texture)) (Z.log2 (height texture))).
  { rewrite Hfull.
    destruct (Z.max_spec (width texture) (height texture)) as [[Hlt ->] | [Hle ->]].
    - assert (Z.log2 (width texture) <= Z.log2 (height texture))
        by (apply Z.log2_le_mono; lia). lia.
    - assert (Z.log2 (height texture) <= Z.log2 (width texture))
        by (apply Z.log2_le_mono; lia). lia. }
  assert (H0 : 0 <= Z.log2 (height texture)) by apply Z.log2_nonneg.
  set (n := pass_count (requested_levels texture count)
                       (width texture) (height texture) 0) in *.
  assert (Hn : Z.log2 (height texture) <= n <= full
               /\ (full <= requested_levels texture count -> n = full)).
  { subst n. unfold pass_count. lia. }
  exists n, w', cs.
  split; [exact Hrun |]. split; [exact Hcs |]. split; [apply Hn |].
  split; [| split; [| apply Hn]].
  - rewrite Hr. apply List.Forall_forall. intros l Hl.
    apply in_map_iff in Hl as (k & <- & Hk). apply in_seq in Hk. lia.
  - rewrite Hr, length_map, length_seq. reflexivity.
Qed.

Lemma X24_generate_pass_bounds_witness :
  exists n w' cs,
    MipGenerator.generate 32 sample_gpu (texture_of 100%nat 64 4 "rgba8unorm")
                          (Some (-1)) ready_world = (Ok n, w')
    /\ commands w' = commands ready_world ++ cs
    /\ Z.log2 4 <= n <= MipGenerator.countMipLevels [64; 4] - 1
    /\ Forall (fun l => 1 <= l <= MipGenerator.countMipLevels [64; 4] - 1)
              (rendered_levels cs)
    /\ length (rendered_levels cs) = Z.to_nat n
    /\ (MipGenerator.countMipLevels [64; 4] - 1 <= -1
        -> n = MipGenerator.countMipLevels [64; 4] - 1).
Proof.
  apply (X24_generate_pass_bounds
           32 sample_gpu (plain_device 7%nat 8192)
           (texture_of 100%nat 64 4 "rgba8unorm") (Some (-1)) ready_world).
  - apply cache_wf_empty. reflexivity.
  - reflexivity.
  - eexists. reflexivity.
  - split; reflexivity.
  - cbn. lia.
  - cbn. lia.
  - lia.
Defined.

End PassBounds.

(** ** The worlds a loader can reach *)

Section Reachable.

Lemma quiet_bind {A B} (c : M A) (k : A -> M B) :
  quiet c -> (forall a, quiet (k a)) -> quiet (bind c k).
Proof.
  intros Hc Hk w. unfold bind. specialize (Hc w).
  destruct (c w) as [[a | e |] w1]; cbn [snd] in *; try exact Hc.
  rewrite Hk. exact Hc.
Qed.

Lemma quiet_getBindGroup gpu program texture l :
  quiet (MipGenerator.getBindGroup gpu program texture l).
Proof.
  intros w.
  unfold MipGenerator.getBindGroup, Device.createBindGroup, Program.read,
    MipGenerator.this, Gpu.device, Program.pipeline, MipGenerator.sampler,
    bind, lift, fresh, emit, ret.
  cbn. destruct (_device gpu); cbn; [| reflexivity].
  destruct (_pipeline _); cbn; [| reflexivity].
  destruct (_sampler _); cbn; reflexivity.
Qed.

Lemma quiet_renderMipmap encoder program desc bg :
  quiet (MipGenerator.renderMipmap encoder program desc bg).
Proof.
  intros w.
  unfold MipGenerator.renderMipmap, Program.read, Program.pipeline,
    bind, lift, emit, ret.
  cbn. destruct (_pipeline _); cbn; reflexivity.
Qed.

Lemma quiet_generate_loop (fuel : nat) gpu program texture encoder count :
  forall width height l,
    quiet (MipGenerator.generate_loop fuel gpu program texture encoder
                                      count width height l).
Proof.
  induction fuel as [| fuel IH]; intros width height l;
    cbn [MipGenerator.generate_loop];
    destruct (MipGenerator.continues count width height l);
    try (intros w; reflexivity).
  apply quiet_bind; [apply quiet_getBindGroup |]. intros bg.
  apply quiet_bind; [apply quiet_renderMipmap |]. intros _. apply IH.
Qed.

Lemma quiet_generate_resume fuel gpu texture levels program :
  quiet (MipGenerator.generate_resume fuel gpu texture levels program).
Proof.
  unfold MipGenerator.generate_resume.
  apply quiet_bind; [intros w; reflexivity |]. intros d.
  apply quiet_bind; [intros w; reflexivity |]. intros encoder.
  apply quiet_bind; [apply quiet_generate_loop |]. intros final.
  apply quiet_bind; [intros w; reflexivity |]. intros buffer.
  apply quiet_bind; [intros w; reflexivity |]. intros d'.
  apply quiet_bind; intros; intros w; reflexivity.
Qed.

Lemma quiet_getProgram gpu f : quiet (MipGenerator.getProgram gpu f).
Proof.
  intros w.
  unfold MipGenerator.getProgram, Program.init, Program.alloc,
    Program.update, Device.createShaderModule, Device.createRenderPipeline,
    MipGenerator.this, MipGenerator.assign, Gpu.device,
    bind, lift, fresh, emit, ret.
  cbn. destruct (_programMap (mipGenerator w) !! f); cbn; [reflexivity |].
  destruct (_device gpu) as [d |]; cbn; [| reflexivity].
  destruct (createShaderModule_throws d _); cbn; [reflexivity |].
  destruct (createRenderPipeline_throws d f); cbn; reflexivity.
Qed.

Lemma quiet_generate fuel gpu texture levels :
  quiet (MipGenerator.generate fuel gpu texture levels).
Proof.
  rewrite generate_parts. apply quiet_bind; [apply quiet_getProgram |].
  intros program. apply quiet_generate_resume.
Qed.

Lemma quiet_init gpu : quiet (MipGenerator.init gpu).
Proof.
  intros w.
  unfold MipGenerator.init, MipGenerator.this, MipGenerator.assign,
    Device.createSampler, Gpu.device, bind, lift, fresh, emit, ret.
  cbn. destruct (_device gpu); reflexivity.
Qed.

(** An awaited call leaves the job queue as it is. *)
Lemma perform_quiet (c : Call) (w : World) :
  awaited c -> pending (perform c w) = pending w.
Proof.
  intros Hc. destruct c; cbn [perform]; try contradiction.
  - apply quiet_init.
  - apply quiet_getProgram.
  - apply quiet_generate.
Qed.

Lemma grows_length (w w' : World) :
  grows w w' -> (length (heap w) <= length (heap w'))%nat.
Proof.
  intros [Hh _].
  destruct (Nat.le_gt_cases (length (heap w)) (length (heap w'))) as [| Hgt];
    [assumption |].
  destruct (lookup_lt_is_Some_2 (heap w) (length (heap w')) Hgt) as [p Hp].
  apply Hh in Hp. apply lookup_lt_Some in Hp. lia.
Qed.

Lemma job_wf_kept (w w' : World) (j : Job) :
  grows w w' ->
  (forall f r, _programMap (mipGenerator w') !! f = Some r ->
               _programMap (mipGenerator w) !! f = Some r
               \/ (length (heap w) <= r)%nat) ->
  job_wf w j -> job_wf w' j.
Proof.
  intros [Hh _] Hmap.
  destruct j as [gpu texture levels program [[] | e |] | gpu texture levels program];
    cbn [job_wf]; try (intros; exact I).
  intros [(p & Hp & Hready) Hnot]. split.
  - exists p. split; [apply Hh; exact Hp | exact Hready].
  - intros f Hf. destruct (Hmap f program Hf) as [Hold | Hnew].
    + exact (Hnot f Hold).
    + apply lookup_lt_Some in Hp. lia.
Qed.

Lemma programs_to_store_app (q1 q2 : list Job) :
  programs_to_store (q1 ++ q2) = programs_to_store q1 ++ programs_to_store q2.
Proof.
  induction q1 as [| j q1 IH]; [reflexivity |].
  destruct j as [gpu texture levels program [[] | e |] | gpu texture levels program];
    cbn [app programs_to_store]; rewrite IH; reflexivity.
Qed.

Lemma programs_to_store_bound (w : World) (q : list Job) :
  Forall (job_wf w) q ->
  Forall (fun r => (r < length (heap w))%nat) (programs_to_store q).
Proof.
  induction 1 as [| j q Hj _ IH]; [constructor |].
  destruct j as [gpu texture levels program [[] | e |] | gpu texture levels program];
    cbn [programs_to_store]; try exact IH.
  constructor; [| exact IH].
  destruct Hj as [(p & Hp & _) _]. apply lookup_lt_Some in Hp. exact Hp.
Qed.

(** A call of that shape keeps a world well formed. *)
Lemma call_shape_wf (w w' : World) :
  call_shape w w' -> world_wf w -> world_wf w'.
Proof.
  intros (Hgrow & Hmap & Hcache & extra & Hq & Hextra & Hnodup & Hfresh)
         (Hwf & Hjobs & Hdistinct).
  split; [apply Hcache; exact Hwf |].
  rewrite Hq. split.
  - apply Forall_app. split; [| exact (Hextra Hwf)].
    eapply Forall_impl; [exact Hjobs |].
    intros j Hj. exact (job_wf_kept w w' j Hgrow Hmap Hj).
  - rewrite programs_to_store_app. apply NoDup_app. split; [exact Hdistinct |].
    split; [| exact Hnodup].
    intros r Hold Hnew.
    assert (Hlt := programs_to_store_bound w (pending w) Hjobs).
    rewrite Forall_forall in Hlt, Hfresh.
    specialize (Hlt r Hold). specialize (Hfresh r Hnew). lia.
Qed.

Lemma shape_quiet (w w' : World) :
  grows w w' ->
  (forall f r, _programMap (mipGenerator w') !! f = Some r ->
               _programMap (mipGenerator w) !! f = Some r
               \/ (length (heap w) <= r)%nat) ->
  (cache_wf w -> cache_wf w') ->
  pending w' = pending w ->
  call_shape w w'.
Proof.
  intros Hg Hm Hc Hq. split; [exact Hg |]. split; [exact Hm |].
  split; [exact Hc |]. exists []. rewrite app_nil_r.
  split; [exact Hq |]. split; [intros _; constructor |].
  split; constructor.
Qed.

Lemma getProgram_entries (gpu : Gpu) (f : GPUTextureFormat) (w : World) :
  forall f0 r,
    _programMap (mipGenerator (snd (MipGenerator.getProgram gpu f w))) !! f0
    = Some r ->
    _programMap (mipGenerator w) !! f0 = Some r \/ (length (heap w) <= r)%nat.
Proof.
  intros f0 r.
  unfold MipGenerator.getProgram, Program.init, Program.alloc,
    Program.update, Device.createShaderModule, Device.createRenderPipeline,
    MipGenerator.this, MipGenerator.assign, Gpu.device,
    bind, lift, fresh, emit, ret.
  cbn. destruct (_programMap (mipGenerator w) !! f) eqn:Hf; cbn;
    [intros H; left; exact H |].
  destruct (_device gpu) as [d |]; cbn; [| intros H; left; exact H].
  destruct (createShaderModule_throws d _); cbn; [intros H; left; exact H |].
  destruct (createRenderPipeline_throws d f); cbn; [intros H; left; exact H |].
  intros Hin. apply lookup_insert_Some in Hin as [[_ <-] | [_ Hin]];
    [right; lia | left; exact Hin].
Qed.

Lemma cache_wf_same_map (w w' : World) :
  grows w w' ->
  _programMap (mipGenerator w') = _programMap (mipGenerator w) ->
  cache_wf w -> cache_wf w'.
Proof.
  intros [Hh _] Hm [Hready Hinj]. unfold cache_wf. rewrite Hm. split.
  - intros f r Hf. destruct (Hready f r Hf) as (p & Hp & Hrest).
    exists p. split; [apply Hh; exact Hp | exact Hrest].
  - exact Hinj.
Qed.

(** The job a started [generate] leaves. *)
Lemma generate_start_job (gpu : Gpu) (texture : GPUTexture) (levels : option Z)
      (w : World) :
  let w' := snd (MipGenerator.generate_start gpu texture levels w) in
  exists j,
    pending w' = pending w ++ [j]
    /\ (programs_to_store [j] = []
        \/ (programs_to_store [j] = [length (heap w)]
            /\ exists p, heap w' !! length (heap w) = Some p
                         /\ is_Some (_shaderModule p) /\ is_Some (_pipeline p))).
Proof.
  unfold MipGenerator.generate_start, Program.init, Program.alloc,
    Program.update, Device.createShaderModule, Device.createRenderPipeline,
    MipGenerator.this, Gpu.device, settle, spawn, bind, lift, fresh, emit, ret.
  cbn.
  destruct (_programMap (mipGenerator w) !! format texture) as [r |]; cbn;
    [eexists; split; [reflexivity | left; reflexivity] |].
  destruct (_device gpu) as [d |]; cbn;
    [| eexists; split; [reflexivity | left; reflexivity]].
  destruct (createShaderModule_throws d _); cbn;
    [eexists; split; [reflexivity | left; reflexivity] |].
  destruct (createRenderPipeline_throws d _); cbn;
    [eexists; split; [reflexivity | left; reflexivity] |].
  eexists. split; [reflexivity |]. right. split; [reflexivity |].
  rewrite !alter_snoc. cbn.
  eexists. split; [apply list_lookup_middle; reflexivity |].
  cbn. split; eexists; reflexivity.
Qed.

Lemma createTexture_generator (options : CreateTextureOptions) (w : World) :
  mipGenerator (snd (TextureLoader.createTexture options w)) = mipGenerator w.
Proof.
  destruct (_device (options_gpu options)) as [d |] eqn:Hd.
  - rewrite (createTexture_run options d w Hd). cbn [snd].
    destruct (JS.truthy_int _); [| reflexivity].
    destruct (generate_start_returns (options_gpu options)
                                     (created_texture options w) None
                                     (after_copy options w)) as (_ & -> & _).
    reflexivity.
  - unfold TextureLoader.createTexture, Gpu.device, bind, lift.
    rewrite Hd. reflexivity.
Qed.

Lemma perform_shape (c : Call) (w : World) :
  (forall fuel, c <> CallTick fuel) -> call_shape w (perform c w).
Proof.
  intros Hc.
  assert (Hgrow := perform_grows c w).
  destruct c as [gpu | gpu f | fuel gpu texture levels | options | fuel];
    cbn [perform] in *.
  - apply shape_quiet; [exact Hgrow | | apply wf_init | apply quiet_init].
    intros f r.
    unfold TextureLoader.init, MipGenerator.init, MipGenerator.this,
      MipGenerator.assign, Device.createSampler, Gpu.device, bind, lift,
      fresh, emit, ret.
    cbn. destruct (_device gpu); cbn; intros H; left; exact H.
  - apply shape_quiet; [exact Hgrow | apply getProgram_entries
                       | apply getProgram_wf | apply quiet_getProgram].
  - apply shape_quiet; [exact Hgrow | | apply wf_generate | apply quiet_generate].
    rewrite generate_tail_frame. apply getProgram_entries.
  - assert (Hgen := createTexture_generator options w).
    split; [exact Hgrow |].
    split; [intros f r; rewrite Hgen; intros H; left; exact H |].
    split; [apply cache_wf_same_map; [exact Hgrow | rewrite Hgen; reflexivity] |].
    destruct (_device (options_gpu options)) as [d |] eqn:Hd.
    + revert Hgen. rewrite (createTexture_run options d w Hd). cbn [snd].
      destruct (JS.truthy_int _).
      * intros Hgen.
        destruct (generate_start_job (options_gpu options)
                                     (created_texture options w) None
                                     (after_copy options w))
          as (j & Hq & Hj).
        cbn zeta in Hq, Hj. exists [j]. split; [exact Hq |].
        destruct Hj as [Hnone | [Hone (p & Hp & Hready)]].
        -- rewrite Hnone. split; [| split; constructor].
           intros _. constructor; [| constructor].
           destruct j as [g t l pr [[] | e |] | g t l pr]; cbn [job_wf];
             try exact I.
           discriminate Hnone.
        -- rewrite Hone. split; [| split].
           ++ intros [Hcached _]. constructor; [| constructor].
              destruct j as [g t l pr [[] | e |] | g t l pr]; cbn [job_wf];
                try exact I.
              cbn in Hone. injection Hone as ->.
              split; [exists p; split; assumption |].
              intros f Hf. rewrite Hgen in Hf.
              destruct (Hcached f _ Hf) as (p0 & Hp0 & _).
              apply lookup_lt_Some in Hp0. lia.
           ++ constructor; [intros H; inversion H | constructor].
           ++ constructor; [cbn; lia | constructor].
      * intros _. exists []. rewrite app_nil_r. cbn.
        split; [reflexivity |]. split; [intros _; constructor |].
        split; constructor.
    + exists []. rewrite app_nil_r.
      unfold TextureLoader.createTexture, Gpu.device, bind, lift.
      rewrite Hd. cbn.
      split; [reflexivity |]. split; [intros _; constructor |].
      split; constructor.
  - exfalso. exact (Hc fuel eq_refl).
Qed.

(** A turn of the job queue keeps a world well formed: a program that is
    stored is built, is held by no other format, and is not the program
    of any job that still waits. *)
Lemma tick_wf (fuel : nat) (w : World) :
  world_wf w -> world_wf (snd (MipGenerator.tick fuel w)).
Proof.
  intros (Hwf & Hjobs & Hdistinct).
  destruct (pending w) as [| j rest] eqn:Hq.
  { unfold MipGenerator.tick, next_job, bind, ret. rewrite Hq. cbn.
    split; [exact Hwf |]. rewrite Hq. split; constructor. }
  rewrite (tick_run fuel j rest w Hq).
  apply Forall_cons_1 in Hjobs as [Hj Hrest].
  destruct j as [gpu texture levels program [[] | e |] | gpu texture levels program].
  - (* the program is stored *)
    rewrite run_job_resume_getProgram. cbn [snd].
    cbn [programs_to_store] in Hdistinct.
    apply NoDup_cons in Hdistinct as [Hfresh Hdistinct].
    destruct Hj as [(p & Hp & Hready) Hnot].
    destruct Hwf as [Hcached Hinj].
    split; [split |]; cbn [mipGenerator heap pending with_pending _programMap].
    + intros f r Hf. apply lookup_insert_Some in Hf as [[_ <-] | [_ Hf]].
      * exists p. split; assumption.
      * apply (Hcached f r Hf).
    + intros f1 f2 r H1 H2.
      apply lookup_insert_Some in H1 as [[<- <-] | [Hne1 H1]];
        apply lookup_insert_Some in H2 as [[<- E2] | [Hne2 H2]];
        try reflexivity.
      * exfalso. exact (Hnot _ H2).
      * exfalso. subst r. exact (Hnot _ H1).
      * exact (Hinj _ _ _ H1 H2).
    + split.
      * apply Forall_app. split; [| repeat constructor].
        rewrite Forall_forall in Hrest |- *. intros j Hin.
        specialize (Hrest j Hin).
        destruct j as [g t l pr [[] | e |] | g t l pr]; cbn [job_wf] in *;
          try exact I.
        destruct Hrest as [Hcell Hnot']. split; [exact Hcell |].
        intros f Hf. cbn in Hf.
        apply lookup_insert_Some in Hf as [[_ Heq] | [_ Hf]].
        -- subst pr. apply Hfresh.
           clear - Hin. induction rest as [| j0 rest IH]; [inversion Hin |].
           apply elem_of_cons in Hin as [<- | Hin]; [left |].
           destruct j0 as [g0 t0 l0 pr0 [[] | e0 |] | g0 t0 l0 pr0];
             cbn [programs_to_store]; try (right; apply IH; exact Hin);
             apply IH; exact Hin.
        -- exact (Hnot' f Hf).
      * rewrite programs_to_store_app, app_nil_r. exact Hdistinct.
  - cbn [MipGenerator.run_job]. unfold bind, ret, spawn.
    cbn [fst snd pending with_pending next_handle commands heap mipGenerator].
    cbn [programs_to_store] in Hdistinct.
    split; [exact Hwf |]. split; cbn [pending].
    + apply Forall_app. split; [exact Hrest | repeat constructor].
    + rewrite programs_to_store_app, app_nil_r. exact Hdistinct.
  - cbn [MipGenerator.run_job]. unfold bind, ret, spawn.
    cbn [fst snd pending with_pending next_handle commands heap mipGenerator].
    cbn [programs_to_store] in Hdistinct.
    split; [exact Hwf |]. split; cbn [pending].
    + apply Forall_app. split; [exact Hrest | repeat constructor].
    + rewrite programs_to_store_app, app_nil_r. exact Hdistinct.
  - (* the rest of generate: the cache and the queue are left alone *)
    assert (Hframe : forall o w0,
               snd (MipGenerator.run_job
                      fuel (ResumeGenerate gpu texture levels o) w0) = w0
               \/ exists p, o = Ok p
                            /\ snd (MipGenerator.run_job
                                      fuel (ResumeGenerate gpu texture levels o) w0)
                               = snd (MipGenerator.generate_resume
                                        fuel gpu texture levels p w0)).
    { intros [p | e |] w0; [right | left; reflexivity | left; reflexivity].
      exists p. split; [reflexivity |]. rewrite run_job_resume_generate.
      destruct (MipGenerator.generate_resume _ _ _ _ _ _); reflexivity. }
    cbn [programs_to_store] in Hdistinct.
    destruct (Hframe program (with_pending rest w)) as [-> | (p & -> & ->)].
    + split; [exact Hwf |]. split; [exact Hrest | exact Hdistinct].
    + assert (Hg := growing_generate_resume fuel gpu texture levels p
                                            (with_pending rest w)).
      assert (Hs : mip_frame (MipGenerator.generate_resume
                                fuel gpu texture levels p)).
      { unfold MipGenerator.generate_resume.
        repeat (apply frame_bind; [| intros ?]);
          auto using frame_ret, frame_lift, frame_fresh, frame_emit,
            frame_createCommandEncoder, frame_generate_loop, frame_finish,
            frame_submit. }
      destruct (Hs (with_pending rest w)) as [Hm Hh].
      assert (Hquiet := quiet_generate_resume fuel gpu texture levels p
                                              (with_pending rest w)).
      split; [| split].
      * unfold cache_wf. rewrite Hm, Hh. exact Hwf.
      * rewrite Hquiet. cbn [pending with_pending].
        eapply Forall_impl; [exact Hrest |]. intros j Hj'.
        destruct j as [g t l pr [[] | e |] | g t l pr]; cbn [job_wf] in *;
          try exact I.
        rewrite Hm, Hh. exact Hj'.
      * rewrite Hquiet. exact Hdistinct.
Qed.

(** Every world a loader reaches, by whatever calls and turns of the job
    queue, is well formed; in particular its cache is. *)
Lemma perform_world_wf (c : Call) (w : World) :
  world_wf w -> world_wf (perform c w).
Proof.
  intros Hwf. destruct c as [gpu | gpu f | fuel gpu texture levels | options | fuel];
    try (apply (call_shape_wf w); [apply perform_shape; discriminate | exact Hwf]).
  cbn [perform]. apply tick_wf. exact Hwf.
Qed.

Lemma reachable_world_wf (cs : list Call) : world_wf (perform_all cs initial_world).
Proof.
  assert (H : forall w, world_wf w -> world_wf (perform_all cs w)).
  { induction cs as [| c cs IH]; intros w Hwf; [exact Hwf |].
    cbn [perform_all fold_left]. apply IH. apply perform_world_wf. exact Hwf. }
  apply H. split; [apply cache_wf_empty; reflexivity |].
  split; constructor.
Qed.

(** X26: a [generate] that nobody awaits ends as an awaited one.  Started
    while no job waits, the call runs to its first [await]; when the job
    queue is then let run until the call settles, the call has returned or
    thrown what the awaited call returns or throws, and the world, the job
    queue empty again, is the world the awaited call leaves. *)
Theorem X26_unawaited_generate_settles_like_awaited
        (fuel : nat) (gpu : Gpu) (texture : GPUTexture) (levels : option Z)
        (w : World) :
  pending w = [] ->
  let started := snd (MipGenerator.generate_start gpu texture levels w) in
  fst (MipGenerator.generate_start gpu texture levels w) = Ok tt
  /\ length (pending started) = 1%nat
  /\ TextureLoader.run_pending fuel started
     = (Ok (Some (fst (MipGenerator.generate fuel gpu texture levels w))),
        snd (MipGenerator.generate fuel gpu texture levels w))
  /\ pending (snd (MipGenerator.generate fuel gpu texture levels w)) = [].
Proof.
  intros Hq started.
  destruct (generate_start_returns gpu texture levels w) as (Hok & _ & j & Hj).
  assert (Hsettle := started_generate_settles fuel gpu texture levels w Hq).
  unfold bind in Hsettle. subst started.
  destruct (MipGenerator.generate_start gpu texture levels w) as [o w1].
  cbn [fst snd] in *. subst o.
  split; [reflexivity |]. split; [rewrite Hj, Hq; reflexivity |].
  split.
  - rewrite Hsettle.
    destruct (MipGenerator.generate fuel gpu texture levels w); reflexivity.
  - rewrite quiet_generate. exact Hq.
Qed.

Lemma X26_unawaited_generate_settles_like_awaited_witness :
  let texture := texture_of 9%nat 8 2 "rgba8unorm" in
  TextureLoader.run_pending
    32 (snd (MipGenerator.generate_start sample_gpu texture None ready_world))
  = (Ok (Some (fst (MipGenerator.generate 32 sample_gpu texture None ready_world))),
     snd (MipGenerator.generate 32 sample_gpu texture None ready_world))
  /\ fst (MipGenerator.generate 32 sample_gpu texture None ready_world) = Ok 3.
Proof.
  intros texture.
  pose proof (X26_unawaited_generate_settles_like_awaited
                32 sample_gpu texture None ready_world eq_refl)
    as (_ & _ & H & _).
  split; [exact H | reflexivity].
Defined.

(** X27: in every world a loader reaches from its construction, by
    whatever sequence of [init], [getProgram], [generate], [createTexture]
    and turns of the job queue, the cache is well formed: every cached
    program has its shader module and its pipeline, and no two formats
    hold the same program; a call of [getProgram] for a cached format
    returns its program and leaves the world as it is; and the programs the
    waiting jobs are going to store are built, not yet cached, and all
    different. *)
Theorem X27_reachable_worlds_are_well_formed (cs : list Call) :
  let w := perform_all cs initial_world in
  cache_wf w
  /\ (forall gpu f r,
         _programMap (mipGenerator w) !! f = Some r ->
         MipGenerator.getProgram gpu f w = (Ok r, w)
         /\ exists p m pl, heap w !! r = Some p
                           /\ Program.shaderModule p = Ok m
                           /\ Program.pipeline p = Ok pl)
  /\ Forall (job_wf w) (pending w)
  /\ NoDup (programs_to_store (pending w)).
Proof.
  intros w. destruct (reachable_world_wf cs) as (Hwf & Hjobs & Hdistinct).
  fold w in Hwf, Hjobs, Hdistinct.
  split; [exact Hwf |]. split; [| split; assumption].
  intros gpu f r Hf. split; [apply getProgram_cached; exact Hf |].
  destruct Hwf as [Hready _].
  destruct (Hready f r Hf) as (p & Hp & [m Hm] & [pl Hpl]).
  exists p, m, pl. unfold Program.shaderModule, Program.pipeline.
  rewrite Hm, Hpl. repeat split. exact Hp.
Qed.

End Reachable.
